(** * verhel.py: the descriptor-driven generation pipeline

    A shallow embedding of [src/verhel.py] (class [VerHel] and its helpers)
    and the properties of its validation, global fallback, VCS querying,
    cooking, rendering and command layer.

    Python values loaded from JSON are a tagged union; a [dict] is an
    association list in insertion order; code that logs, reads the clock,
    runs commands or touches files is written in a state-and-exception monad
    over an explicit [World]. *)

From Stdlib Require Import ZArith List Bool Lia.
From Stdlib Require Import Strings.String Strings.Ascii Numbers.DecimalString.
From Stdlib Require Import Floats.SpecFloat.
Import ListNotations.

Set Warnings "-register-all".
Open Scope string_scope.
Open Scope Z_scope.

(* ================================================================== *)
(** * Python values *)
(* ================================================================== *)

(** What [json.loads] builds: [None], [bool], [int], [float], [str],
    [list] and [dict] (keys in insertion order). *)
Inductive value : Type :=
| JNull
| JBool (b : bool)
| JInt (n : Z)
| JFloat (f : spec_float)
| JStr (s : string)
| JList (l : list value)
| JObj (d : list (string * value)).

Definition dict := list (string * value).

(** Exceptions raised by the code or by the runtime under it.  All of
    them derive from Python's [Exception]. *)
Inductive PyExn : Type :=
| VerHelError (error_code : Z)
| TypeError (msg : string)
| ValueError (msg : string)
| KeyError (key : string)
| IndexError (msg : string)
| AttributeError (msg : string)
| OSError (msg : string)              (* also IOError *)
| StopIteration
| PyException (msg : string).         (* raise Exception(msg) *)

Inductive Res (A : Type) : Type :=
| Ok (a : A)
| Raise (e : PyExn).
Arguments Ok {A} a.
Arguments Raise {A} e.

Definition res_bind {A B} (r : Res A) (k : A -> Res B) : Res B :=
  match r with
  | Ok a => k a
  | Raise e => Raise e
  end.

(** [type(v).__name__] *)
Inductive PyType := TNone | TBool | TInt | TFloat | TStr | TList | TDict.

Definition type_of (v : value) : PyType :=
  match v with
  | JNull => TNone
  | JBool _ => TBool
  | JInt _ => TInt
  | JFloat _ => TFloat
  | JStr _ => TStr
  | JList _ => TList
  | JObj _ => TDict
  end.

Definition type_name (t : PyType) : string :=
  match t with
  | TNone => "NoneType"
  | TBool => "bool"
  | TInt => "int"
  | TFloat => "float"
  | TStr => "str"
  | TList => "list"
  | TDict => "dict"
  end.

Definition type_eqb (a b : PyType) : bool :=
  match a, b with
  | TNone, TNone | TBool, TBool | TInt, TInt | TFloat, TFloat
  | TStr, TStr | TList, TList | TDict, TDict => true
  | _, _ => false
  end.

Definition is_none (v : value) : bool :=
  match v with JNull => true | _ => false end.

(* ------------------------------------------------------------------ *)
(** ** Dictionaries *)

Fixpoint dict_find (d : dict) (k : string) : option value :=
  match d with
  | [] => None
  | (k', v) :: d' => if String.eqb k k' then Some v else dict_find d' k
  end.

(** [d.get(k)]: [None] when the key is absent. *)
Definition dict_get (d : dict) (k : string) : value :=
  match dict_find d k with
  | Some v => v
  | None => JNull
  end.

(** [k in d] *)
Definition dict_mem (d : dict) (k : string) : bool :=
  match dict_find d k with
  | Some _ => true
  | None => false
  end.

(** [d[k]]: [KeyError] when the key is absent. *)
Definition dict_index (d : dict) (k : string) : Res value :=
  match dict_find d k with
  | Some v => Ok v
  | None => Raise (KeyError k)
  end.

(** [d[k] = v]: an existing key keeps its position, a new key goes last. *)
Fixpoint dict_set (d : dict) (k : string) (v : value) : dict :=
  match d with
  | [] => [(k, v)]
  | (k', v') :: d' =>
      if String.eqb k k' then (k', v) :: d' else (k', v') :: dict_set d' k v
  end.

Definition dict_keys (d : dict) : list string := map fst d.

(** The keys of a Python dict are pairwise distinct. *)
Definition dict_wf (d : dict) : Prop := NoDup (dict_keys d).

(* ------------------------------------------------------------------ *)
(** ** Equality ([==]) *)

(** The exact value of a finite float is [(-1)^s * m * 2^e]; Python
    compares [int] and [float] exactly. *)
Definition float_eq_int (f : spec_float) (n : Z) : bool :=
  match f with
  | S754_zero _ => n =? 0
  | S754_infinity _ => false
  | S754_nan => false
  | S754_finite s m e =>
      let sm := if s then Z.opp (Z.pos m) else Z.pos m in
      if 0 <=? e then n =? sm * 2 ^ e
      else n * 2 ^ (Z.opp e) =? sm
  end.

Definition as_int (v : value) : option Z :=
  match v with
  | JBool b => Some (if b then 1 else 0)
  | JInt n => Some n
  | _ => None
  end.

Fixpoint py_eq (a b : value) {struct a} : bool :=
  match a with
  | JNull => is_none b
  | JBool x =>
      match b with
      | JFloat f => float_eq_int f (if x then 1 else 0)
      | _ => match as_int b with Some n => (if x then 1 else 0) =? n | None => false end
      end
  | JInt x =>
      match b with
      | JFloat f => float_eq_int f x
      | _ => match as_int b with Some n => x =? n | None => false end
      end
  | JFloat f =>
      match b with
      | JFloat g => SFeqb f g
      | _ => match as_int b with Some n => float_eq_int f n | None => false end
      end
  | JStr s => match b with JStr t => String.eqb s t | _ => false end
  | JList l =>
      match b with
      | JList l' =>
          (fix eq_list (l : list value) (l' : list value) : bool :=
             match l, l' with
             | [], [] => true
             | x :: r, y :: r' => py_eq x y && eq_list r r'
             | _, _ => false
             end) l l'
      | _ => false
      end
  | JObj d =>
      match b with
      | JObj d' =>
          (Nat.eqb (List.length d) (List.length d')) &&
          (fix eq_items (d : list (string * value)) : bool :=
             match d with
             | [] => true
             | (k, v) :: r =>
                 match dict_find d' k with
                 | Some v' => py_eq v v' && eq_items r
                 | None => false
                 end
             end) d
      | _ => false
      end
  end.

(** [x in l] for a list [l] of distinct objects none of which is [x]. *)
Definition list_mem (x : value) (l : list value) : bool :=
  existsb (py_eq x) l.

(** [l.index(l[i])]: the first position whose element is the same object
    as, or equal to, the element at position [i].  The elements of a
    loaded list are distinct objects, so identity is equality of
    positions. *)
Fixpoint list_index_from (l : list value) (j i : nat) (x : value) : nat :=
  match l with
  | [] => i
  | y :: r =>
      if (Nat.eqb j i || py_eq y x)%bool then j
      else list_index_from r (S j) i x
  end.

Definition list_index (l : list value) (i : nat) : nat :=
  list_index_from l 0 i (nth i l JNull).

(* ------------------------------------------------------------------ *)
(** ** Text *)

Definition str_of_Z (n : Z) : string := NilZero.string_of_int (Z.to_int n).

Fixpoint join (sep : string) (l : list string) : string :=
  match l with
  | [] => ""
  | [x] => x
  | x :: r => x ++ sep ++ join sep r
  end.

Fixpoint starts_with (p s : string) : bool :=
  match p, s with
  | EmptyString, _ => true
  | String a p', String b s' => Ascii.eqb a b && starts_with p' s'
  | String _ _, EmptyString => false
  end.

Fixpoint drop (n : nat) (s : string) : string :=
  match n, s with
  | O, _ => s
  | S n', String _ s' => drop n' s'
  | S _, EmptyString => EmptyString
  end.

(** The part of the Python runtime the program calls and this
    development does not define: Unicode case mapping and white space,
    the printing of floats and of quoted strings, [int()] on text, and the
    two corners of the format mini-language outside plain positional
    fields.  Every property below holds for any such runtime. *)
Class PyRuntime : Type := {
  str_upper : string -> string;               (* s.upper() *)
  str_lower : string -> string;               (* s.lower() *)
  str_strip : string -> string;               (* s.strip() *)
  str_rstrip : string -> string;              (* s.rstrip() *)
  str_splitlines : string -> list string;     (* s.splitlines() *)
  str_repr : string -> string;                (* repr(s) *)
  str_ascii : string -> string;               (* the escaping done by ascii() *)
  float_repr : spec_float -> string;          (* repr(f) *)
  int_of_str : string -> option Z;            (* int(s); None is ValueError *)
  format_with_spec : value -> string -> Res string;  (* format(v, spec), spec <> '' *)
  lookup_tail : value -> string -> Res value; (* the .attr / [index] part of a field *)
  shlex_split : string -> Res (list string);  (* shlex.split(s) *)
  path_str : string -> string;                (* str(pathlib.Path(p)) *)
  path_parent : string -> string              (* str(pathlib.Path(p).parent) *)
}.

(* ================================================================== *)
(** * [str()], [repr()] and the format engine *)
(* ================================================================== *)

Section Text.
Context {RT : PyRuntime}.

Fixpoint py_repr (v : value) : string :=
  match v with
  | JNull => "None"
  | JBool true => "True"
  | JBool false => "False"
  | JInt n => str_of_Z n
  | JFloat f => float_repr f
  | JStr s => str_repr s
  | JList l => "[" ++ join ", " (map py_repr l) ++ "]"
  | JObj d =>
      "{" ++ join ", "
        (map (fun kv : string * value =>
                let (k, x) := kv in str_repr k ++ ": " ++ py_repr x) d)
      ++ "}"
  end.

(** [str(v)], which is also [format(v, '')]. *)
Definition py_str (v : value) : string :=
  match v with
  | JStr s => s
  | _ => py_repr v
  end.

(** ** Parsing a format string

    The scanner of CPython's [_string.formatter_parser], one character at
    a time.  It yields literal chunks and replacement fields in order and
    may stop on a [ValueError]; since parsing is lazy, the fields before
    the error are rendered first. *)
Inductive fmt_item : Type :=
| FLit (text : string)
| FField (field_name : string) (conversion : option ascii) (format_spec : string).

Inductive pstate : Type :=
| QLit (lit : string)                 (* in literal text *)
| QOpen (lit : string)                (* after a '{' *)
| QClose (lit : string)               (* after a '}' *)
| QName (name : string) (inbr : bool) (* in a field name, maybe inside [..] *)
| QBang (name : string)               (* after '!' *)
| QConv (name : string) (cv : ascii)  (* after the conversion character *)
| QSpec (name : string) (cv : option ascii) (spec : string) (depth : nat).

Fixpoint snoc (s : string) (c : ascii) : string :=
  match s with
  | EmptyString => String c EmptyString
  | String a r => String a (snoc r c)
  end.

Definition name_step (name : string) (inbr : bool) (c : ascii)
  : list fmt_item * (pstate + PyExn) :=
  if inbr then ([], inl (QName (snoc name c) (negb (Ascii.eqb c "]"))))
  else if Ascii.eqb c "{" then
    ([], inr (ValueError "unexpected '{' in field name"))
  else if Ascii.eqb c "[" then ([], inl (QName (snoc name c) true))
  else if Ascii.eqb c "}" then ([FField name None ""], inl (QLit ""))
  else if Ascii.eqb c ":" then ([], inl (QSpec name None "" 0))
  else if Ascii.eqb c "!" then ([], inl (QBang name))
  else ([], inl (QName (snoc name c) false)).

Definition pstep (q : pstate) (c : ascii) : list fmt_item * (pstate + PyExn) :=
  match q with
  | QLit lit =>
      if Ascii.eqb c "{" then ([], inl (QOpen lit))
      else if Ascii.eqb c "}" then ([], inl (QClose lit))
      else ([], inl (QLit (snoc lit c)))
  | QOpen lit =>
      if Ascii.eqb c "{" then ([FLit (snoc lit c)], inl (QLit ""))
      else let (out, q') := name_step "" false c in (FLit lit :: out, q')
  | QClose lit =>
      if Ascii.eqb c "}" then ([FLit (snoc lit c)], inl (QLit ""))
      else ([], inr (ValueError "Single '}' encountered in format string"))
  | QName name inbr => name_step name inbr c
  | QBang name => ([], inl (QConv name c))
  | QConv name cv =>
      if Ascii.eqb c "}" then ([FField name (Some cv) ""], inl (QLit ""))
      else if Ascii.eqb c ":" then ([], inl (QSpec name (Some cv) "" 0))
      else ([], inr (ValueError "expected ':' after conversion specifier"))
  | QSpec name cv spec depth =>
      if Ascii.eqb c "{" then ([], inl (QSpec name cv (snoc spec c) (S depth)))
      else if Ascii.eqb c "}" then
        match depth with
        | O => ([FField name cv spec], inl (QLit ""))
        | S d => ([], inl (QSpec name cv (snoc spec c) d))
        end
      else ([], inl (QSpec name cv (snoc spec c) depth))
  end.

Definition pfinish (q : pstate) : list fmt_item * option PyExn :=
  match q with
  | QLit lit => ([FLit lit], None)
  | QOpen _ => ([], Some (ValueError "Single '{' encountered in format string"))
  | QClose _ => ([], Some (ValueError "Single '}' encountered in format string"))
  | QName _ _ => ([], Some (ValueError "expected '}' before end of string"))
  | QBang _ =>
      ([], Some (ValueError "end of string while looking for conversion specifier"))
  | QConv _ _ => ([], Some (ValueError "unmatched '{' in format spec"))
  | QSpec _ _ _ _ => ([], Some (ValueError "unmatched '{' in format spec"))
  end.

Fixpoint parse_from (q : pstate) (s : string) : list fmt_item * option PyExn :=
  match s with
  | EmptyString => pfinish q
  | String c r =>
      let (out, next) := pstep q c in
      match next with
      | inl q' => let (items, err) := parse_from q' r in ((out ++ items)%list, err)
      | inr e => (out, Some e)
      end
  end.

Definition formatter_parser (s : string) : list fmt_item * option PyExn :=
  parse_from (QLit "") s.

(** ** Field names *)

Definition is_digit (c : ascii) : bool :=
  let n := nat_of_ascii c in (Nat.leb 48 n && Nat.leb n 57)%bool.

Fixpoint all_digits (s : string) : bool :=
  match s with
  | EmptyString => true
  | String c r => is_digit c && all_digits r
  end.

Fixpoint digits_value (acc : Z) (s : string) : Z :=
  match s with
  | EmptyString => acc
  | String c r => digits_value (acc * 10 + Z.of_nat (nat_of_ascii c - 48)) r
  end.

(** [formatter_field_name_split]: the part before the first '.' or '['
    and the rest. *)
Fixpoint field_name_split (s : string) : string * string :=
  match s with
  | EmptyString => ("", "")
  | String c r =>
      if (Ascii.eqb c "." || Ascii.eqb c "[")%bool then ("", s)
      else let (a, b) := field_name_split r in (String c a, b)
  end.

Definition PY_SSIZE_T_MAX : Z := 2 ^ 63 - 1.

(** ** Rendering *)

(** The hooks in which [str.format] and a [string.Formatter] subclass
    differ, and the way each numbers its fields: [str.format] goes by the
    part of the field name before the first '.' or '[',
    [string.Formatter._vformat] by the whole field name. *)
Record Formatter : Type := {
  convert_field : value -> option ascii -> Res value;
  get_value : list value -> nat -> Res value;
  numbers_whole_name : bool
}.

(** [auto_arg_index]: [Some n] is the next automatic index, [None] is
    Python's [False] (manual numbering in force). *)
Definition auto_state := option nat.

(** The object the first part of a field name stands for in
    [str.format]. *)
Definition str_first (F : Formatter) (first : string) (args : list value)
    (auto : auto_state) : Res (value * auto_state) :=
  if String.eqb first "" then
    match auto with
    | None =>
        Raise (ValueError
          "cannot switch from manual field specification to automatic field numbering")
    | Some n => res_bind (get_value F args n) (fun v => Ok (v, Some (S n)))
    end
  else if all_digits first then
    let i := digits_value 0 first in
    if PY_SSIZE_T_MAX <? i then
      Raise (ValueError "Too many decimal digits in format string")
    else
      match auto with
      | Some (S _) =>
          Raise (ValueError
            "cannot switch from automatic field numbering to manual field specification")
      | _ => res_bind (get_value F args (Z.to_nat i)) (fun v => Ok (v, None))
      end
  else Raise (KeyError first).

(** The same in [string.Formatter]: [_vformat] gives an empty field name
    the next index and takes a name made of digits as manual numbering
    (its two errors have the same text); [get_field] then splits the
    name, and a first part that is no number is looked up among the
    keyword arguments, of which there are none. *)
Definition lib_first (F : Formatter) (name first : string) (args : list value)
    (auto : auto_state) : Res (value * auto_state) :=
  if String.eqb name "" then
    match auto with
    | None =>
        Raise (ValueError
          "cannot switch from manual field specification to automatic field numbering")
    | Some n => res_bind (get_value F args n) (fun v => Ok (v, Some (S n)))
    end
  else
    res_bind
      (if all_digits name then
         match auto with
         | Some (S _) =>
             Raise (ValueError
               "cannot switch from manual field specification to automatic field numbering")
         | _ => Ok None
         end
       else Ok auto)
      (fun auto' =>
         if String.eqb first "" then Raise (KeyError "")
         else if all_digits first then
           let i := digits_value 0 first in
           if PY_SSIZE_T_MAX <? i then
             Raise (ValueError "Too many decimal digits in format string")
           else res_bind (get_value F args (Z.to_nat i)) (fun v => Ok (v, auto'))
         else Raise (KeyError first)).

Definition get_field (F : Formatter) (name : string) (args : list value)
    (auto : auto_state) : Res (value * auto_state) :=
  let (first, rest) := field_name_split name in
  res_bind
    (if numbers_whole_name F then lib_first F name first args auto
     else str_first F first args auto)
    (fun '(obj, auto') =>
       if String.eqb rest "" then Ok (obj, auto')
       else res_bind (lookup_tail obj rest) (fun v => Ok (v, auto'))).

Definition format_field (obj : value) (spec : string) : Res string :=
  if String.eqb spec "" then Ok (py_str obj) else format_with_spec obj spec.

(** [_vformat]; [depth] is [recursion_depth + 1]. *)
Fixpoint vformat (F : Formatter) (depth : nat) (template : string)
    (args : list value) (auto : auto_state) {struct depth}
  : Res (string * auto_state) :=
  match depth with
  | O => Raise (ValueError "Max string recursion exceeded")
  | S depth' =>
      let (items, err) := formatter_parser template in
      (fix render (items : list fmt_item) (acc : string) (auto : auto_state)
         : Res (string * auto_state) :=
         match items with
         | [] =>
             match err with
             | Some e => Raise e
             | None => Ok (acc, auto)
             end
         | FLit text :: r => render r (acc ++ text) auto
         | FField name cv spec :: r =>
             res_bind (get_field F name args auto) (fun '(obj, auto1) =>
             res_bind (convert_field F obj cv) (fun obj' =>
             res_bind (vformat F depth' spec args auto1) (fun '(spec', auto2) =>
             res_bind (format_field obj' spec') (fun text =>
             render r (acc ++ text) auto2))))
         end) items "" auto
  end.

(** [string.Formatter.convert_field] and the conversions of
    [str.format]. *)
Definition base_convert_field (v : value) (cv : option ascii) : Res value :=
  match cv with
  | None => Ok v
  | Some c =>
      if Ascii.eqb c "s" then Ok (JStr (py_str v))
      else if Ascii.eqb c "r" then Ok (JStr (py_repr v))
      else if Ascii.eqb c "a" then Ok (JStr (str_ascii (py_repr v)))
      else Raise (ValueError
             ("Unknown conversion specifier " ++ String c EmptyString))
  end.

Definition str_get_value (args : list value) (n : nat) : Res value :=
  match nth_error args n with
  | Some v => Ok v
  | None =>
      Raise (IndexError ("Replacement index " ++ str_of_Z (Z.of_nat n)
                         ++ " out of range for positional args tuple"))
  end.

Definition str_formatter : Formatter :=
  {| convert_field := base_convert_field; get_value := str_get_value;
     numbers_whole_name := false |}.

(** [template.format( *args )] *)
Definition str_format (template : string) (args : list value) : Res string :=
  res_bind (vformat str_formatter 3 template args (Some O))
           (fun r => Ok (fst r)).

(** [class VerHelFormatter(string.Formatter)] *)
Definition VerHelFormatter_convert_field (v : value) (cv : option ascii)
  : Res value :=
  match cv with
  | Some c =>
      if Ascii.eqb c "u" then Ok (JStr (str_upper (py_str v)))
      else if Ascii.eqb c "l" then Ok (JStr (str_lower (py_str v)))
      else base_convert_field v cv
  | None => base_convert_field v cv
  end.

Definition lib_get_value (args : list value) (n : nat) : Res value :=
  match nth_error args n with
  | Some v => Ok v
  | None => Raise (IndexError "tuple index out of range")
  end.

Definition VerHelFormatter : Formatter :=
  {| convert_field := VerHelFormatter_convert_field;
     get_value := lib_get_value;
     numbers_whole_name := true |}.

(** [fmtr.format(template, *args)] *)
Definition fmtr_format (template : string) (args : list value) : Res string :=
  res_bind (vformat VerHelFormatter 3 template args (Some O))
           (fun r => Ok (fst r)).

End Text.

(* ================================================================== *)
(** * A runtime for ASCII text *)
(* ================================================================== *)

(** An interpretation of [PyRuntime] to run the model on concrete inputs.
    It follows CPython on ASCII text; floats are printed as
    mantissa and binary exponent, and it implements no format
    specification and no attribute or index lookup in a field. *)
Module AsciiRuntime.

Definition map_str (f : ascii -> ascii) : string -> string :=
  fix go (s : string) : string :=
    match s with
    | EmptyString => EmptyString
    | String c r => String (f c) (go r)
    end.

Definition upper_char (c : ascii) : ascii :=
  let n := nat_of_ascii c in
  if (Nat.leb 97 n && Nat.leb n 122)%bool then ascii_of_nat (n - 32) else c.

Definition lower_char (c : ascii) : ascii :=
  let n := nat_of_ascii c in
  if (Nat.leb 65 n && Nat.leb n 90)%bool then ascii_of_nat (n + 32) else c.

Definition is_space (c : ascii) : bool :=
  let n := nat_of_ascii c in
  ((Nat.leb 9 n && Nat.leb n 13) || (Nat.leb 28 n && Nat.leb n 32))%bool.

Fixpoint lstrip (s : string) : string :=
  match s with
  | EmptyString => EmptyString
  | String c r => if is_space c then lstrip r else s
  end.

Fixpoint all_space (s : string) : bool :=
  match s with
  | EmptyString => true
  | String c r => is_space c && all_space r
  end.

Fixpoint rstrip (s : string) : string :=
  match s with
  | EmptyString => EmptyString
  | String c r => if all_space s then EmptyString else String c (rstrip r)
  end.

Definition strip (s : string) : string := rstrip (lstrip s).

Definition is_linebreak (c : ascii) : bool :=
  let n := nat_of_ascii c in
  (Nat.eqb n 10 || Nat.eqb n 11 || Nat.eqb n 12 || Nat.eqb n 13
   || Nat.eqb n 28 || Nat.eqb n 29 || Nat.eqb n 30)%bool.

(** [cur] is the line being read; a carriage return directly followed by
    a line feed is one break. *)
Fixpoint splitlines_from (cur : string) (s : string) : list string :=
  match s with
  | EmptyString => if String.eqb cur "" then [] else [cur]
  | String c r =>
      if is_linebreak c then
        match r with
        | String c' r' =>
            if (Nat.eqb (nat_of_ascii c) 13 && Nat.eqb (nat_of_ascii c') 10)%bool
            then cur :: splitlines_from "" r'
            else cur :: splitlines_from "" r
        | EmptyString => [cur]
        end
      else splitlines_from (cur ++ String c EmptyString) r
  end.

Definition hex_digit (n : nat) : ascii :=
  if Nat.ltb n 10 then ascii_of_nat (48 + n) else ascii_of_nat (87 + n).

Definition hex_escape (c : ascii) : string :=
  let n := nat_of_ascii c in
  String "\" (String "x" (String (hex_digit (Nat.div n 16))
                                    (String (hex_digit (Nat.modulo n 16)) EmptyString))).

Fixpoint contains_char (x : ascii) (s : string) : bool :=
  match s with
  | EmptyString => false
  | String c r => Ascii.eqb c x || contains_char x r
  end.

Definition dquote : ascii := ascii_of_nat 34.

Definition escape_char (quote : ascii) (c : ascii) : string :=
  let n := nat_of_ascii c in
  if (Ascii.eqb c quote || Ascii.eqb c "\")%bool then String "\" (String c EmptyString)
  else if Nat.eqb n 10 then "\n"
  else if Nat.eqb n 13 then "\r"
  else if Nat.eqb n 9 then "\t"
  else if (Nat.ltb n 32 || Nat.eqb n 127)%bool then hex_escape c
  else String c EmptyString.

Definition repr (s : string) : string :=
  let quote : ascii :=
    if (contains_char "'" s && negb (contains_char dquote s))%bool
    then dquote else "'"%char in
  String quote
    ((fix go (s : string) : string :=
        match s with
        | EmptyString => String quote EmptyString
        | String c r => escape_char quote c ++ go r
        end) s).

Definition ascii_escape (s : string) : string :=
  (fix go (s : string) : string :=
     match s with
     | EmptyString => EmptyString
     | String c r =>
         (if Nat.leb 128 (nat_of_ascii c) then hex_escape c
          else String c EmptyString) ++ go r
     end) s.

Definition float_text (f : spec_float) : string :=
  match f with
  | S754_zero s => if s then "-0.0" else "0.0"
  | S754_infinity s => if s then "-inf" else "inf"
  | S754_nan => "nan"
  | S754_finite s m e =>
      (if s then "-" else "") ++ str_of_Z (Z.pos m) ++ "*2**" ++ str_of_Z e
  end.

(** Digits with single underscores between them, as [int()] accepts. *)
Fixpoint parse_digits (acc : Z) (after_digit : bool) (s : string) : option Z :=
  match s with
  | EmptyString => if after_digit then Some acc else None
  | String c r =>
      let n := nat_of_ascii c in
      if (Nat.leb 48 n && Nat.leb n 57)%bool
      then parse_digits (acc * 10 + Z.of_nat (n - 48)) true r
      else if (Nat.eqb n 95 && after_digit)%bool then parse_digits acc false r
      else None
  end.

Definition parse_int (s : string) : option Z :=
  match strip s with
  | String "-" r => option_map Z.opp (parse_digits 0 false r)
  | String "+" r => parse_digits 0 false r
  | t => parse_digits 0 false t
  end.

(** Words separated by blanks; no quoting. *)
Fixpoint split_blank (cur : string) (s : string) : list string :=
  match s with
  | EmptyString => if String.eqb cur "" then [] else [cur]
  | String c r =>
      if is_space c
      then (if String.eqb cur "" then split_blank "" r
            else cur :: split_blank "" r)
      else split_blank (cur ++ String c EmptyString) r
  end.

(** The text before the last '/'; "." when there is none. *)
Fixpoint parent_from (s : string) : option string :=
  match s with
  | EmptyString => None
  | String c r =>
      match parent_from r with
      | Some p => Some (String c p)
      | None => if Ascii.eqb c "/" then Some EmptyString else None
      end
  end.

Definition parent_of (s : string) : string :=
  match parent_from s with
  | Some EmptyString => "/"
  | Some p => p
  | None => "."
  end.

#[export] Instance runtime : PyRuntime := {|
  str_upper := map_str upper_char;
  str_lower := map_str lower_char;
  str_strip := strip;
  str_rstrip := rstrip;
  str_splitlines := splitlines_from "";
  str_repr := repr;
  str_ascii := ascii_escape;
  float_repr := float_text;
  int_of_str := parse_int;
  format_with_spec := fun _ _ =>
    Raise (ValueError "format specifications are not implemented");
  lookup_tail := fun _ _ =>
    Raise (AttributeError "attribute and index lookups are not implemented");
  shlex_split := fun s => Ok (split_blank "" s);
  path_str := fun p => p;
  path_parent := parent_of
|}.

End AsciiRuntime.

(* ================================================================== *)
(** * The process: instance state, environment, effects *)
(* ================================================================== *)

(** [class ExitCodes] *)
Module ExitCodes.
Definition SUCCESS : Z := 0.
Definition FAILED_TO_LOAD_PROJECTS : Z := 1.
Definition FAILED_TO_SAVE_PROJECTS : Z := 2.
Definition FAILED_TO_LOAD_FRONTENDS : Z := 3.
Definition FAILED_TO_LOAD_BACKENDS : Z := 4.
Definition PROJECT_DOESNT_EXISTS : Z := 5.
Definition PROJECT_ALREADY_EXISTS : Z := 6.
Definition PROJECT_VALIDATION_FAILED : Z := 7.
Definition FRONTEND_DOESNT_EXISTS : Z := 8.
Definition BACKEND_DOESNT_EXISTS : Z := 9.
Definition FAILED_TO_ENTER_PROJECT_DIR : Z := 10.
Definition VERSION_CONTROL_NOT_INSTALLED : Z := 11.
Definition REPO_DOESNT_EXISTS : Z := 12.
Definition INVALID_KEY : Z := 13.
Definition INVALID_VALUE : Z := 14.
Definition VERSION_IS_NULL : Z := 15.
End ExitCodes.

(** [class LogType] *)
Inductive LogType := DEBUG | INFO | SUCCESS | WARNING | ERROR | FATAL.

(** One call of [Log.__log]: the level, the clock reading and the
    message handed to every log backend. *)
Record LogEntry : Type := {
  log_type : LogType;
  log_time : Z;
  log_message : string
}.

(** A text buffer holding JSON, seen as what [json.loads] makes of it. *)
Inductive Buffer : Type :=
| Malformed (msg : string)         (* json.loads raises JSONDecodeError *)
| Document (root : value).

(** What reading a JSON file gives. *)
Inductive LoadResult : Type :=
| LoadIOError (msg : string)       (* open or read raises IOError *)
| LoadContent (buffer : Buffer).

(** What reading a text file gives. *)
Inductive ReadResult : Type :=
| ReadIOError (msg : string)       (* open or read raises IOError *)
| ReadDecodeError (msg : string)   (* read raises UnicodeDecodeError *)
| ReadOk (text : string).

(** What the program writes to a file. *)
Inductive FileData : Type :=
| TextData (text : string)
| JsonData (root : value).         (* json.dumps(root, indent=4) *)

(** What [subprocess.run] on the split command line does. *)
Inductive ProcOutcome : Type :=
| ProcTimeoutError                  (* the builtin TimeoutError *)
| ProcOtherError                    (* any other exception of run *)
| ProcExit (returncode : Z) (stdout : string).

Inductive WriteOutcome : Type :=
| WriteIOError (msg : string)       (* open or write raises IOError *)
| WriteOk.

(** The environment of the process; the program reads it and never
    changes it.  Clock, commands and files are indexed by how many
    readings or runs came before, and by the working directory. *)
Record Env : Type := {
  clock : nat -> Z;                               (* time.time() - start *)
  date_at : nat -> string;                        (* now().strftime("%Y-%m-%d") *)
  time_at : nat -> string;                        (* now().strftime("%H:%M:%S") *)
  load_file : string -> string -> LoadResult;     (* cwd, file name *)
  read_text : string -> string -> ReadResult;     (* cwd, path *)
  write_text : string -> string -> WriteOutcome;  (* cwd, path *)
  which : string -> bool;                         (* shutil.which(exe) *)
  exec : nat -> string -> list string -> ProcOutcome; (* run number, cwd, args *)
  dir_exists : string -> string -> bool;          (* cwd, path: Path(p).exists() *)
  mkdir_error : string -> string -> option string; (* cwd, path: mkdir raises *)
  chdir_error : string -> string -> option string  (* cwd, path: os.chdir raises *)
}.

Record State : Type := {
  (* the VerHel instance *)
  projects : value;
  frontends : value;
  backends : value;
  fatal_if_bk_not_impl : bool;
  emit_default_values : bool;
  (* the process *)
  log : list LogEntry;                       (* oldest first *)
  ticks : nat;                               (* clock readings so far *)
  runs : nat;                                (* commands run so far *)
  cwd : string;
  written : list (string * string * FileData); (* cwd, path, data; oldest first;
                                                  verhel.log is read off log *)
  printed : list string;                     (* the lines of the commands' own
                                                print(), oldest first; the lines
                                                of the console backend are read
                                                off log *)
  env : Env
}.

Definition set_projects (v : value) (s : State) : State :=
  {| projects := v; frontends := frontends s; backends := backends s;
     fatal_if_bk_not_impl := fatal_if_bk_not_impl s;
     emit_default_values := emit_default_values s;
     log := log s; ticks := ticks s; runs := runs s; cwd := cwd s;
     written := written s; printed := printed s; env := env s |}.

Definition set_frontends (v : value) (s : State) : State :=
  {| projects := projects s; frontends := v; backends := backends s;
     fatal_if_bk_not_impl := fatal_if_bk_not_impl s;
     emit_default_values := emit_default_values s;
     log := log s; ticks := ticks s; runs := runs s; cwd := cwd s;
     written := written s; printed := printed s; env := env s |}.

Definition set_backends (v : value) (s : State) : State :=
  {| projects := projects s; frontends := frontends s; backends := v;
     fatal_if_bk_not_impl := fatal_if_bk_not_impl s;
     emit_default_values := emit_default_values s;
     log := log s; ticks := ticks s; runs := runs s; cwd := cwd s;
     written := written s; printed := printed s; env := env s |}.

Definition set_flags (emit fatal : bool) (s : State) : State :=
  {| projects := projects s; frontends := frontends s; backends := backends s;
     fatal_if_bk_not_impl := fatal;
     emit_default_values := emit;
     log := log s; ticks := ticks s; runs := runs s; cwd := cwd s;
     written := written s; printed := printed s; env := env s |}.

Definition add_log (e : LogEntry) (s : State) : State :=
  {| projects := projects s; frontends := frontends s; backends := backends s;
     fatal_if_bk_not_impl := fatal_if_bk_not_impl s;
     emit_default_values := emit_default_values s;
     log := (log s ++ [e])%list; ticks := S (ticks s); runs := runs s;
     cwd := cwd s;
     written := written s; printed := printed s; env := env s |}.

Definition tick (s : State) : State :=
  {| projects := projects s; frontends := frontends s; backends := backends s;
     fatal_if_bk_not_impl := fatal_if_bk_not_impl s;
     emit_default_values := emit_default_values s;
     log := log s; ticks := S (ticks s); runs := runs s; cwd := cwd s;
     written := written s; printed := printed s; env := env s |}.

Definition count_run (s : State) : State :=
  {| projects := projects s; frontends := frontends s; backends := backends s;
     fatal_if_bk_not_impl := fatal_if_bk_not_impl s;
     emit_default_values := emit_default_values s;
     log := log s; ticks := ticks s; runs := S (runs s); cwd := cwd s;
     written := written s; printed := printed s; env := env s |}.

Definition set_cwd (p : string) (s : State) : State :=
  {| projects := projects s; frontends := frontends s; backends := backends s;
     fatal_if_bk_not_impl := fatal_if_bk_not_impl s;
     emit_default_values := emit_default_values s;
     log := log s; ticks := ticks s; runs := runs s; cwd := p;
     written := written s; printed := printed s; env := env s |}.

Definition add_written (f : string * string * FileData) (s : State) : State :=
  {| projects := projects s; frontends := frontends s; backends := backends s;
     fatal_if_bk_not_impl := fatal_if_bk_not_impl s;
     emit_default_values := emit_default_values s;
     log := log s; ticks := ticks s; runs := runs s; cwd := cwd s;
     written := (written s ++ [f])%list; printed := printed s; env := env s |}.

Definition add_printed (t : string) (s : State) : State :=
  {| projects := projects s; frontends := frontends s; backends := backends s;
     fatal_if_bk_not_impl := fatal_if_bk_not_impl s;
     emit_default_values := emit_default_values s;
     log := log s; ticks := ticks s; runs := runs s; cwd := cwd s;
     written := written s; printed := (printed s ++ [t])%list; env := env s |}.

(** ** The monad *)

Definition M (A : Type) : Type := State -> Res A * State.

Definition ret {A} (a : A) : M A := fun s => (Ok a, s).

Definition bind {A B} (m : M A) (k : A -> M B) : M B :=
  fun s =>
    match m s with
    | (Ok a, s') => k a s'
    | (Raise e, s') => (Raise e, s')
    end.

Definition raise {A} (e : PyExn) : M A := fun s => (Raise e, s).

Definition lift {A} (r : Res A) : M A := fun s => (r, s).

Definition get_state : M State := fun s => (Ok s, s).

Definition modify (f : State -> State) : M unit := fun s => (Ok tt, f s).

(** [try: m  except Exception as e: h e] *)
Definition try_except {A} (m : M A) (h : PyExn -> M A) : M A :=
  fun s =>
    match m s with
    | (Ok a, s') => (Ok a, s')
    | (Raise e, s') => h e s'
    end.

(** [try: m  except VerHelError as e: h e.error_code]; every other
    exception goes on. *)
Definition except_VerHelError {A} (m : M A) (h : Z -> M A) : M A :=
  try_except m (fun e =>
    match e with
    | VerHelError code => h code
    | _ => raise e
    end).

Declare Scope monad_scope.
Delimit Scope monad_scope with monad.
Notation "x <- m ;; k" := (bind m (fun x => k))
  (at level 61, m at next level, right associativity) : monad_scope.
Notation "m ;;; k" := (bind m (fun _ => k))
  (at level 61, right associativity) : monad_scope.
Open Scope monad_scope.

Fixpoint for_each {A} (l : list A) (body : A -> M unit) : M unit :=
  match l with
  | [] => ret tt
  | x :: r => body x ;;; for_each r body
  end.

(** ** [class Log] *)

(** [Log.__log] reads the clock and hands the message to every backend.
    The model keeps each call as an entry of [log]; what the two
    backends of the program do with an entry is fixed by its level
    ([backend_passes] below), so the lines of the log on the console and
    in [verhel.log] are read off [log], and [printed] and [written] hold
    what the commands print and write themselves. *)
Definition Log_log (t : LogType) (message : string) : M unit :=
  fun s =>
    (Ok tt,
     add_log {| log_type := t; log_time := clock (env s) (ticks s);
                log_message := message |} s).

Definition Log_debug := Log_log DEBUG.
Definition Log_info := Log_log INFO.
Definition Log_success := Log_log SUCCESS.
Definition Log_warn := Log_log WARNING.
Definition Log_error := Log_log ERROR.
Definition Log_fatal := Log_log FATAL.

(** [LogType.DEBUG] to [LogType.FATAL] as the integers they are. *)
Definition LogType_value (t : LogType) : Z :=
  match t with
  | DEBUG => 0
  | INFO => 1
  | SUCCESS => 2
  | WARNING => 3
  | ERROR => 4
  | FATAL => 5
  end.

(** [LogBackendConsole.log] and [LogBackendFile.log] return at once when
    [self.log_level > log_type]. *)
Definition backend_passes (log_level : Z) (e : LogEntry) : bool :=
  negb (Z.gtb log_level (LogType_value (log_type e))).

(** The entries of a log that a backend of level [log_level] puts out:
    the console backend prints the message of each after its clock
    reading, the file backend writes it to [verhel.log] after the date,
    the time and the level. *)
Definition backend_output (log_level : Z) (l : list LogEntry)
  : list LogEntry :=
  filter (backend_passes log_level) l.

(** [str(e)] *)
Definition exn_str {RT : PyRuntime} (e : PyExn) : string :=
  match e with
  | VerHelError code => str_of_Z code
  | TypeError m | ValueError m | IndexError m | AttributeError m
  | OSError m | PyException m => m
  | StopIteration => ""
  | KeyError k => str_repr k
  end.

(** [obj.get(k)] on a loaded value: only a dict has the method. *)
Definition py_get (obj : value) (k : string) : Res value :=
  match obj with
  | JObj d => Ok (dict_get d k)
  | _ =>
      Raise (AttributeError
        ("'" ++ type_name (type_of obj) ++ "' object has no attribute 'get'"))
  end.

(** [obj.items()] *)
Definition py_items (obj : value) : Res dict :=
  match obj with
  | JObj d => Ok d
  | _ =>
      Raise (AttributeError
        ("'" ++ type_name (type_of obj) ++ "' object has no attribute 'items'"))
  end.

(** [list(obj.keys())[0]] *)
Definition first_key (obj : value) : Res string :=
  match obj with
  | JObj [] => Raise (IndexError "list index out of range")
  | JObj ((k, _) :: _) => Ok k
  | _ =>
      Raise (AttributeError
        ("'" ++ type_name (type_of obj) ++ "' object has no attribute 'keys'"))
  end.

(** [len(obj)] *)
Definition py_len (obj : value) : Res nat :=
  match obj with
  | JObj d => Ok (List.length d)
  | JList l => Ok (List.length l)
  | JStr s => Ok (String.length s)
  | _ =>
      Raise (TypeError
        ("object of type '" ++ type_name (type_of obj) ++ "' has no len()"))
  end.

Fixpoint chars (s : string) : list value :=
  match s with
  | EmptyString => []
  | String c r => JStr (String c EmptyString) :: chars r
  end.

(** The elements a [for] loop over [obj] visits. *)
Definition py_iter (obj : value) : Res (list value) :=
  match obj with
  | JList l => Ok l
  | JObj d => Ok (map JStr (dict_keys d))
  | JStr s => Ok (chars s)
  | _ =>
      Raise (TypeError
        ("'" ++ type_name (type_of obj) ++ "' object is not iterable"))
  end.

(** [x in obj] *)
Definition py_contains (obj : value) (x : value) : Res bool :=
  match obj with
  | JList l => Ok (list_mem x l)
  | JObj d =>
      match x with
      | JStr k => Ok (dict_mem d k)
      | JList _ | JObj _ =>
          Raise (TypeError ("unhashable type: '" ++ type_name (type_of x) ++ "'"))
      | _ => Ok false
      end
  | JStr s =>
      match x with
      | JStr t =>
          Ok ((fix occurs (s : string) : bool :=
                 starts_with t s
                 || match s with
                    | EmptyString => false
                    | String _ r => occurs r
                    end) s)
      | _ =>
          Raise (TypeError
            ("'in <string>' requires string as left operand, not "
             ++ type_name (type_of x)))
      end
  | _ =>
      Raise (TypeError
        ("argument of type '" ++ type_name (type_of obj) ++ "' is not iterable"))
  end.

Fixpoint res_for_each {A} (l : list A) (body : A -> Res unit) : Res unit :=
  match l with
  | [] => Ok tt
  | x :: r => res_bind (body x) (fun _ => res_for_each r body)
  end.

(** A loop that also knows the position of each element. *)
Fixpoint res_for_each_i {A} (i : nat) (l : list A) (body : nat -> A -> Res unit)
  : Res unit :=
  match l with
  | [] => Ok tt
  | x :: r => res_bind (body i x) (fun _ => res_for_each_i (S i) r body)
  end.

Definition opt_str (o : option string) : string :=
  match o with
  | Some s => s
  | None => "None"
  end.

Definition bool_str (b : bool) : string := if b then "True" else "False".

Definition nat_str (n : nat) : string := str_of_Z (Z.of_nat n).

(* ================================================================== *)
(** * [class VerHel] *)
(* ================================================================== *)

Definition GLOBAL_DESC_NAME : string := "_Global".
Definition PROJECTS_DEFAULT_FILE_NAME : string := "verhel.json".

Definition empty_project : dict :=
  [ ("backends", JList []);
    ("exclude", JList []);
    ("frontend", JNull);
    ("license.spdx", JNull);
    ("license.file", JNull);
    ("project.name", JNull);
    ("project.author", JNull);
    ("project.copyright", JNull);
    ("project.description", JNull);
    ("project.directory", JNull);
    ("version.major", JNull);
    ("version.minor", JNull);
    ("version.patch", JNull);
    ("version.pre_release", JNull) ].

Definition default_project : dict :=
  [ ("backends", JList []);
    ("exclude", JList []);
    ("frontend", JStr "");
    ("license.spdx", JStr "");
    ("license.file", JStr "");
    ("project.name", JStr "");
    ("project.author", JStr "");
    ("project.copyright", JStr "");
    ("project.description", JStr "");
    ("project.directory", JStr "");
    ("version.major", JInt 0);
    ("version.minor", JInt 1);
    ("version.patch", JInt 0);
    ("version.pre_release", JStr "") ].

Section Program.
Context {RT : PyRuntime}.

(** ** [validate_project] *)

(** The inner [check]: null is allowed. *)
Definition check (desc : dict) (key : string) (expected_type : PyType)
  : Res unit :=
  let ty := type_of (dict_get desc key) in
  if (negb (type_eqb ty expected_type) && negb (type_eqb ty TNone))%bool then
    Raise (TypeError
      ("invalid type for key '" ++ key ++ "' expected '"
       ++ type_name expected_type ++ "' found '" ++ type_name ty ++ "'"))
  else Ok tt.

(** The body of the first loop over [backends_list]; [i] is the position
    of [bk]. *)
Definition check_backend_shape (backends_list : list value) (i : nat)
    (bk : value) : Res unit :=
  let index := list_index backends_list i in
  match bk with
  | JObj items =>
      if Nat.ltb 1 (List.length items) then
        Raise (PyException
          ("backend[" ++ nat_str index ++ "] only one item in object is allowed"))
      else
        res_for_each items (fun '(name, output) =>
          res_bind (check items name TStr) (fun _ =>
          (* Backend output can't be null. *)
          if is_none output then
            Raise (TypeError ("backend '" ++ name ++ "' output is null"))
          else Ok tt))
  | _ =>
      Raise (TypeError ("backend[" ++ nat_str index ++ "] is not an object"))
  end.

(** The body of the second loop: the entry at position [i] against every
    other position. *)
Definition check_backend_duplicates (backends_list : list value) (i : nat)
    (bk : value) : Res unit :=
  let index := list_index backends_list i in
  res_bind (first_key bk) (fun name =>
  res_bind (py_get bk name) (fun output =>
  res_for_each_i 0 backends_list (fun i other =>
    if Nat.eqb i index then Ok tt
    else
      (* Duplicated name. *)
      res_bind (py_get other name) (fun found =>
      if negb (is_none found) then
        Raise (PyException ("duplicated backend '" ++ name ++ "'"))
      else
        (* Duplicated output. *)
        res_bind (first_key other) (fun other_name =>
        res_bind (py_get other other_name) (fun other_output =>
        if py_eq other_output output then
          Raise (PyException
            ("backends output '" ++ name ++ "' and '" ++ other_name
             ++ "' override eachother"))
        else Ok tt)))))).

(** The statements inside [try]. *)
Definition validate_checks (desc : value) : Res unit :=
  match desc with
  | JObj d =>
      (* Check version. *)
      res_bind (check d "version.major" TInt) (fun _ =>
      res_bind (check d "version.minor" TInt) (fun _ =>
      res_bind (check d "version.patch" TInt) (fun _ =>
      res_bind (check d "version.pre_release" TStr) (fun _ =>
      (* Check backends. *)
      res_bind
        (let backends_list := dict_get d "backends" in
         if is_none backends_list then Ok tt
         else
           res_bind (check d "backends" TList) (fun _ =>
           res_bind (py_iter backends_list) (fun l =>
           res_bind (res_for_each_i 0 l (check_backend_shape l)) (fun _ =>
           (* Check for duplicates. *)
           res_for_each_i 0 l (check_backend_duplicates l))))) (fun _ =>
      (* Check frontend. *)
      res_bind (check d "frontend" TStr) (fun _ =>
      (* Check rest. *)
      res_bind (check d "license.spdx" TStr) (fun _ =>
      res_bind (check d "license.file" TStr) (fun _ =>
      res_bind (check d "project.author" TStr) (fun _ =>
      res_bind (check d "project.copyright" TStr) (fun _ =>
      res_bind (check d "project.company" TStr) (fun _ =>
      res_bind (check d "project.description" TStr) (fun _ =>
      res_bind (check d "project.directory" TStr) (fun _ =>
      res_bind (check d "project.name" TStr) (fun _ =>
      check d "exclude" TList))))))))))))))
  | _ => Raise (TypeError "project description is not an object")
  end.

(** The [else] branch: check for dangling properties. *)
Definition warn_dangling (d : dict) : M unit :=
  for_each d (fun '(key, _) =>
    if negb (dict_mem empty_project key)
    then Log_warn ("dangling property '" ++ key ++ "'")
    else ret tt).

Definition validate_project (project_name : string) : M unit :=
  Log_info ("validating project '" ++ project_name ++ "'") ;;;
  s <- get_state ;;
  desc <- lift (py_get (projects s) project_name) ;;
  match validate_checks desc with
  | Raise e =>
      Log_error (exn_str e) ;;;
      Log_fatal ("failed to validate project '" ++ project_name ++ "'") ;;;
      raise (VerHelError ExitCodes.PROJECT_VALIDATION_FAILED)
  | Ok _ =>
      d <- lift (py_items desc) ;;
      warn_dangling d ;;;
      Log_success ("project '" ++ project_name ++ "' validated")
  end.

(** ** [validate_version] *)

Definition validate_version (desc : value) : M unit :=
  major <- lift (py_get desc "version.major") ;;
  (if is_none major then
     Log_fatal "version.major is null" ;;;
     raise (VerHelError ExitCodes.VERSION_IS_NULL)
   else ret tt) ;;;
  minor <- lift (py_get desc "version.minor") ;;
  (if is_none minor then
     Log_fatal "version.minor is null" ;;;
     raise (VerHelError ExitCodes.VERSION_IS_NULL)
   else ret tt) ;;;
  patch <- lift (py_get desc "version.patch") ;;
  (if is_none patch then
     Log_fatal "version.patch is null" ;;;
     raise (VerHelError ExitCodes.VERSION_IS_NULL)
   else ret tt).


(** ** [use_global_desc_values]

    [desc] is the object stored in [self.projects]; the model names it by
    its key [desc_name] and reads and writes it in the store, so that a
    global descriptor which is the same object is seen as such. *)

Definition get_project (name : string) : M value :=
  s <- get_state ;; lift (py_get (projects s) name).

(** [desc[key] = v] for the descriptor stored under [name]. *)
Definition store_key (name key : string) (v : value) : M unit :=
  modify (fun s =>
    match projects s with
    | JObj ps =>
        match dict_find ps name with
        | Some (JObj d) =>
            set_projects (JObj (dict_set ps name (JObj (dict_set d key v)))) s
        | _ => s
        end
    | _ => s
    end).

Definition use_global_desc_values (desc_name : string)
    (glob_name : option string) : M unit :=
  let glob_name :=
    match glob_name with
    | None => GLOBAL_DESC_NAME
    | Some n => n
    end in
  glob_desc <- get_project glob_name ;;
  if is_none glob_desc then ret tt
  else
    Log_info ("using global description '" ++ glob_name ++ "'") ;;;
    desc <- get_project desc_name ;;
    items <- lift (py_items desc) ;;
    for_each (dict_keys items) (fun key =>
      desc <- get_project desc_name ;;
      value <- lift (py_get desc key) ;;
      if is_none value then
        glob_desc <- get_project glob_name ;;
        gvalue <- lift (py_get glob_desc key) ;;
        store_key desc_name key gvalue ;;;
        Log_info ("using global value for '" ++ key ++ "' new value: '"
                  ++ py_str gvalue ++ "'")
      else ret tt) ;;;
    Log_info "finished using global description".

(** ** Lookups *)

Definition check_if_project_exists (project_name : string) : M value :=
  Log_info ("checking if project '" ++ project_name ++ "' exists") ;;;
  desc <- get_project project_name ;;
  if is_none desc then
    Log_fatal ("project '" ++ project_name ++ "' doesn't exists") ;;;
    raise (VerHelError ExitCodes.PROJECT_DOESNT_EXISTS)
  else
    Log_info ("project description '" ++ project_name ++ "' found") ;;;
    ret desc.

(** [obj.get(key)] for a key that is itself a loaded value. *)
Definition py_get_key (obj : value) (key : value) : Res value :=
  match obj with
  | JObj d =>
      match key with
      | JStr k => Ok (dict_get d k)
      | JList _ | JObj _ =>
          Raise (TypeError ("unhashable type: '" ++ type_name (type_of key) ++ "'"))
      | _ => Ok JNull
      end
  | _ =>
      Raise (AttributeError
        ("'" ++ type_name (type_of obj) ++ "' object has no attribute 'get'"))
  end.

Definition check_if_frontend_exists (frontend_name : value) : M value :=
  Log_info ("checking if frontend '" ++ py_str frontend_name
            ++ "' is implemented") ;;;
  s <- get_state ;;
  frontend <- lift (py_get_key (frontends s) frontend_name) ;;
  if is_none frontend then
    Log_fatal ("frontend '" ++ py_str frontend_name ++ "' doesn't exists") ;;;
    raise (VerHelError ExitCodes.FRONTEND_DOESNT_EXISTS)
  else
    Log_success ("fronted '" ++ py_str frontend_name ++ "' found") ;;;
    ret frontend.

(** The names a comprehension or a nested loop over the entries visits. *)
Fixpoint backend_names (backends_list : list value) : Res (list string) :=
  match backends_list with
  | [] => Ok []
  | bk :: r =>
      res_bind (py_items bk) (fun items =>
      res_bind (backend_names r) (fun names =>
      Ok (dict_keys items ++ names)%list))
  end.

Fixpoint check_backends_loop (entries : list value) (found : nat) : M nat :=
  match entries with
  | [] => ret found
  | bk :: r =>
      items <- lift (py_items bk) ;;
      found <-
        (fix inner (names : list string) (found : nat) : M nat :=
           match names with
           | [] => ret found
           | name :: names' =>
               s <- get_state ;;
               impl <- lift (py_get (backends s) name) ;;
               if is_none impl then
                 let err_msg := "backend '" ++ name ++ "' not found" in
                 (if fatal_if_bk_not_impl s then
                    Log_fatal err_msg ;;;
                    raise (VerHelError ExitCodes.BACKEND_DOESNT_EXISTS)
                  else Log_error err_msg) ;;;
                 inner names' (S found)
               else
                 Log_success ("backend '" ++ name ++ "' found") ;;;
                 inner names' found
           end) (dict_keys items) found ;;
      check_backends_loop r found
  end.

Definition check_if_backends_exists (backends_list : value) : M unit :=
  entries <- lift (py_iter backends_list) ;;
  bklstr <- lift (backend_names entries) ;;
  Log_info ("checking if backends '" ++ py_str (JList (map JStr bklstr))
            ++ "' are implemented") ;;;
  found <- check_backends_loop entries 0 ;;
  n <- lift (py_len backends_list) ;;
  if Nat.eqb found n
  then Log_success "all backends used by project are implemented"
  else Log_warn "not all backends used by project are implemented".

(** ** [cd_into_project_directory]

    [pathlib.Path.is_absolute] is called on the descriptor's value, which
    is not a path object; its attribute lookup fails for every loaded
    value, so only a null [project.directory] gets past it. *)
Definition cd_into_project_directory (desc : value) : M unit :=
  Log_info "building project path" ;;;
  project_directory <- lift (py_get desc "project.directory") ;;
  s <- get_state ;;
  let full_path := cwd s in
  (if negb (is_none project_directory) then
     raise (AttributeError
       ("'" ++ type_name (type_of project_directory)
        ++ "' object has no attribute '_root'"))
   else ret tt) ;;;
  (if negb (dir_exists (env s) (cwd s) full_path) then
     Log_info "project directory don't exist, creating" ;;;
     match mkdir_error (env s) (cwd s) full_path with
     | Some msg => raise (OSError msg)
     | None => ret tt
     end
   else ret tt) ;;;
  Log_info ("changing directory to '" ++ full_path ++ "'") ;;;
  match chdir_error (env s) (cwd s) full_path with
  | Some msg =>
      Log_fatal "failed to change directory" ;;;
      Log_error msg ;;;
      raise (VerHelError ExitCodes.FAILED_TO_ENTER_PROJECT_DIR)
  | None =>
      modify (set_cwd full_path) ;;;
      Log_success "successfuly cd into project directory"
  end.

(** ** Commands *)

Definition run_cmd (cmd : value) : M (Z * string) :=
  match cmd with
  | JStr line =>
      args <- lift (shlex_split line) ;;
      Log_debug ("args: " ++ py_str (JList (map JStr args))) ;;;
      s <- get_state ;;
      modify count_run ;;;
      match exec (env s) (runs s) (cwd s) args with
      | ProcTimeoutError =>
          Log_error "command failed" ;;;
          raise (PyException ("Command '" ++ line ++ "' timed out"))
      | ProcOtherError =>
          Log_error "command failed" ;;;
          raise (PyException ("Unknown error when executing '" ++ line ++ "'"))
      | ProcExit returncode stdout =>
          Log_debug ("    return code: " ++ str_of_Z returncode) ;;;
          Log_debug ("    output: " ++ str_strip stdout) ;;;
          ret (returncode, stdout)
      end
  | JNull => raise (ValueError "s argument must not be None")
  | _ =>
      raise (AttributeError
        ("'" ++ type_name (type_of cmd) ++ "' object has no attribute 'read'"))
  end.

Definition check_if_vcs_is_installed (frontend : value) : M unit :=
  exe_name <- lift (py_get frontend "exe") ;;
  Log_info ("checking if vcs executable '" ++ py_str exe_name
            ++ "' is found") ;;;
  match exe_name with
  | JStr exe =>
      s <- get_state ;;
      if negb (which (env s) exe) then
        Log_fatal "vcs is not installed or not in path" ;;;
        raise (VerHelError ExitCodes.VERSION_CONTROL_NOT_INSTALLED)
      else Log_success ("vcs executable '" ++ exe ++ "' found")
  | _ =>
      raise (TypeError
        ("expected str, bytes or os.PathLike object, not "
         ++ type_name (type_of exe_name)))
  end.

Definition check_if_project_repo_exists (frontend : value) : M unit :=
  Log_info "checking if repo exists" ;;;
  get_repo <- lift (py_get frontend "get.repo") ;;
  r <- try_except
         (cmd <- lift (py_get get_repo "cmd") ;;
          r <- run_cmd cmd ;;
          ret (fst r))
         (fun e =>
            Log_error (exn_str e) ;;;
            raise (VerHelError ExitCodes.REPO_DOESNT_EXISTS)) ;;
  ret_codes <- lift (py_get get_repo "ret_codes") ;;
  ok <- lift (py_contains ret_codes (JInt r)) ;;
  if negb ok then
    Log_fatal "version control repository doesn't exists" ;;;
    raise (VerHelError ExitCodes.REPO_DOESNT_EXISTS)
  else Log_success "version control repository found".

(** The result type of a query: [str] or [int]. *)
Inductive OutType := OutStr | OutInt.

Definition out_type (t : OutType) (text : string) : Res value :=
  match t with
  | OutStr => Ok (JStr text)
  | OutInt =>
      match int_of_str text with
      | Some n => Ok (JInt n)
      | None =>
          Raise (ValueError
            ("invalid literal for int() with base 10: " ++ str_repr text))
      end
  end.

(** The inner [run_wrapper] of [get_vcs_info]. *)
Definition run_wrapper (frontend frontend_name : value) (cmd_name : string)
    (t : OutType) : M value :=
  cmd_obj <- lift (py_get frontend cmd_name) ;;
  cmd <- lift (py_get cmd_obj "cmd") ;;
  ret_codes <- lift (py_get cmd_obj "ret_codes") ;;
  if is_none cmd then
    Log_error ("command '" ++ cmd_name ++ "' is null in frontend '"
               ++ py_str frontend_name ++ "'") ;;;
    ret JNull
  else
    r <- try_except
           (Log_info ("command '" ++ cmd_name ++ "' ('" ++ py_str cmd ++ "')") ;;;
            r <- run_cmd cmd ;;
            ret (Some r))
           (fun e => Log_error (exn_str e) ;;; ret None) ;;
    match r with
    | None => ret JNull
    | Some (code, out) =>
        ok <- lift (py_contains ret_codes (JInt code)) ;;
        if ok then
          Log_success "command finished" ;;;
          lift (out_type t (str_strip out))
        else
          Log_error "command failed" ;;;
          ret JNull
    end.

Definition get_vcs_info (frontend frontend_name : value) : M dict :=
  Log_info "geting info from version control" ;;;
  let info : dict := [] in
  let info := dict_set info "name" frontend_name in
  v <- run_wrapper frontend frontend_name "get.commit_hash" OutStr ;;
  let info := dict_set info "commit_hash" v in
  v <- run_wrapper frontend frontend_name "get.short_hash" OutStr ;;
  let info := dict_set info "short_hash" v in
  v <- run_wrapper frontend frontend_name "get.tag" OutStr ;;
  let info := dict_set info "tag" v in
  v <- run_wrapper frontend frontend_name "get.branch" OutStr ;;
  let info := dict_set info "branch" v in
  v <- run_wrapper frontend frontend_name "get.commit_count" OutInt ;;
  let info := dict_set info "commit_count" v in
  Log_info "finished getting vcs info" ;;;
  ret info.

Definition get_build_info : M dict :=
  s <- get_state ;;
  modify tick ;;;
  let date := date_at (env s) (ticks s) in
  s <- get_state ;;
  modify tick ;;;
  let time := time_at (env s) (ticks s) in
  ret [("date", JStr date); ("time", JStr time)].

Definition check_if_name_is_valid (name : string) : M string :=
  if starts_with "backends." name then
    let bk_name := drop (String.length "backends.") name in
    if Nat.eqb (String.length bk_name) 0 then
      Log_fatal "backend name can't be empty" ;;;
      raise (VerHelError ExitCodes.INVALID_KEY)
    else ret bk_name
  else
    if negb (dict_mem empty_project name) then
      Log_fatal ("'" ++ name ++ "' is not a valid name") ;;;
      raise (VerHelError ExitCodes.INVALID_KEY)
    else ret name.

(** ** [cook_info] *)

(** [obj[k]] *)
Definition py_index (obj : value) (k : string) : Res value :=
  match obj with
  | JObj d => dict_index d k
  | JList _ => Raise (TypeError "list indices must be integers or slices, not str")
  | JStr _ => Raise (TypeError "string indices must be integers")
  | _ =>
      Raise (TypeError
        ("'" ++ type_name (type_of obj) ++ "' object is not subscriptable"))
  end.

(** The inner [dget]; a null [default_value] is the omitted argument. *)
Definition dget (desc : value) (key : string) (default_value : value)
  : Res value :=
  res_bind (py_get desc key) (fun value =>
  if is_none value then
    if is_none default_value then Ok (dict_get default_project key)
    else Ok default_value
  else Ok value).

Definition cook_info (project_name : string) (desc build_info vcs_info : value)
  : M dict :=
  Log_info "cooking info for backend" ;;;
  let info : dict := [] in
  (* Cook version. *)
  major <- lift (py_get desc "version.major") ;;
  let info := dict_set info "version.major" major in
  minor <- lift (py_get desc "version.minor") ;;
  let info := dict_set info "version.minor" minor in
  patch <- lift (py_get desc "version.patch") ;;
  let info := dict_set info "version.patch" patch in
  pre_release <- lift (py_get desc "version.pre_release") ;;
  let info := dict_set info "version.pre_release" pre_release in
  info <-
    (if negb (is_none pre_release) then
       text <- lift (str_format "{}.{}.{}-{}" [major; minor; patch; pre_release]) ;;
       ret (dict_set info "version.string" (JStr text))
     else
       text <- lift (str_format "{}.{}.{}" [major; minor; patch]) ;;
       let info := dict_set info "version.string" (JStr text) in
       ret (dict_set info "version.pre_release" (JStr ""))) ;;
  (* Cook rest. *)
  v <- lift (dget desc "project.name" (JStr project_name)) ;;
  let info := dict_set info "project.name" v in
  v <- lift (dget desc "project.author" JNull) ;;
  let info := dict_set info "project.author" v in
  v <- lift (dget desc "license.spdx" JNull) ;;
  let info := dict_set info "project.license" v in
  v <- lift (dget desc "project.copyright" JNull) ;;
  let info := dict_set info "project.copyright" v in
  v <- lift (dget desc "project.company" JNull) ;;
  let info := dict_set info "project.company" v in
  v <- lift (dget desc "project.description" JNull) ;;
  let info := dict_set info "project.description" v in
  v <- lift (dget desc "project.directory" JNull) ;;
  let info := dict_set info "project.directory" v in
  s <- get_state ;;
  let info := dict_set info "project.path" (JStr (cwd s)) in
  v <- lift (py_get desc "license.spdx") ;;
  let info := dict_set info "license.spdx" v in
  v <- lift (py_get desc "license.file") ;;
  let info := dict_set info "license.file" v in
  (* Cook build info. *)
  v <- lift (py_index build_info "date") ;;
  let info := dict_set info "build.date" v in
  v <- lift (py_index build_info "time") ;;
  let info := dict_set info "build.time" v in
  (* Cook vcs info. *)
  v <- lift (dget desc "frontend" JNull) ;;
  let info := dict_set info "vcs.name" v in
  v <- lift (py_get vcs_info "commit_hash") ;;
  let info := dict_set info "vcs.commit_hash" v in
  v <- lift (py_get vcs_info "short_hash") ;;
  let info := dict_set info "vcs.short_hash" v in
  v <- lift (py_get vcs_info "branch") ;;
  let info := dict_set info "vcs.branch" v in
  v <- lift (py_get vcs_info "tag") ;;
  let info := dict_set info "vcs.tag" v in
  v <- lift (py_get vcs_info "commit_count") ;;
  let info := dict_set info "vcs.commit_count" v in
  Log_success "cooking finished" ;;;
  Log_debug ("cooked info: " ++ py_str (JObj info)) ;;;
  ret info.

(** ** [backend_generate] *)

Definition nl : string := String (ascii_of_nat 10) EmptyString.

(** [ss.write(v)]: a [StringIO] takes text only. *)
Definition ss_write (ss : string) (v : value) : Res string :=
  match v with
  | JStr text => Ok (ss ++ text)
  | _ =>
      Raise (TypeError
        ("string argument expected, got '" ++ type_name (type_of v) ++ "'"))
  end.

(** [fmtr.format(template, *args)] for a template taken from a descriptor. *)
Definition fmtr_format_value (template : value) (args : list value)
  : Res string :=
  match template with
  | JStr t => fmtr_format t args
  | _ =>
      Raise (TypeError
        ("expected str, got " ++ type_name (type_of template)))
  end.

(** [next(iter(var.items()))] *)
Definition first_item (var : value) : Res (string * value) :=
  res_bind (py_items var) (fun items =>
  match items with
  | [] => Raise StopIteration
  | kv :: _ => Ok kv
  end).

(** One round of the loop over [var_map]; [ss] is the text so far. *)
Definition emit_var (format_number format_string : value) (cooked_info : value)
    (excluded_vars : value) (var : value) (ss : string) : M string :=
  item <- lift (first_item var) ;;
  let (var_name, emit_name) := item in
  (* Check if value is excluded. *)
  excluded <- lift (py_contains excluded_vars (JStr var_name)) ;;
  if excluded then ret ss
  else
    (* Emit value. *)
    value <- lift (py_index cooked_info var_name) ;;
    if negb (is_none value) then
      match type_of value with
      | TInt | TFloat =>
          text <- lift (fmtr_format_value format_number [emit_name; value]) ;;
          ret (ss ++ text)
      | TStr =>
          text <- lift (fmtr_format_value format_string [emit_name; value]) ;;
          ret (ss ++ text)
      | ty =>
          Log_warn ("don't know how to write type '" ++ type_name ty
                    ++ ", writing as string'") ;;;
          text <- lift (fmtr_format_value format_string [emit_name; value]) ;;
          ret (ss ++ text)
      end
    else
      Log_warn ("emiting value '" ++ var_name ++ "' is null") ;;;
      ret ss.

Fixpoint emit_vars (format_number format_string : value) (cooked_info : value)
    (excluded_vars : value) (var_map : list value) (ss : string) : M string :=
  match var_map with
  | [] => ret ss
  | var :: r =>
      ss <- emit_var format_number format_string cooked_info excluded_vars var ss ;;
      emit_vars format_number format_string cooked_info excluded_vars r ss
  end.

Fixpoint comment_lines (source_comment : value) (lines : list string)
    (license_commented : string) : Res string :=
  match lines with
  | [] => Ok license_commented
  | line :: r =>
      res_bind (str_format ("{} {}" ++ nl) [source_comment; JStr line])
        (fun text => comment_lines source_comment r (license_commented ++ text))
  end.

Definition backend_generate (backend : value) (cooked_info : value)
    (license_text : option string) (excluded_vars : value) : M string :=
  let ss := "" in
  format_bool <- lift (py_get backend "format.bool") ;;
  format_number <- lift (py_get backend "format.number") ;;
  format_string <- lift (py_get backend "format.string") ;;
  format_var <- lift (py_get backend "format.var") ;;
  source_begin <- lift (py_get backend "source.begin") ;;
  source_comment <- lift (py_get backend "source.comment") ;;
  source_end <- lift (py_get backend "source.end") ;;
  (* Write beginning. *)
  ss <-
    match license_text with
    | Some text =>
        license_commented <-
          lift (comment_lines source_comment
                  (str_splitlines (str_rstrip text)) "") ;;
        ret (ss ++ license_commented)
    | None => ret ss
    end ;;
  spdx <- lift (py_index cooked_info "license.spdx") ;;
  ss <-
    (if negb (is_none spdx) then
       ss <-
         match license_text with
         | Some _ =>
             text <- lift (str_format ("{}" ++ nl) [source_comment]) ;;
             ret (ss ++ text)
         | None => ret ss
         end ;;
       text <- lift (str_format ("{} SPDX-License-Identifier: {}" ++ nl)
                       [source_comment; spdx]) ;;
       ret (ss ++ text)
     else ret ss) ;;
  ss <- lift (ss_write ss source_begin) ;;
  (* Write variables *)
  var_map <- lift (py_get backend "var_map") ;;
  vars <- lift (py_iter var_map) ;;
  ss <- emit_vars format_number format_string cooked_info excluded_vars vars ss ;;
  (* Write ending. *)
  ss <- lift (ss_write ss source_end) ;;
  text <- lift (str_format (nl ++ "{0} generated using verhel.py {0}" ++ nl)
                  [source_comment]) ;;
  ret (ss ++ text).

(** ** [verhel_generate_sources] *)

(** One backend entry of the project: render and write. *)
Definition generate_output (cooked_info : value) (license_text : option string)
    (exclude : value) (bk_name : string) (bk_output : value)
    (num_success : nat) : M nat :=
  s <- get_state ;;
  backend <- lift (py_get (backends s) bk_name) ;;
  if negb (is_none backend) then
    Log_info ("    generating source using '" ++ bk_name ++ "' backend") ;;;
    buffer <- backend_generate backend cooked_info license_text exclude ;;
    (* Build output path. *)
    match bk_output with
    | JStr p =>
        s <- get_state ;;
        match mkdir_error (env s) (cwd s) (path_parent p) with
        | Some msg => raise (OSError msg)
        | None =>
            let output_path := path_str p in
            match write_text (env s) (cwd s) output_path with
            | WriteIOError msg =>
                Log_error ("    can't open or write '" ++ output_path ++ "'") ;;;
                Log_error ("    " ++ msg) ;;;
                ret num_success
            | WriteOk =>
                modify (add_written (cwd s, output_path, TextData buffer)) ;;;
                Log_success ("    successfully wrote '" ++ output_path ++ "' ("
                             ++ nat_str (String.length buffer) ++ " b)") ;;;
                ret (S num_success)
            end
        end
    | _ =>
        raise (TypeError
          ("expected str, bytes or os.PathLike object, not "
           ++ type_name (type_of bk_output)))
    end
  else
    Log_error ("    backend '" ++ bk_name ++ "' is not implemented") ;;;
    ret num_success.

Fixpoint generate_items (cooked_info : value) (license_text : option string)
    (exclude : value) (items : dict) (num_success : nat) : M nat :=
  match items with
  | [] => ret num_success
  | (bk_name, bk_output) :: r =>
      n <- generate_output cooked_info license_text exclude bk_name bk_output
             num_success ;;
      generate_items cooked_info license_text exclude r n
  end.

Fixpoint generate_entries (cooked_info : value) (license_text : option string)
    (exclude : value) (entries : list value) (num_success : nat) : M nat :=
  match entries with
  | [] => ret num_success
  | backend_desc :: r =>
      items <- lift (py_items backend_desc) ;;
      n <- generate_items cooked_info license_text exclude items num_success ;;
      generate_entries cooked_info license_text exclude r n
  end.

Definition verhel_generate_sources (project_name : string)
    (desc vcs_info : value) : M nat :=
  (* Get build info. *)
  build_info <- get_build_info ;;
  (* Read license. *)
  license_file <- lift (py_index desc "license.file") ;;
  license_text <-
    match license_file with
    | JNull => ret None
    | JStr p =>
        s <- get_state ;;
        match read_text (env s) (cwd s) p with
        | ReadIOError _ =>
            Log_error ("failed to load license file '" ++ p ++ "'") ;;;
            ret None
        | ReadDecodeError msg => raise (ValueError msg)
        | ReadOk license_buffer => ret (Some license_buffer)
        end
    | _ =>
        raise (TypeError
          ("expected str, bytes or os.PathLike object, not "
           ++ type_name (type_of license_file)))
    end ;;
  (* Cook info. *)
  cooked_info <- cook_info project_name desc (JObj build_info) vcs_info ;;
  exclude <- lift (py_get desc "exclude") ;;
  let exclude := if is_none exclude then JList [] else exclude in
  Log_info ("running generate for project '" ++ project_name ++ "'...") ;;;
  backends_list <- lift (py_get desc "backends") ;;
  entries <- lift (py_iter backends_list) ;;
  generate_entries (JObj cooked_info) license_text exclude entries 0.

(** ** Loading and saving *)

Definition load_from_buffer (buffer : Buffer) : M value :=
  Log_info "loading json from buffer" ;;;
  match buffer with
  | Malformed msg =>
      Log_error ("failed to decode json: " ++ msg) ;;;
      raise (ValueError msg)
  | Document root =>
      Log_success "loaded json from buffer succesfully" ;;;
      ret root
  end.

Definition load_from_file (file_name : string) : M value :=
  Log_info ("loading file '" ++ file_name ++ "'") ;;;
  s <- get_state ;;
  match load_file (env s) (cwd s) file_name with
  | LoadIOError msg =>
      Log_error ("failed to read '" ++ file_name ++ "'") ;;;
      Log_error msg ;;;
      raise (OSError msg)
  | LoadContent buffer =>
      Log_success ("read file '" ++ file_name ++ "'") ;;;
      load_from_buffer buffer
  end.

Definition load_frontends_from_buffer (buffer : Buffer) : M bool :=
  try_except
    (root <- load_from_buffer buffer ;;
     modify (set_frontends root) ;;; ret true)
    (fun _ => ret false).

Definition load_frontends_from_file (file_name : string) : M bool :=
  try_except
    (root <- load_from_file file_name ;;
     modify (set_frontends root) ;;; ret true)
    (fun _ => ret false).

Definition load_backends_from_buffer (buffer : Buffer) : M bool :=
  try_except
    (root <- load_from_buffer buffer ;;
     modify (set_backends root) ;;; ret true)
    (fun _ => ret false).

Definition load_backends_from_file (file_name : string) : M bool :=
  try_except
    (root <- load_from_file file_name ;;
     modify (set_backends root) ;;; ret true)
    (fun _ => ret false).

(** [list(obj.keys())] *)
Definition py_keys (obj : value) : Res value :=
  match obj with
  | JObj d => Ok (JList (map JStr (dict_keys d)))
  | _ =>
      Raise (AttributeError
        ("'" ++ type_name (type_of obj) ++ "' object has no attribute 'keys'"))
  end.

Definition dq : string := String (ascii_of_nat 34) EmptyString.

(** The frontends definition buffer. *)
Definition FRONTENDS_DESC : Buffer :=
  let command (cmd : string) (ret_codes : list Z) : value :=
    JObj [("cmd", JStr cmd); ("ret_codes", JList (map JInt ret_codes))] in
  Document (JObj
    [("git", JObj
       [("version", JStr "1.0.0");
        ("exe", JStr "git");
        ("get.repo", command "git rev-parse --git-dir" [0]);
        ("get.commit_hash", command "git rev-parse HEAD" [0]);
        ("get.short_hash", command "git rev-parse --short HEAD" [0]);
        ("get.tag",
         command "git describe --tags --abbrev=0 --exact-match" [0; 128]);
        ("get.branch", command "git rev-parse --abbrev-ref HEAD" [0]);
        ("get.commit_count", command "git rev-list --count HEAD" [0])])]).

(** The backends definition buffer. *)
Definition BACKENDS_DESC : Buffer :=
  let var (key token : string) : value := JObj [(key, JStr token)] in
  Document (JObj
    [("cpp", JObj
       [("version", JStr "1.0.0");
        ("source.begin",
         JStr ("#pragma once" ++ nl ++ nl ++ "namespace verhel {" ++ nl ++ nl));
        ("source.comment", JStr "//");
        ("source.end", JStr (nl ++ "} // namespace verhel" ++ nl));
        ("format.bool", JStr ("    inline constexpr auto {0} = {1};" ++ nl));
        ("format.number", JStr ("    inline constexpr auto {0} = {1};" ++ nl));
        ("format.string",
         JStr ("    inline constexpr auto {0} = " ++ dq ++ "{1!u}" ++ dq ++ ";"
               ++ nl));
        ("format.var", JStr "{0!u}");
        ("var_map", JList
          [var "version.major"       "VERSION_MAJOR      ";
           var "version.minor"       "VERSION_MINOR      ";
           var "version.patch"       "VERSION_PATCH      ";
           var "version.pre_release" "VERSION_PRE_RELEASE";
           var "version.string"      "VERSION_STRING     ";
           var "project.name"        "PROJECT_NAME       ";
           var "project.author"      "PROJECT_AUTHOR     ";
           var "project.license"     "PROJECT_LICENSE    ";
           var "project.copyright"   "PROJECT_COPYRIGHT  ";
           var "project.description" "PROJECT_DESCRIPTION";
           var "project.directory"   "PROJECT_DIRECTORY  ";
           var "project.path"        "PROJECT_PATH       ";
           var "build.date"          "BUILD_DATE         ";
           var "build.time"          "BUILD_TIME         ";
           var "vcs.name"            "VCS_NAME           ";
           var "vcs.commit_hash"     "VCS_COMMIT_HASH    ";
           var "vcs.short_hash"      "VCS_SHORT_HASH     ";
           var "vcs.tag"             "VCS_TAG            ";
           var "vcs.branch"          "VCS_BRANCH         ";
           var "vcs.commit_count"    "VCS_COMMIT_COUNT   "])])]).

Definition load_frontends (file_name : option string) : M unit :=
  let load_from :=
    match file_name with
    | None => "internal description"
    | Some f => f
    end in
  Log_info ("loading frontends from '" ++ load_from ++ "'") ;;;
  ok <- match file_name with
        | None => load_frontends_from_buffer FRONTENDS_DESC
        | Some f => load_frontends_from_file f
        end ;;
  if negb ok then
    Log_fatal "failed to load frontends" ;;;
    raise (VerHelError ExitCodes.FAILED_TO_LOAD_FRONTENDS)
  else
    s <- get_state ;;
    n <- lift (py_len (frontends s)) ;;
    Log_success ("loaded frontends (" ++ nat_str n ++ ")") ;;;
    keys <- lift (py_keys (frontends s)) ;;
    Log_debug ("loaded frontends: " ++ py_str keys).

Definition load_backends (file_name : option string) : M unit :=
  let load_from :=
    match file_name with
    | None => "internal description"
    | Some f => f
    end in
  Log_info ("loading backends from '" ++ load_from ++ "'") ;;;
  ok <- match file_name with
        | None => load_backends_from_buffer BACKENDS_DESC
        | Some f => load_backends_from_file f
        end ;;
  if negb ok then
    Log_fatal "failed to load backends" ;;;
    raise (VerHelError ExitCodes.FAILED_TO_LOAD_BACKENDS)
  else
    s <- get_state ;;
    n <- lift (py_len (backends s)) ;;
    Log_success ("loaded backends (" ++ nat_str n ++ ")") ;;;
    keys <- lift (py_keys (backends s)) ;;
    Log_debug ("loaded backends: " ++ py_str keys).

Definition load_projects (file_name : option string) : M unit :=
  let file_name :=
    match file_name with
    | None => PROJECTS_DEFAULT_FILE_NAME
    | Some f => f
    end in
  Log_info ("loading projects description from '" ++ file_name ++ "'") ;;;
  r <- try_except
         (root <- load_from_file file_name ;; ret (Some root))
         (fun _ => ret None) ;;
  match r with
  | None =>
      Log_fatal "failed to load projects" ;;;
      raise (VerHelError ExitCodes.FAILED_TO_LOAD_PROJECTS)
  | Some root =>
      modify (set_projects root) ;;;
      n <- lift (py_len root) ;;
      Log_success ("loaded projects (" ++ nat_str n ++ ")") ;;;
      keys <- lift (py_keys root) ;;
      Log_debug ("loaded projects: " ++ py_str keys)
  end.

Definition save_projects (file_name : option string) : M unit :=
  let file_name :=
    match file_name with
    | None => PROJECTS_DEFAULT_FILE_NAME
    | Some f => f
    end in
  Log_info ("saving projects to '" ++ file_name ++ "'") ;;;
  s <- get_state ;;
  match write_text (env s) (cwd s) file_name with
  | WriteIOError msg =>
      Log_error ("failed to write '" ++ file_name ++ "'") ;;;
      Log_error msg ;;;
      raise (VerHelError ExitCodes.FAILED_TO_SAVE_PROJECTS)
  | WriteOk =>
      modify (add_written (cwd s, file_name, JsonData (projects s))) ;;;
      Log_success ("wrote project file '" ++ file_name ++ "'")
  end.

(** ** Commands *)

(** The parsed command line ([argparse.Namespace]). *)
Record Args : Type := {
  quiet : bool;
  verbose : Z;
  color_output : bool;
  project : string;
  projects_file : option string;
  frontends_file : option string;
  backends_file : option string;
  global_desc_name : option string;
  emit_default : bool;
  fatal_if_backend_not_impl : bool;
  property_name : string;
  new_value : string
}.

Definition cmd_in (cmd : string) (l : list string) : bool :=
  existsb (String.eqb cmd) l.

(** The levels [process_arguments] gives the two backends: with
    [--quiet] the console backend is set above [FATAL] and the file
    backend keeps the level it was created with, [INFO]; otherwise both
    take the level of the verbosity count. *)
Definition verbosity_level (verbose : Z) : Z :=
  if Z.eqb verbose 0 then LogType_value FATAL
  else if Z.eqb verbose 1 then LogType_value SUCCESS
  else if Z.eqb verbose 2 then LogType_value INFO
  else LogType_value DEBUG.

Definition console_log_level (args : Args) : Z :=
  if quiet args then (LogType_value FATAL + 1)%Z
  else verbosity_level (verbose args).

Definition file_log_level (args : Args) : Z :=
  if quiet args then LogType_value INFO
  else verbosity_level (verbose args).

(** The colour switch and the verbosity levels only configure the log
    backends ([console_log_level], [file_log_level]); what is kept in the
    state is the instance flags and the messages. *)
Definition process_arguments (args : Args) (cmd : string) : M unit :=
  Log_debug "command line arguments:" ;;;
  (* Print debug info. *)
  Log_debug ("quiet='" ++ bool_str (quiet args) ++ "'") ;;;
  Log_debug ("verbose='" ++ str_of_Z (verbose args) ++ "'") ;;;
  Log_debug ("color_output='" ++ bool_str (color_output args) ++ "'") ;;;
  (if cmd_in cmd ["init"; "generate"; "delete"; "info"; "get"; "set";
                  "validate"; "list_projects"] then
     Log_debug ("project_file='" ++ opt_str (projects_file args) ++ "'") ;;;
     Log_debug ("project_name='" ++ project args ++ "'")
   else ret tt) ;;;
  (if cmd_in cmd ["generate"] then
     modify (set_flags (emit_default args) (fatal_if_backend_not_impl args)) ;;;
     Log_debug ("glob_desc_name='" ++ opt_str (global_desc_name args) ++ "'") ;;;
     Log_debug ("emit_default='" ++ bool_str (emit_default args) ++ "'") ;;;
     Log_debug ("fatal_if_backend_not_impl='"
                ++ bool_str (fatal_if_backend_not_impl args) ++ "'")
   else ret tt) ;;;
  (if cmd_in cmd ["get"; "set"] then
     Log_debug ("property_name='" ++ property_name args ++ "'")
   else ret tt) ;;;
  (if cmd_in cmd ["generate"; "list_frontends"] then
     Log_debug ("frontends_file='" ++ opt_str (frontends_file args) ++ "'")
   else ret tt) ;;;
  (if cmd_in cmd ["generate"; "list_backends"] then
     Log_debug ("backends_file='" ++ opt_str (backends_file args) ++ "'")
   else ret tt).

(** [generate]; the result is the exit code the command returns. *)
Definition generate (args : Args) : M Z :=
  (* Command line arguments. *)
  process_arguments args "generate" ;;;
  let project_name := project args in
  let glob_desc_name := global_desc_name args in
  Log_info "running generate command" ;;;
  (* Load project and validate. *)
  failed <-
    except_VerHelError
      (load_projects (projects_file args) ;;;
       _ <- check_if_project_exists project_name ;;
       validate_project project_name ;;;
       match glob_desc_name with
       | Some g =>
           validate_project g ;;;
           use_global_desc_values project_name (Some g)
       | None => ret tt
       end ;;;
       desc <- get_project project_name ;;
       validate_version desc ;;;
       ret None)
      (fun code => ret (Some code)) ;;
  match failed with
  | Some code => ret code
  | None =>
      desc <- get_project project_name ;;
      (* Load frontends if project uses one. *)
      vcs <- lift (py_get desc "frontend") ;;
      loaded <-
        (if negb (is_none vcs) then
           except_VerHelError
             (load_frontends (frontends_file args) ;;;
              frontend <- check_if_frontend_exists vcs ;;
              check_if_vcs_is_installed frontend ;;;
              ret (inl frontend))
             (fun code => ret (inr code))
         else ret (inl JNull)) ;;
      match loaded with
      | inr code => ret code
      | inl frontend =>
          (* Load backends if project uses one. *)
          backends_list <- lift (py_get desc "backends") ;;
          n <- (if is_none backends_list then ret O
                else lift (py_len backends_list)) ;;
          if (negb (is_none backends_list) && Nat.ltb 0 n)%bool then
            failed <-
              except_VerHelError
                (load_backends (backends_file args) ;;;
                 check_if_backends_exists backends_list ;;;
                 ret None)
                (fun code => ret (Some code)) ;;
            match failed with
            | Some code => ret code
            | None =>
                (* Change current directory to project root directory. *)
                failed <-
                  except_VerHelError
                    (cd_into_project_directory desc ;;; ret None)
                    (fun code => ret (Some code)) ;;
                match failed with
                | Some code => ret code
                | None =>
                    (* Get information from Version Control System. *)
                    vcs_info <-
                      (if negb (is_none vcs) then
                         found <-
                           try_except
                             (check_if_project_repo_exists frontend ;;; ret true)
                             (fun _ => ret false) ;;
                         if found then
                           info <- get_vcs_info frontend vcs ;;
                           ret (Some info)
                         else ret None
                       else ret (Some [])) ;;
                    match vcs_info with
                    | None => ret ExitCodes.REPO_DOESNT_EXISTS
                    | Some vcs_info =>
                        (* Run Generate. *)
                        num_success <-
                          verhel_generate_sources project_name desc
                            (JObj vcs_info) ;;
                        let fmt :=
                          "successfully generated for " ++ nat_str num_success
                          ++ "/" ++ nat_str n ++ " backends" in
                        (if Nat.eqb num_success n then Log_success fmt
                         else Log_warn fmt) ;;;
                        Log_info "generate command finished" ;;;
                        ret ExitCodes.SUCCESS
                    end
                end
            end
          else
            Log_warn ("no backends found in project '" ++ project_name ++ "'") ;;;
            Log_info "nothing to do, terminating" ;;;
            ret ExitCodes.SUCCESS
      end
  end.

(** ** [set] *)

(** The position of the first entry that has a value under [key], or the
    length of the list. *)
Fixpoint find_backend (backends : list value) (key : string) (index : nat)
  : Res nat :=
  match backends with
  | [] => Ok index
  | bk :: r =>
      res_bind (py_get bk key) (fun v =>
      if negb (is_none v) then Ok index else find_backend r key (S index))
  end.

Fixpoint list_update (l : list value) (i : nat) (f : value -> value)
  : list value :=
  match l, i with
  | [], _ => []
  | x :: r, O => f x :: r
  | x :: r, S i' => x :: list_update r i' f
  end.

Fixpoint list_pop (l : list value) (i : nat) : list value :=
  match l, i with
  | [], _ => []
  | _ :: r, O => r
  | x :: r, S i' => x :: list_pop r i'
  end.

Definition set_dict_key (key : string) (v : value) (obj : value) : value :=
  match obj with
  | JObj d => JObj (dict_set d key v)
  | _ => obj
  end.

Definition set (args : Args) : M Z :=
  (* Command line arguments. *)
  process_arguments args "set" ;;;
  let project_name := project args in
  let new_value := new_value args in
  Log_info "running set command" ;;;
  (* Load project and validate. *)
  loaded <-
    except_VerHelError
      (key <- check_if_name_is_valid (property_name args) ;;
       load_projects (projects_file args) ;;;
       desc <- check_if_project_exists project_name ;;
       ret (inl (key, desc)))
      (fun code => ret (inr code)) ;;
  match loaded with
  | inr code => ret code
  | inl (key, desc) =>
      (* Check if key exists and validate type. *)
      r <-
        (if starts_with "backends." key then
           (* Check if backend exists. *)
           backends <- lift (py_get desc "backends") ;;
           entries <- lift (py_iter backends) ;;
           index <- lift (find_backend entries key 0) ;;
           n <- lift (py_len backends) ;;
           (* Add new value or else update. *)
           if Nat.eqb index n then
             (if negb (String.eqb new_value "null") then
                store_key project_name "backends"
                  (JList (entries ++ [JObj [(key, JStr new_value)]])%list)
              else ret tt) ;;;
             ret (inl (JNull, JStr new_value))
           else
             if negb (String.eqb new_value "null") then
               old_value <- lift (py_index (nth index entries JNull) key) ;;
               store_key project_name "backends"
                 (JList (list_update entries index
                           (set_dict_key key (JStr new_value)))) ;;;
               ret (inl (old_value, JStr new_value))
             else
               store_key project_name "backends"
                 (JList (list_pop entries index)) ;;;
               ret (inl (JNull, JStr new_value))
         else
           old_value <- lift (py_get desc key) ;;
           default <- lift (dict_index default_project key) ;;
           match type_of default with
           | TInt =>
               match int_of_str new_value with
               | None =>
                   Log_fatal ("invalid literal for int() with base 10: "
                              ++ str_repr new_value) ;;;
                   Log_fatal ("invalid new value '" ++ new_value
                              ++ "' for property '" ++ key ++ "'") ;;;
                   ret (inr ExitCodes.INVALID_VALUE)
               | Some converted =>
                   (* Add/Update value. *)
                   store_key project_name key (JInt converted) ;;;
                   ret (inl (old_value, JInt converted))
               end
           | _ =>
               (* Add/Update value. *)
               store_key project_name key (JStr new_value) ;;;
               ret (inl (old_value, JStr new_value))
           end) ;;
      match r with
      | inr code => ret code
      | inl (old_value, new_value) =>
          (* Update projects file. *)
          failed <-
            except_VerHelError
              (save_projects (projects_file args) ;;; ret None)
              (fun code => ret (Some code)) ;;
          match failed with
          | Some code => ret code
          | None =>
              (if is_none old_value then
                 Log_success ("successfully set value for '" ++ key
                              ++ "', new value '" ++ py_str new_value ++ "'")
               else
                 Log_success ("successfully set value for '" ++ key
                              ++ "', old '" ++ py_str old_value ++ "' new '"
                              ++ py_str new_value ++ "'")) ;;;
              Log_info "set command finished" ;;;
              ret ExitCodes.SUCCESS
          end
      end
  end.

(** ** [init], [delete], [validate], [get] *)

(** [obj[k] = v] *)
Definition py_setitem (obj : value) (k : string) (v : value) : Res value :=
  match obj with
  | JObj d => Ok (JObj (dict_set d k v))
  | JList _ =>
      Raise (TypeError "list indices must be integers or slices, not str")
  | _ =>
      Raise (TypeError
        ("'" ++ type_name (type_of obj)
         ++ "' object does not support item assignment"))
  end.

Definition init (args : Args) : M Z :=
  (* Command line arguments. *)
  process_arguments args "init" ;;;
  let project_name := project args in
  Log_info "running init command" ;;;
  match projects_file args with
  | None =>
      (* pathlib.Path(None) *)
      raise (TypeError "expected str, bytes or os.PathLike object, not NoneType")
  | Some file =>
      s <- get_state ;;
      (* If project description file exists, try load the project. *)
      stop <-
        (if dir_exists (env s) (cwd s) file then
           failed <-
             except_VerHelError
               (load_projects (Some file) ;;; ret None)
               (fun code => ret (Some code)) ;;
           match failed with
           | Some code => ret (Some code)
           | None =>
               (* Check name collision. *)
               s <- get_state ;;
               items <- lift (py_items (projects s)) ;;
               if existsb (fun name => String.eqb name project_name)
                    (dict_keys items)
               then
                 Log_fatal ("project '" ++ project_name ++ "' already exists") ;;;
                 ret (Some ExitCodes.PROJECT_ALREADY_EXISTS)
               else ret None
           end
         else ret None) ;;
      match stop with
      | Some code => ret code
      | None =>
          (* Add new project. *)
          s <- get_state ;;
          root <- lift (py_setitem (projects s) project_name
                          (JObj empty_project)) ;;
          modify (set_projects root) ;;;
          (* Update projects file. *)
          failed <-
            except_VerHelError
              (save_projects (Some file) ;;; ret None)
              (fun code => ret (Some code)) ;;
          match failed with
          | Some code => ret code
          | None =>
              Log_success ("successfully added new project '"
                           ++ project_name ++ "'") ;;;
              ret ExitCodes.SUCCESS
          end
      end
  end.

(** [d.pop(k)] for a key that is present. *)
Fixpoint dict_remove (d : dict) (k : string) : dict :=
  match d with
  | [] => []
  | (k', v) :: d' =>
      if String.eqb k k' then d' else (k', v) :: dict_remove d' k
  end.

(** [obj.pop(k)] *)
Definition py_pop (obj : value) (k : string) : Res value :=
  match obj with
  | JObj d =>
      if dict_mem d k then Ok (JObj (dict_remove d k))
      else Raise (KeyError k)
  | JList _ =>
      Raise (TypeError "'str' object cannot be interpreted as an integer")
  | _ =>
      Raise (AttributeError
        ("'" ++ type_name (type_of obj) ++ "' object has no attribute 'pop'"))
  end.

Definition delete (args : Args) : M Z :=
  (* Command line arguments. *)
  process_arguments args "delete" ;;;
  let project_name := project args in
  Log_info "running delete command" ;;;
  (* Load project. *)
  failed <-
    except_VerHelError
      (load_projects (projects_file args) ;;;
       _ <- check_if_project_exists project_name ;;
       ret None)
      (fun code => ret (Some code)) ;;
  match failed with
  | Some code => ret code
  | None =>
      (* Delete project. *)
      s <- get_state ;;
      root <- lift (py_pop (projects s) project_name) ;;
      modify (set_projects root) ;;;
      (* Update projects file. *)
      failed <-
        except_VerHelError
          (save_projects (projects_file args) ;;; ret None)
          (fun code => ret (Some code)) ;;
      match failed with
      | Some code => ret code
      | None =>
          Log_success ("successfully deleted project '" ++ project_name ++ "'") ;;;
          Log_info "delete command finished" ;;;
          ret ExitCodes.SUCCESS
      end
  end.

(** [print(text)] *)
Definition print (text : string) : M unit := modify (add_printed text).

Definition validate (args : Args) : M Z :=
  (* Command line arguments. *)
  process_arguments args "validate" ;;;
  let project_name := project args in
  Log_info "running validate command" ;;;
  (* Load project. *)
  failed <-
    except_VerHelError
      (load_projects (projects_file args) ;;;
       _ <- check_if_project_exists project_name ;;
       validate_project project_name ;;;
       ret None)
      (fun code => ret (Some code)) ;;
  match failed with
  | Some code => ret code
  | None =>
      (if negb (quiet args) then print "OK" else ret tt) ;;;
      Log_success "validate command finished" ;;;
      ret ExitCodes.SUCCESS
  end.

Definition get (args : Args) : M Z :=
  (* Command line arguments. *)
  process_arguments args "get" ;;;
  let project_name := project args in
  let property_name := property_name args in
  Log_info "running get command" ;;;
  (* Load project and validate. *)
  loaded <-
    except_VerHelError
      (key <- check_if_name_is_valid property_name ;;
       load_projects (projects_file args) ;;;
       desc <- check_if_project_exists project_name ;;
       ret (inl (key, desc)))
      (fun code => ret (inr code)) ;;
  match loaded with
  | inr code => ret code
  | inl (key, desc) =>
      (* Check if key exists, if so then print the value. *)
      r <-
        (if starts_with "backends." property_name then
           (* Check if backend exists. *)
           backends <- lift (py_get desc "backends") ;;
           entries <- lift (py_iter backends) ;;
           index <- lift (find_backend entries key 0) ;;
           n <- lift (py_len backends) ;;
           (* Get value. *)
           if Nat.eqb index n then
             Log_fatal ("backend '" ++ key ++ "' doesn't exists") ;;;
             ret (inr ExitCodes.BACKEND_DOESNT_EXISTS)
           else
             value <- lift (py_index (nth index entries JNull) key) ;;
             ret (inl value)
         else
           value <- lift (py_index desc key) ;;
           ret (inl value)) ;;
      match r with
      | inr code => ret code
      | inl value =>
          print (py_str value) ;;;
          Log_success ("successfully get value for property " ++ property_name
                       ++ " = '" ++ py_str value ++ "'") ;;;
          Log_info "get command finished" ;;;
          ret ExitCodes.SUCCESS
      end
  end.

(** ** [list_projects], [list_frontends], [list_backends] *)




End Program.

(* ================================================================== *)
(** * Vocabulary of the properties *)
(* ================================================================== *)

(** The state after logging the messages [msgs] in turn. *)
Fixpoint log_many (msgs : list (LogType * string)) (s : State) : State :=
  match msgs with
  | [] => s
  | (t, m) :: r =>
      log_many r
        (add_log {| log_type := t; log_time := clock (env s) (ticks s);
                    log_message := m |} s)
  end.

(** [m] touches the state only by logging [msgs], and its result [r]
    does not depend on the state. *)
Definition emits {A} (m : M A) (r : Res A) (msgs : list (LogType * string))
  : Prop :=
  forall s, m s = (r, log_many msgs s).

Definition pure_logging {A} (m : M A) : Prop :=
  exists r msgs, emits m r msgs.

Definition is_ok {A} (r : Res A) : bool :=
  match r with
  | Ok _ => true
  | Raise _ => false
  end.

(** Two computations with the same result, the first of which has logged
    [w] whenever that result is not an exception. *)
Definition same_result_logging {A} (w : LogType * string) (m1 m2 : M A) : Prop :=
  exists r l1 l2,
    emits m1 r l1 /\ emits m2 r l2 /\ (is_ok r = true -> In w l1).

(** A message is in the log, whatever its clock reading. *)
Definition logged (t : LogType) (message : string) (s : State) : Prop :=
  exists time,
    In {| log_type := t; log_time := time; log_message := message |} (log s).

(** A descriptor after global fallback: every entry whose value is null
    takes the value the global descriptor [g] has under the same key. *)
Definition fill_from (g : dict) (d : dict) : dict :=
  map (fun kv : string * value =>
         if is_none (snd kv) then (fst kv, dict_get g (fst kv)) else kv) d.

(** [VerHel.__init__]: the instance as created, in a process with
    environment [e] started in the directory [dir]. *)
Definition initial_state (e : Env) (dir : string) : State :=
  {| projects := JObj []; frontends := JObj []; backends := JObj [];
     fatal_if_bk_not_impl := false; emit_default_values := false;
     log := []; ticks := O; runs := O; cwd := dir;
     written := []; printed := []; env := e |}.

(** The environment and the working directory are the same. *)
Definition same_place (s s' : State) : Prop :=
  env s' = env s /\ cwd s' = cwd s.

(** The frontend [f] declares the query [cmd_name] with command line
    [cmd] and accepted exit codes [codes]. *)
Definition command_entry (f : dict) (cmd_name : string) (cmd : value)
    (codes : list value) : Prop :=
  exists o,
    dict_get f cmd_name = JObj o
    /\ dict_get o "cmd" = cmd
    /\ dict_get o "ret_codes" = JList codes.

Definition query_declared (f : dict) (cmd_name : string) : Prop :=
  exists cmd codes, command_entry f cmd_name cmd codes.

(** In the environment of [s] the query [cmd_name] exits with the
    accepted code [rc] and prints [out], whenever it is run. *)
Definition query_exits {RT : PyRuntime} (s : State) (f : dict)
    (cmd_name : string) (rc : Z) (out : string) : Prop :=
  exists line args codes,
    command_entry f cmd_name (JStr line) codes
    /\ shlex_split line = Ok args
    /\ (forall n, exec (env s) n (cwd s) args = ProcExit rc out)
    /\ list_mem (JInt rc) codes = true.

(** The commit-count query never prints, under an accepted exit code,
    text that [int()] refuses. *)
Definition count_is_numeric {RT : PyRuntime} (s : State) (f : dict) : Prop :=
  forall line args codes n rc out,
    command_entry f "get.commit_count" (JStr line) codes ->
    shlex_split line = Ok args ->
    exec (env s) n (cwd s) args = ProcExit rc out ->
    list_mem (JInt rc) codes = true ->
    int_of_str (str_strip out) <> None.

(** [d'] is the project descriptor [d] as [generate] has it after the
    optional global step: [d] itself, or [d] filled from a global
    descriptor that is in the store and validates. *)
Definition global_resolved (args : Args) (ps d d' : dict) : Prop :=
  match global_desc_name args with
  | None => d' = d
  | Some g =>
      exists gd,
        dict_find ps g = Some (JObj gd)
        /\ validate_checks (JObj gd) = Ok tt
        /\ dict_wf d
        /\ d' = fill_from gd d
  end.

(** Where [load_frontends] reads from. *)
Definition frontends_source (args : Args) (s : State) : LoadResult :=
  match frontends_file args with
  | None => LoadContent FRONTENDS_DESC
  | Some f => load_file (env s) (cwd s) f
  end.

(** The project names no frontend, or one that loads, exists and whose
    executable is on the search path. *)
Definition frontend_ready (args : Args) (s : State) (vcs : value) : Prop :=
  vcs = JNull
  \/ exists name fs fe exe,
       vcs = JStr name
       /\ frontends_source args s = LoadContent (Document (JObj fs))
       /\ dict_get fs name = JObj fe
       /\ dict_get fe "exe" = JStr exe
       /\ which (env s) exe = true.

(** The ways in which a [backends] list breaks the rules of the data
    model. *)
Definition entry_has_name (bk : value) (name : string) : Prop :=
  exists d, bk = JObj d /\ dict_mem d name = true.

Definition entry_has_output (bk : value) (output : value) : Prop :=
  exists d name, bk = JObj d /\ In (name, output) d.

Definition single_key_object (bk : value) : Prop :=
  exists name output, bk = JObj [(name, output)].

Definition invalid_backends (l : list value) : Prop :=
  (exists i j bi bj name,
      i <> j /\ nth_error l i = Some bi /\ nth_error l j = Some bj
      /\ entry_has_name bi name /\ entry_has_name bj name)
  \/ (exists i j bi bj output,
      i <> j /\ nth_error l i = Some bi /\ nth_error l j = Some bj
      /\ entry_has_output bi output /\ entry_has_output bj output)
  \/ (exists bk, In bk l /\ ~ single_key_object bk)
  \/ (exists bk, In bk l /\ entry_has_output bk JNull).

(** Everything the process keeps outside the instance and the log. *)
Definition same_process (s s' : State) : Prop :=
  env s' = env s /\ cwd s' = cwd s /\ written s' = written s
  /\ printed s' = printed s /\ runs s' = runs s.

(** Nothing but the project store, the log, the clock readings and the
    two flags may differ. *)
Definition outside_projects (s s' : State) : Prop :=
  frontends s' = frontends s /\ backends s' = backends s /\ same_process s s'.

(** No backend descriptor was loaded, no command run, no file written,
    nothing printed by the command itself, and the working directory is
    the same. *)
Definition no_output (s s' : State) : Prop :=
  backends s' = backends s /\ same_process s s'.

(** Only the log, the clock readings and the two flags may differ. *)
Definition only_logged (s s' : State) : Prop :=
  projects s' = projects s /\ frontends s' = frontends s
  /\ backends s' = backends s /\ same_process s s'.

(** No backend descriptor was loaded, no command run, no file written,
    and the working directory is the same. *)
Definition nothing_produced (s s' : State) : Prop :=
  backends s' = backends s /\ env s' = env s /\ cwd s' = cwd s
  /\ written s' = written s /\ runs s' = runs s.

(** The first of the three version numbers that is null. *)
Definition null_version_key (d : dict) : string :=
  if is_none (dict_get d "version.major") then "version.major"
  else if is_none (dict_get d "version.minor") then "version.minor"
  else "version.patch".

(** A text with no brace in it. *)
Fixpoint no_braces (s : string) : bool :=
  match s with
  | EmptyString => true
  | String c r =>
      negb (Ascii.eqb c "{") && negb (Ascii.eqb c "}") && no_braces r
  end.

(** The value under [key] is of type [t] or null (an absent key reads as
    null). *)
Definition typed_or_null (d : dict) (key : string) (t : PyType) : bool :=
  let ty := type_of (dict_get d key) in
  (type_eqb ty t || type_eqb ty TNone)%bool.

(** The keys of a project with a type of their own. *)
Definition typed_keys : list (string * PyType) :=
  [ ("version.major", TInt); ("version.minor", TInt);
    ("version.patch", TInt); ("version.pre_release", TStr);
    ("frontend", TStr); ("license.spdx", TStr); ("license.file", TStr);
    ("project.author", TStr); ("project.copyright", TStr);
    ("project.company", TStr); ("project.description", TStr);
    ("project.directory", TStr); ("project.name", TStr);
    ("exclude", TList) ].

(** A backend name with the path of its output. *)
Definition backend_entry (e : string * string) : value :=
  JObj [(fst e, JStr (snd e))].

(** Null, or a list of entries no two of which share a name or an
    output. *)
Definition valid_backends (v : value) : Prop :=
  v = JNull
  \/ exists entries : list (string * string),
       v = JList (map backend_entry entries)
       /\ NoDup (map fst entries) /\ NoDup (map snd entries).

Definition valid_descriptor (d : dict) : Prop :=
  (forall key t, In (key, t) typed_keys -> typed_or_null d key t = true)
  /\ valid_backends (dict_get d "backends").

(** The file [load_projects] and [save_projects] use. *)
Definition projects_file_name (file_name : option string) : string :=
  match file_name with
  | None => PROJECTS_DEFAULT_FILE_NAME
  | Some f => f
  end.

(** A file that cannot be read, or whose text is not JSON. *)
Definition unreadable (r : LoadResult) : Prop :=
  (exists msg, r = LoadIOError msg)
  \/ (exists msg, r = LoadContent (Malformed msg)).

(** What [set] stores under a key of the project: the integer [int()]
    reads for the keys whose default is an integer ([None] when it reads
    none), the text as it is for the others. *)
Definition new_value_stored {RT : PyRuntime} (key text : string)
  : option value :=
  match type_of (dict_get default_project key) with
  | TInt => option_map JInt (int_of_str text)
  | _ => Some (JStr text)
  end.

(** The property names [check_if_name_is_valid] accepts: a key of the
    project, or [backends.] followed by a name that is not empty. *)
Definition valid_name (name : string) : bool :=
  if starts_with "backends." name
  then negb (Nat.eqb (String.length (drop (String.length "backends.") name)) 0)
  else dict_mem empty_project name.

(** The exit code of a command that ends by writing the projects file,
    and the files written once it has. *)
Definition saved_exit (w : WriteOutcome) : Z :=
  match w with
  | WriteOk => ExitCodes.SUCCESS
  | WriteIOError _ => ExitCodes.FAILED_TO_SAVE_PROJECTS
  end.

Definition saved_files (w : WriteOutcome)
    (files : list (string * string * FileData))
    (f : string * string * FileData) : list (string * string * FileData) :=
  match w with
  | WriteOk => (files ++ [f])%list
  | WriteIOError _ => files
  end.

(** In the environment of [s] the query [cmd_name], whenever it is run,
    does not end with an accepted code: it exits with a code outside the
    accepted set, or does not run to its end. *)
Definition query_refused {RT : PyRuntime} (s : State) (f : dict)
    (cmd_name : string) : Prop :=
  exists line args codes,
    command_entry f cmd_name (JStr line) codes
    /\ shlex_split line = Ok args
    /\ forall n,
         match exec (env s) n (cwd s) args with
         | ProcExit rc _ => list_mem (JInt rc) codes = false
         | _ => True
         end.

(** The outcome of a command is an exit with a code of [codes]. *)
Definition exit_accepted (codes : list value) (o : ProcOutcome) : bool :=
  match o with
  | ProcExit rc _ => list_mem (JInt rc) codes
  | _ => false
  end.

(** The entries of a project whose backend is not among the loaded
    backends [bs]. *)
Definition missing_backends (bs : dict) (entries : list (string * string))
  : list (string * string) :=
  filter (fun e => is_none (dict_get bs (fst e))) entries.

(** The keys of the cooked information, in the order [cook_info] sets
    them. *)
Definition cooked_keys : list string :=
  [ "version.major"; "version.minor"; "version.patch"; "version.pre_release";
    "version.string"; "project.name"; "project.author"; "project.license";
    "project.copyright"; "project.company"; "project.description";
    "project.directory"; "project.path"; "license.spdx"; "license.file";
    "build.date"; "build.time"; "vcs.name"; "vcs.commit_hash";
    "vcs.short_hash"; "vcs.branch"; "vcs.tag"; "vcs.commit_count" ].

(** [v], or [fallback] when [v] is null. *)
Definition or_else (v fallback : value) : value :=
  if is_none v then fallback else v.

(** An entry of a [var_map]: a cooked key with the name it is emitted
    under. *)
Definition var_entry (p : string * value) : value := JObj [(fst p, snd p)].

(** The template of a line: the emitted name and the value, each in its
    field, between three texts. *)
Definition line_template (parts : string * string * string) (field : string)
  : string :=
  let '(a, b, c) := parts in a ++ "{0}" ++ b ++ field ++ c.

Definition plain_parts (parts : string * string * string) : bool :=
  let '(a, b, c) := parts in (no_braces a && no_braces b && no_braces c)%bool.

(** A backend descriptor of the shape of the built-in one: the opening
    and the closing text, the comment mark, a [var_map] of single-key
    entries, and line templates made of the emitted name and the value
    between texts without braces, the value of a string in upper case. *)
Definition line_backend (b : dict)
    (number_parts string_parts : string * string * string)
    (source_begin source_end : string)
    (source_comment : value) (vars : list (string * value)) : Prop :=
  dict_get b "source.begin" = JStr source_begin
  /\ dict_get b "source.end" = JStr source_end
  /\ dict_get b "source.comment" = source_comment
  /\ dict_get b "var_map" = JList (map var_entry vars)
  /\ dict_get b "format.number" = JStr (line_template number_parts "{1}")
  /\ dict_get b "format.string" = JStr (line_template string_parts "{1!u}")
  /\ plain_parts number_parts = true
  /\ plain_parts string_parts = true.

(** The line of a number, and the line of a string. *)
Definition number_line {RT : PyRuntime} (parts : string * string * string)
    (emit_name v : value) : string :=
  let '(a, b, c) := parts in a ++ py_str emit_name ++ b ++ py_str v ++ c.

Definition string_line {RT : PyRuntime} (parts : string * string * string)
    (emit_name v : value) : string :=
  let '(a, b, c) := parts in
  a ++ py_str emit_name ++ b ++ str_upper (py_str v) ++ c.

(** What an entry of the [var_map] adds to the text: nothing for an
    excluded key and for a null value, the line of a number for an
    integer or a float, the line of a string for every other value. *)
Definition var_line {RT : PyRuntime}
    (number_parts string_parts : string * string * string)
    (cooked : dict) (excluded : list value) (p : string * value) : string :=
  if list_mem (JStr (fst p)) excluded then ""
  else
    match type_of (dict_get cooked (fst p)) with
    | TNone => ""
    | TInt | TFloat => number_line number_parts (snd p) (dict_get cooked (fst p))
    | _ => string_line string_parts (snd p) (dict_get cooked (fst p))
    end.

(** What it adds to the log: a warning for a null value and for a value
    that is neither a number nor a string. *)
Definition var_warnings (cooked : dict) (excluded : list value)
    (p : string * value) : list (LogType * string) :=
  if list_mem (JStr (fst p)) excluded then []
  else
    match type_of (dict_get cooked (fst p)) with
    | TNone => [(WARNING, "emiting value '" ++ fst p ++ "' is null")]
    | TInt | TFloat | TStr => []
    | ty =>
        [(WARNING, "don't know how to write type '" ++ type_name ty
                   ++ ", writing as string'")]
    end.

(** The texts of a list, one after the other. *)
Definition joined (texts : list string) : string :=
  fold_right append "" texts.

(** The heading of a generated source: the lines of the licence text
    behind the comment mark, then, when the cooked [license.spdx] is not
    null, the SPDX line, after a bare comment mark when there is a
    licence text. *)
Definition source_heading {RT : PyRuntime} (source_comment : value)
    (license_text : option string) (spdx : value) : string :=
  match license_text with
  | Some text =>
      joined (map (fun line => py_str source_comment ++ " " ++ line ++ nl)
                (str_splitlines (str_rstrip text)))
  | None => ""
  end
  ++ (if is_none spdx then ""
      else
        match license_text with
        | Some _ => py_str source_comment ++ nl
        | None => ""
        end
        ++ py_str source_comment ++ " SPDX-License-Identifier: "
        ++ py_str spdx ++ nl).

(** The text a backend of that shape renders. *)
Definition line_source {RT : PyRuntime}
    (number_parts string_parts : string * string * string)
    (source_begin source_end : string) (source_comment : value)
    (vars : list (string * value)) (cooked : dict)
    (license_text : option string) (excluded : list value) : string :=
  source_heading source_comment license_text (dict_get cooked "license.spdx")
  ++ source_begin
  ++ joined (map (var_line number_parts string_parts cooked excluded) vars)
  ++ source_end
  ++ nl ++ py_str source_comment ++ " generated using verhel.py "
  ++ py_str source_comment ++ nl.

(** A computation that leaves the process as it is but for what it
    logs. *)
Definition logs_only {A} (m : M A) : Prop :=
  forall s, exists msgs, snd (m s) = log_many msgs s.

(** From [s] to [s'] the files [files] were written, in the same working
    directory, and the commands printed nothing themselves. *)
Definition files_written (s s' : State)
    (files : list (string * string * FileData)) : Prop :=
  written s' = (written s ++ files)%list
  /\ cwd s' = cwd s /\ env s' = env s /\ printed s' = printed s.

(** The backend names of a [backends] list, each with its output. *)
Definition entry_items (entries : list value) : list (string * value) :=
  flat_map (fun entry => match entry with JObj items => items | _ => [] end)
    entries.

Definition backend_outputs (desc : value) : list (string * value) :=
  match desc with
  | JObj d =>
      match dict_get d "backends" with
      | JList entries => entry_items entries
      | _ => []
      end
  | _ => []
  end.

(** A text written, from the directory [dir], at the path one of the
    [outputs] gives. *)
Definition output_file {RT : PyRuntime} (dir : string)
    (outputs : list (string * value)) (f : string * string * FileData)
  : Prop :=
  exists name p text,
    In (name, JStr p) outputs /\ f = (dir, path_str p, TextData text).



(* ================================================================== *)
(** * A project store and an environment to run the model on *)
(* ================================================================== *)

Section Sample.
#[local] Existing Instance AsciiRuntime.runtime.

(** A project with one backend and no frontend. *)
Definition demo_project : dict :=
  [ ("backends", JList [JObj [("cpp", JStr "out/version.hpp")]]);
    ("exclude", JList [JStr "build.time"]);
    ("frontend", JNull);
    ("license.spdx", JStr "MIT");
    ("license.file", JNull);
    ("project.name", JNull);
    ("project.author", JNull);
    ("project.copyright", JNull);
    ("project.description", JNull);
    ("project.directory", JNull);
    ("version.major", JInt 1);
    ("version.minor", JInt 2);
    ("version.patch", JInt 3);
    ("version.pre_release", JStr "beta") ].

Definition global_project : dict :=
  [ ("backends", JList []);
    ("exclude", JList []);
    ("frontend", JNull);
    ("license.spdx", JStr "Apache-2.0");
    ("license.file", JNull);
    ("project.name", JStr "shared");
    ("project.author", JStr "VacuityBox");
    ("project.copyright", JStr "2021");
    ("project.description", JNull);
    ("project.directory", JNull);
    ("version.major", JInt 0);
    ("version.minor", JInt 1);
    ("version.patch", JInt 0);
    ("version.pre_release", JNull) ].

(** A project with a version, no backend and no frontend. *)
Definition quiet_project : dict :=
  [ ("backends", JList []);
    ("frontend", JNull);
    ("version.major", JInt 0);
    ("version.minor", JInt 1);
    ("version.patch", JInt 0) ].

(** The same with a frontend that no frontend descriptor implements. *)
Definition svn_project : dict :=
  [ ("backends", JList []);
    ("frontend", JStr "svn");
    ("version.major", JInt 0);
    ("version.minor", JInt 1);
    ("version.patch", JInt 0) ].

(** A project with an integer under [project.company]. *)
Definition company_project : dict := [ ("project.company", JInt 5) ].

(** Two backends that write the same file, and two of the same name. *)
Definition clashing_backends : list value :=
  [ JObj [("cpp", JStr "out/version.hpp")];
    JObj [("c", JStr "out/version.hpp")] ].

Definition clashing_project : dict :=
  [ ("backends", JList clashing_backends);
    ("version.major", JInt 1) ].

Definition sample_projects : dict :=
  [ ("demo", JObj demo_project);
    ("_Global", JObj global_project);
    ("quiet", JObj quiet_project);
    ("svn", JObj svn_project);
    ("company", JObj company_project);
    ("plain", JObj []);
    ("clashing", JObj clashing_project) ].

(** A repository on the branch [main] with 42 commits and no tag: git
    answers 128 and prints nothing on standard output. *)
Definition sample_exec (n : nat) (dir : string) (args : list string)
  : ProcOutcome :=
  let line := join " " args in
  if String.eqb line "git rev-parse --git-dir" then ProcExit 0 (".git" ++ nl)
  else if String.eqb line "git rev-parse HEAD"
  then ProcExit 0 ("0a1b2c3d4e5f" ++ nl)
  else if String.eqb line "git rev-parse --short HEAD"
  then ProcExit 0 ("0a1b2c3" ++ nl)
  else if String.eqb line "git describe --tags --abbrev=0 --exact-match"
  then ProcExit 128 ""
  else if String.eqb line "git rev-parse --abbrev-ref HEAD"
  then ProcExit 0 ("main" ++ nl)
  else if String.eqb line "git rev-list --count HEAD"
  then ProcExit 0 ("42" ++ nl)
  else ProcOtherError.

Definition sample_env : Env :=
  {| clock := fun n => Z.of_nat n;
     date_at := fun _ => "2021-06-01";
     time_at := fun _ => "12:00:00";
     load_file := fun _ name =>
       if String.eqb name "verhel.json"
       then LoadContent (Document (JObj sample_projects))
       else LoadIOError "No such file or directory";
     read_text := fun _ _ => ReadIOError "No such file or directory";
     write_text := fun _ _ => WriteOk;
     which := fun exe => String.eqb exe "git";
     exec := sample_exec;
     dir_exists := fun _ _ => true;
     mkdir_error := fun _ _ => None;
     chdir_error := fun _ _ => None |}.

Definition sample_state : State := initial_state sample_env "/work".

(** The same with the project store loaded. *)
Definition loaded_state : State :=
  set_projects (JObj sample_projects) sample_state.

Definition sample_args (project_name : string) : Args :=
  {| quiet := false; verbose := 0; color_output := false;
     project := project_name;
     projects_file := None; frontends_file := None; backends_file := None;
     global_desc_name := None;
     emit_default := false; fatal_if_backend_not_impl := true;
     property_name := "version.major"; new_value := "one" |}.

(** The built-in frontend and backend descriptors. *)
Definition git_frontend : dict :=
  match FRONTENDS_DESC with
  | Document (JObj [(_, JObj f)]) => f
  | _ => []
  end.

Definition cpp_backend : dict :=
  match BACKENDS_DESC with
  | Document (JObj [(_, JObj b)]) => b
  | _ => []
  end.

Definition cpp_var_map : list value :=
  match dict_get cpp_backend "var_map" with
  | JList l => l
  | _ => []
  end.

(** The cooked values of [demo], which has no VCS information. *)
Definition demo_cooked : dict :=
  match
    fst (cook_info "demo" (JObj demo_project)
           (JObj [("date", JStr "2021-06-01"); ("time", JStr "12:00:00")])
           (JObj []) sample_state)
  with
  | Ok info => info
  | Raise _ => []
  end.

End Sample.

Section Requests.
#[local] Existing Instance AsciiRuntime.runtime.

(** [get] and [set] on a property of a project. *)
Definition property_args (project_name name value : string) : Args :=
  {| quiet := false; verbose := 0; color_output := false;
     project := project_name;
     projects_file := None; frontends_file := None; backends_file := None;
     global_desc_name := None;
     emit_default := false; fatal_if_backend_not_impl := true;
     property_name := name; new_value := value |}.

(** A command with [--projects-file]. *)
Definition file_args (project_name file : string) : Args :=
  {| quiet := false; verbose := 0; color_output := false;
     project := project_name;
     projects_file := Some file;
     frontends_file := None; backends_file := None;
     global_desc_name := None;
     emit_default := false; fatal_if_backend_not_impl := true;
     property_name := "version.major"; new_value := "one" |}.

(** The git frontend with 128 no longer accepted for [get.tag]. *)
Definition strict_frontend : dict :=
  dict_set git_frontend "get.tag"
    (JObj [("cmd", JStr "git describe --tags --abbrev=0 --exact-match");
           ("ret_codes", JList [JInt 0])]).

(** The git frontend with a commit-count query that prints a hash. *)
Definition hash_count_frontend : dict :=
  dict_set git_frontend "get.commit_count"
    (JObj [("cmd", JStr "git rev-parse HEAD");
           ("ret_codes", JList [JInt 0])]).

(** A frontend whose repository check is the tag query, which exits with
    128 in the sample repository. *)
Definition no_repo_frontend : dict :=
  dict_set git_frontend "get.repo"
    (JObj [("cmd", JStr "git describe --tags --abbrev=0 --exact-match");
           ("ret_codes", JList [JInt 0])]).

(** The [var_map] of the built-in backend. *)
Definition cpp_vars : list (string * value) :=
  [ ("version.major",       JStr "VERSION_MAJOR      ");
    ("version.minor",       JStr "VERSION_MINOR      ");
    ("version.patch",       JStr "VERSION_PATCH      ");
    ("version.pre_release", JStr "VERSION_PRE_RELEASE");
    ("version.string",      JStr "VERSION_STRING     ");
    ("project.name",        JStr "PROJECT_NAME       ");
    ("project.author",      JStr "PROJECT_AUTHOR     ");
    ("project.license",     JStr "PROJECT_LICENSE    ");
    ("project.copyright",   JStr "PROJECT_COPYRIGHT  ");
    ("project.description", JStr "PROJECT_DESCRIPTION");
    ("project.directory",   JStr "PROJECT_DIRECTORY  ");
    ("project.path",        JStr "PROJECT_PATH       ");
    ("build.date",          JStr "BUILD_DATE         ");
    ("build.time",          JStr "BUILD_TIME         ");
    ("vcs.name",            JStr "VCS_NAME           ");
    ("vcs.commit_hash",     JStr "VCS_COMMIT_HASH    ");
    ("vcs.short_hash",      JStr "VCS_SHORT_HASH     ");
    ("vcs.tag",             JStr "VCS_TAG            ");
    ("vcs.branch",          JStr "VCS_BRANCH         ");
    ("vcs.commit_count",    JStr "VCS_COMMIT_COUNT   ") ].

End Requests.

(* ================================================================== *)
(** * Properties *)
(* ================================================================== *)

(** ** Text and dictionaries *)

Lemma append_assoc (a b c : string) : ((a ++ b) ++ c = a ++ (b ++ c))%string.
Proof.
  induction a as [|x a IH]; simpl; [reflexivity | now rewrite IH].
Qed.

Lemma append_nil_r (a : string) : (a ++ "" = a)%string.
Proof.
  induction a as [|x a IH]; simpl; [reflexivity | now rewrite IH].
Qed.

Lemma dict_find_set_same (d : dict) (k : string) (v : value) :
  dict_find (dict_set d k v) k = Some v.
Proof.
  induction d as [|[k' v'] d IH]; simpl.
  - now rewrite String.eqb_refl.
  - destruct (String.eqb k k') eqn:E; simpl; rewrite E; auto.
Qed.

Lemma dict_find_set_other (d : dict) (k k' : string) (v : value) :
  k' <> k -> dict_find (dict_set d k v) k' = dict_find d k'.
Proof.
  intros Hne. induction d as [|[k0 v0] d IH]; simpl.
  - destruct (String.eqb_spec k' k); [contradiction | reflexivity].
  - destruct (String.eqb_spec k k0) as [->|Hk]; simpl.
    + destruct (String.eqb_spec k' k0); [contradiction | reflexivity].
    + destruct (String.eqb_spec k' k0); [reflexivity | exact IH].
Qed.

Lemma dict_get_set_same (d : dict) (k : string) (v : value) :
  dict_get (dict_set d k v) k = v.
Proof. unfold dict_get. now rewrite dict_find_set_same. Qed.

Lemma dict_get_set_other (d : dict) (k k' : string) (v : value) :
  k' <> k -> dict_get (dict_set d k v) k' = dict_get d k'.
Proof. intros H. unfold dict_get. now rewrite dict_find_set_other. Qed.

Lemma dict_mem_set_other (d : dict) (k k' : string) (v : value) :
  k' <> k -> dict_mem (dict_set d k v) k' = dict_mem d k'.
Proof. intros H. unfold dict_mem. now rewrite dict_find_set_other. Qed.

Lemma dict_set_set (d : dict) (k : string) (v w : value) :
  dict_set (dict_set d k v) k w = dict_set d k w.
Proof.
  induction d as [|[k' v'] d IH]; simpl.
  - now rewrite String.eqb_refl.
  - destruct (String.eqb k k') eqn:E; simpl; rewrite E; [reflexivity|].
    now rewrite IH.
Qed.

Lemma dict_set_found (d : dict) (k : string) (v : value) :
  dict_find d k = Some v -> dict_set d k v = d.
Proof.
  induction d as [|[k' v'] d IH]; simpl; [discriminate|].
  destruct (String.eqb_spec k k') as [->|Hk].
  - now intros [= ->].
  - intros H. now rewrite IH.
Qed.

(** ** Logging *)

Lemma log_many_app (l1 l2 : list (LogType * string)) (s : State) :
  log_many (l1 ++ l2) s = log_many l2 (log_many l1 s).
Proof.
  revert s. induction l1 as [|[t m] l1 IH]; intros s; simpl; [reflexivity|].
  apply IH.
Qed.

Lemma log_many_fields (l : list (LogType * string)) (s : State) :
  projects (log_many l s) = projects s
  /\ frontends (log_many l s) = frontends s
  /\ backends (log_many l s) = backends s
  /\ fatal_if_bk_not_impl (log_many l s) = fatal_if_bk_not_impl s
  /\ emit_default_values (log_many l s) = emit_default_values s
  /\ same_process s (log_many l s).
Proof.
  revert s. induction l as [|[t m] l IH]; intros s; simpl.
  - unfold same_process. repeat split; reflexivity.
  - specialize (IH (add_log {| log_type := t;
                               log_time := clock (env s) (ticks s);
                               log_message := m |} s)).
    unfold same_process in *. simpl in IH. exact IH.
Qed.

Lemma log_many_log (l : list (LogType * string)) (s : State) :
  exists entries,
    log (log_many l s) = (log s ++ entries)%list
    /\ map (fun e => (log_type e, log_message e)) entries = l.
Proof.
  revert s. induction l as [|[t m] l IH]; intros s; simpl.
  - exists []. split; [now rewrite app_nil_r | reflexivity].
  - destruct (IH (add_log {| log_type := t;
                             log_time := clock (env s) (ticks s);
                             log_message := m |} s)) as (es & He & Hm).
    simpl in He.
    exists ({| log_type := t; log_time := clock (env s) (ticks s);
               log_message := m |} :: es).
    split.
    + rewrite He. now rewrite <- app_assoc.
    + simpl. now rewrite Hm.
Qed.

Lemma log_many_logged (l : list (LogType * string)) (s : State)
    (t : LogType) (m : string) :
  In (t, m) l -> logged t m (log_many l s).
Proof.
  intros Hin. destruct (log_many_log l s) as (es & He & Hm).
  rewrite <- Hm in Hin. apply in_map_iff in Hin.
  destruct Hin as ([t' time m'] & Heq & Hin). simpl in Heq.
  injection Heq as -> ->.
  exists time. rewrite He. apply in_or_app. now right.
Qed.

Lemma logged_log_many (l : list (LogType * string)) (s : State)
    (t : LogType) (m : string) :
  logged t m s -> logged t m (log_many l s).
Proof.
  intros [time Hin]. destruct (log_many_log l s) as (es & He & _).
  exists time. rewrite He. apply in_or_app. now left.
Qed.

(** ** Computations that only log *)

Lemma emits_ret {A} (a : A) : emits (ret a) (Ok a) [].
Proof. intros s. reflexivity. Qed.

Lemma emits_lift {A} (r : Res A) : emits (lift r) r [].
Proof. intros s. reflexivity. Qed.

Lemma emits_raise {A} (e : PyExn) : emits (@raise A e) (Raise e) [].
Proof. intros s. reflexivity. Qed.

Lemma emits_log (t : LogType) (m : string) :
  emits (Log_log t m) (Ok tt) [(t, m)].
Proof. intros s. reflexivity. Qed.

Lemma emits_bind_ok {A B} (m : M A) (k : A -> M B) (a : A) (r : Res B)
    (l1 l2 : list (LogType * string)) :
  emits m (Ok a) l1 -> emits (k a) r l2 -> emits (bind m k) r (l1 ++ l2).
Proof.
  intros H1 H2 s. unfold bind. rewrite H1, H2. now rewrite log_many_app.
Qed.

Lemma emits_bind_raise {A B} (m : M A) (k : A -> M B) (e : PyExn)
    (l1 : list (LogType * string)) :
  emits m (Raise e) l1 -> emits (bind m k) (Raise e) l1.
Proof. intros H1 s. unfold bind. now rewrite H1. Qed.

Lemma pure_logging_ret {A} (a : A) : pure_logging (ret a).
Proof. exists (Ok a), []. apply emits_ret. Qed.

Lemma pure_logging_lift {A} (r : Res A) : pure_logging (lift r).
Proof. exists r, []. apply emits_lift. Qed.

Lemma pure_logging_raise {A} (e : PyExn) : pure_logging (@raise A e).
Proof. exists (Raise e), []. apply emits_raise. Qed.

Lemma pure_logging_log (t : LogType) (m : string) : pure_logging (Log_log t m).
Proof. exists (Ok tt), [(t, m)]. apply emits_log. Qed.

Lemma pure_logging_bind {A B} (m : M A) (k : A -> M B) :
  pure_logging m -> (forall a, pure_logging (k a)) -> pure_logging (bind m k).
Proof.
  intros (r & l1 & H1) Hk. destruct r as [a|e].
  - destruct (Hk a) as (r2 & l2 & H2).
    exists r2, (l1 ++ l2)%list. eapply emits_bind_ok; eauto.
  - exists (Raise e), l1. now apply emits_bind_raise.
Qed.

Lemma pure_logging_result {A} (m : M A) (s1 s2 : State) :
  pure_logging m -> fst (m s1) = fst (m s2).
Proof. intros (r & l & H). now rewrite !H. Qed.

Ltac pure_logging_step :=
  first
    [ apply pure_logging_ret
    | apply pure_logging_lift
    | apply pure_logging_raise
    | apply pure_logging_log
    | apply pure_logging_bind; [| intros ? ] ].

Lemma same_result_refl {A} (w : LogType * string) (m : M A) :
  pure_logging m -> (forall r l, emits m r l -> is_ok r = true -> In w l) ->
  same_result_logging w m m.
Proof.
  intros (r & l & H) Hw. exists r, l, l. repeat split; auto.
  intros Hr. eapply Hw; eauto.
Qed.

(** A common prefix. *)
Lemma same_result_bind_pre {A B} (w : LogType * string) (m : M A)
    (k1 k2 : A -> M B) :
  pure_logging m ->
  (forall a, same_result_logging w (k1 a) (k2 a)) ->
  same_result_logging w (bind m k1) (bind m k2).
Proof.
  intros (r & l & H) Hk. destruct r as [a|e].
  - destruct (Hk a) as (r' & l1 & l2 & H1 & H2 & Hw).
    exists r', (l ++ l1)%list, (l ++ l2)%list. repeat split.
    + eapply emits_bind_ok; eauto.
    + eapply emits_bind_ok; eauto.
    + intros Hr. apply in_or_app. right. auto.
  - exists (Raise e), l, l. repeat split.
    + now apply emits_bind_raise.
    + now apply emits_bind_raise.
    + discriminate.
Qed.

(** A common continuation. *)
Lemma same_result_bind_post {A B} (w : LogType * string) (m1 m2 : M A)
    (k : A -> M B) :
  same_result_logging w m1 m2 ->
  (forall a, pure_logging (k a)) ->
  same_result_logging w (bind m1 k) (bind m2 k).
Proof.
  intros (r & l1 & l2 & H1 & H2 & Hw) Hk. destruct r as [a|e].
  - destruct (Hk a) as (r' & l & H).
    exists r', (l1 ++ l)%list, (l2 ++ l)%list. repeat split.
    + eapply emits_bind_ok; eauto.
    + eapply emits_bind_ok; eauto.
    + intros _. apply in_or_app. left. now apply Hw.
  - exists (Raise e), l1, l2. repeat split.
    + now apply emits_bind_raise.
    + now apply emits_bind_raise.
    + discriminate.
Qed.

Lemma bind_assoc {A B C} (m : M A) (f : A -> M B) (g : B -> M C) (s : State) :
  bind (bind m f) g s = bind m (fun a => bind (f a) g) s.
Proof. unfold bind. destruct (m s) as [[a|e] s']; reflexivity. Qed.

Lemma bind_lift_ok {A B} (a : A) (k : A -> M B) (s : State) :
  bind (lift (Ok a)) k s = k a s.
Proof. reflexivity. Qed.

Lemma bind_cong {A B} (m : M A) (k1 k2 : A -> M B) (s : State) :
  (forall a s', k1 a s' = k2 a s') -> bind m k1 s = bind m k2 s.
Proof.
  intros H. unfold bind. destruct (m s) as [[a|e] s']; auto.
Qed.

(** ** What the log backends put out *)

Lemma verbosity_level_bounds (verbose : Z) :
  (0 <= verbosity_level verbose <= LogType_value FATAL)%Z.
Proof.
  unfold verbosity_level.
  destruct (Z.eqb verbose 0); [cbn; lia|].
  destruct (Z.eqb verbose 1); [cbn; lia|].
  destruct (Z.eqb verbose 2); cbn; lia.
Qed.

(** A FATAL message passes the console backend at every verbosity, and
    not with [--quiet]; it always passes the file backend. *)
Lemma fatal_passes_console (args : Args) (e : LogEntry) :
  log_type e = FATAL ->
  backend_passes (console_log_level args) e = negb (quiet args).
Proof.
  intros Ht. unfold backend_passes, console_log_level. rewrite Ht.
  destruct (quiet args); [reflexivity|]. cbn [negb].
  pose proof (verbosity_level_bounds (verbose args)) as H.
  apply negb_true_iff. rewrite Z.gtb_ltb. apply Z.ltb_ge. tauto.
Qed.

Lemma fatal_passes_file (args : Args) (e : LogEntry) :
  log_type e = FATAL -> backend_passes (file_log_level args) e = true.
Proof.
  intros Ht. unfold backend_passes, file_log_level. rewrite Ht.
  destruct (quiet args); [reflexivity|].
  pose proof (verbosity_level_bounds (verbose args)) as H.
  apply negb_true_iff. rewrite Z.gtb_ltb. apply Z.ltb_ge. tauto.
Qed.

(** A FATAL message of the log is on the console unless [--quiet] was
    given. *)
Lemma logged_fatal_on_console (args : Args) (message : string) (s : State) :
  quiet args = false ->
  logged FATAL message s ->
  In message
    (map log_message (backend_output (console_log_level args) (log s))).
Proof.
  intros Hq [time Hin]. apply in_map_iff.
  exists {| log_type := FATAL; log_time := time; log_message := message |}.
  split; [reflexivity|]. apply filter_In. split; [exact Hin|].
  rewrite fatal_passes_console by reflexivity. now rewrite Hq.
Qed.

(** With the default verbosity nothing below FATAL is on the console. *)
Lemma default_console_output (args : Args) (l : list LogEntry) :
  quiet args = false -> verbose args = 0%Z ->
  Forall (fun e => log_type e = FATAL)
    (backend_output (console_log_level args) l).
Proof.
  intros Hq Hv. apply Forall_forall. intros e He.
  apply filter_In in He. destruct He as [_ He].
  unfold backend_passes, console_log_level, verbosity_level in He.
  rewrite Hq, Hv in He. cbn in He.
  destruct (log_type e); cbn in He; try discriminate. reflexivity.
Qed.

(** ** [backend_generate] *)

Section Rendering.
Context {RT : PyRuntime}.

Lemma emit_var_pure_logging (fn fs cooked excluded var : value) (ss : string) :
  pure_logging (emit_var fn fs cooked excluded var ss).
Proof.
  unfold emit_var.
  pure_logging_step; [pure_logging_step|].
  destruct a as [var_name emit_name].
  pure_logging_step; [pure_logging_step|].
  destruct a; [pure_logging_step|].
  pure_logging_step; [pure_logging_step|].
  destruct (negb (is_none a)).
  - destruct (type_of a); repeat pure_logging_step.
  - repeat pure_logging_step.
Qed.

Lemma emit_vars_pure_logging (fn fs cooked excluded : value)
    (vars : list value) (ss : string) :
  pure_logging (emit_vars fn fs cooked excluded vars ss).
Proof.
  revert ss. induction vars as [|var vars IH]; intros ss; simpl.
  - pure_logging_step.
  - pure_logging_step; [apply emit_var_pure_logging | apply IH].
Qed.

Lemma backend_generate_pure_logging (backend cooked_info : value)
    (license_text : option string) (excluded_vars : value) :
  pure_logging (backend_generate backend cooked_info license_text excluded_vars).
Proof.
  unfold backend_generate.
  do 7 (pure_logging_step; [pure_logging_step|]).
  pure_logging_step.
  { destruct license_text; repeat pure_logging_step. }
  pure_logging_step; [pure_logging_step|].
  pure_logging_step.
  { destruct (negb (is_none a7)); [|pure_logging_step].
    pure_logging_step.
    - destruct license_text; repeat pure_logging_step.
    - repeat pure_logging_step. }
  do 3 (pure_logging_step; [pure_logging_step|]).
  pure_logging_step; [apply emit_vars_pure_logging|].
  repeat pure_logging_step.
Qed.

(** C8: the text [backend_generate] returns (or the exception it raises)
    is fixed by its four arguments.  Two calls with the same backend
    descriptor, cooked values, license text and excluded keys give the same
    result whatever the state of the process: clock, log, working
    directory, files. *)
Theorem backend_generate_deterministic :
  forall (backend cooked_info : value) (license_text : option string)
         (excluded_vars : value) (s1 s2 : State),
    fst (backend_generate backend cooked_info license_text excluded_vars s1)
    = fst (backend_generate backend cooked_info license_text excluded_vars s2).
Proof.
  intros. apply pure_logging_result, backend_generate_pure_logging.
Qed.

Lemma emit_vars_app (fn fs cooked excluded : value) (l1 l2 : list value)
    (ss : string) (s : State) :
  emit_vars fn fs cooked excluded (l1 ++ l2) ss s
  = bind (emit_vars fn fs cooked excluded l1 ss)
         (fun ss' => emit_vars fn fs cooked excluded l2 ss') s.
Proof.
  revert ss s. induction l1 as [|v l1 IH]; intros ss s; simpl.
  - reflexivity.
  - rewrite bind_assoc. apply bind_cong. intros ss1 s1. apply IH.
Qed.

(** An excluded entry leaves text and state alone. *)
Lemma emit_var_excluded (fn fs cooked excluded var emit_name : value)
    (var_name : string) (ss : string) (s : State) :
  first_item var = Ok (var_name, emit_name) ->
  py_contains excluded (JStr var_name) = Ok true ->
  emit_var fn fs cooked excluded var ss s = (Ok ss, s).
Proof.
  intros Hf Hc. unfold emit_var, bind, lift. rewrite Hf. simpl.
  rewrite Hc. reflexivity.
Qed.

Lemma emit_vars_excluded (fn fs cooked excluded var emit_name : value)
    (var_name : string) (pre post : list value) (ss : string) (s : State) :
  first_item var = Ok (var_name, emit_name) ->
  py_contains excluded (JStr var_name) = Ok true ->
  emit_vars fn fs cooked excluded (pre ++ var :: post) ss s
  = emit_vars fn fs cooked excluded (pre ++ post) ss s.
Proof.
  intros Hf Hc. rewrite !emit_vars_app. apply bind_cong. intros ss1 s1.
  simpl. unfold bind. erewrite emit_var_excluded; eauto.
Qed.

(** C7: an entry of [var_map] whose key is in the excluded-key set
    contributes nothing: with or without the entry, [backend_generate]
    returns the same text and leaves the same state, whatever the cooked
    value set holds (or lacks) under that key. *)
Theorem backend_generate_excluded_key :
  forall (b : dict) (cooked_info : value) (license_text : option string)
         (excluded_vars : value) (pre post : list value)
         (var emit_name : value) (var_name : string) (s : State),
    dict_get b "var_map" = JList (pre ++ var :: post) ->
    first_item var = Ok (var_name, emit_name) ->
    py_contains excluded_vars (JStr var_name) = Ok true ->
    backend_generate (JObj b) cooked_info license_text excluded_vars s
    = backend_generate (JObj (dict_set b "var_map" (JList (pre ++ post))))
        cooked_info license_text excluded_vars s.
Proof.
  intros b cooked lic excl pre post var emit_name var_name s Hmap Hf Hc.
  unfold backend_generate. cbn [py_get].
  rewrite dict_get_set_same, Hmap.
  rewrite !dict_get_set_other by discriminate.
  do 11 (apply bind_cong; intros ? ?).
  rewrite !bind_lift_ok. cbn [py_iter]. rewrite !bind_lift_ok.
  unfold bind at 1 3.
  erewrite emit_vars_excluded by eauto. reflexivity.
Qed.

(** An entry whose cooked value is null writes nothing and warns. *)
Lemma emit_var_null (fn fs cooked excluded var emit_name : value)
    (var_name : string) (ss : string) :
  first_item var = Ok (var_name, emit_name) ->
  py_contains excluded (JStr var_name) = Ok false ->
  py_index cooked var_name = Ok JNull ->
  emits (emit_var fn fs cooked excluded var ss) (Ok ss)
        [(WARNING, "emiting value '" ++ var_name ++ "' is null")].
Proof.
  intros Hf Hc Hi s. unfold emit_var, bind, lift. rewrite Hf. simpl.
  rewrite Hc, Hi. reflexivity.
Qed.

Lemma emit_vars_null (fn fs cooked excluded var emit_name : value)
    (var_name : string) (pre post : list value) (ss : string) :
  first_item var = Ok (var_name, emit_name) ->
  py_contains excluded (JStr var_name) = Ok false ->
  py_index cooked var_name = Ok JNull ->
  same_result_logging (WARNING, "emiting value '" ++ var_name ++ "' is null")
    (emit_vars fn fs cooked excluded (pre ++ var :: post) ss)
    (emit_vars fn fs cooked excluded (pre ++ post) ss).
Proof.
  intros Hf Hc Hi. revert ss. induction pre as [|x pre IH]; intros ss.
  - destruct (emit_vars_pure_logging fn fs cooked excluded post ss)
      as (r & l & H).
    exists r, ((WARNING, "emiting value '" ++ var_name ++ "' is null") :: l), l.
    repeat split; auto.
    + cbn [app emit_vars].
      apply (emits_bind_ok _ _ ss r
               [(WARNING, "emiting value '" ++ var_name ++ "' is null")] l);
        [eapply emit_var_null; eauto | exact H].
    + intros _. now left.
  - cbn [app emit_vars].
    apply same_result_bind_pre; [apply emit_var_pure_logging | apply IH].
Qed.

End Rendering.

(** ** [cook_info] *)

Section Cooking.
Context {RT : PyRuntime}.

Lemma str_format_version_pre (a b c pre : value) :
  str_format "{}.{}.{}-{}" [a; b; c; pre]
  = Ok (py_str a ++ "." ++ py_str b ++ "." ++ py_str c ++ "-" ++ py_str pre).
Proof.
  transitivity
    (Ok ((((((((py_str a) ++ ".") ++ py_str b) ++ ".") ++ py_str c) ++ "-")
            ++ py_str pre) ++ "")).
  - cbv -[py_str]. reflexivity.
  - rewrite append_nil_r, !append_assoc. reflexivity.
Qed.

Lemma str_format_version (a b c : value) :
  str_format "{}.{}.{}" [a; b; c]
  = Ok (py_str a ++ "." ++ py_str b ++ "." ++ py_str c).
Proof.
  transitivity
    (Ok ((((((py_str a) ++ ".") ++ py_str b) ++ ".") ++ py_str c) ++ "")).
  - cbv -[py_str]. reflexivity.
  - rewrite append_nil_r, !append_assoc. reflexivity.
Qed.

Lemma if_Ok {A} (b : bool) (x y : A) :
  (if b then Ok x else Ok y) = Ok (if b then x else y).
Proof. now destruct b. Qed.

Lemma dict_index_mem (d : dict) (k : string) :
  dict_mem d k = true -> dict_index d k = Ok (dict_get d k).
Proof.
  unfold dict_mem, dict_index, dict_get.
  destruct (dict_find d k); [reflexivity | discriminate].
Qed.

(** C1: for a descriptor whose [version.major], [version.minor] and
    [version.patch] are the integers [a], [b] and [c], cooking succeeds
    and [version.string] is [a.b.c-pre] when [version.pre_release] is a
    non-null [pre] (a string stands for itself, any other value for its
    [str()]), and [a.b.c] when it is null, in which case the cooked
    [version.pre_release] is the empty string. *)
Theorem cook_info_version_string :
  forall (project_name : string) (d build_info vcs_info : dict) (a b c : Z)
         (s : State),
    dict_get d "version.major" = JInt a ->
    dict_get d "version.minor" = JInt b ->
    dict_get d "version.patch" = JInt c ->
    dict_mem build_info "date" = true ->
    dict_mem build_info "time" = true ->
    exists info s',
      cook_info project_name (JObj d) (JObj build_info) (JObj vcs_info) s
      = (Ok info, s')
      /\ match dict_get d "version.pre_release" with
         | JNull =>
             dict_get info "version.string"
             = JStr (str_of_Z a ++ "." ++ str_of_Z b ++ "." ++ str_of_Z c)
             /\ dict_get info "version.pre_release" = JStr ""
         | pre =>
             dict_get info "version.string"
             = JStr (str_of_Z a ++ "." ++ str_of_Z b ++ "." ++ str_of_Z c
                     ++ "-" ++ py_str pre)
             /\ dict_get info "version.pre_release" = pre
         end.
Proof.
  intros project_name d bi vi a b c s Hmaj Hmin Hpat Hdate Htime.
  unfold cook_info, bind, lift, ret, Log_info, Log_success, Log_debug, Log_log,
    get_state.
  cbn [py_get py_index dget res_bind].
  rewrite Hmaj, Hmin, Hpat.
  rewrite (dict_index_mem bi "date" Hdate), (dict_index_mem bi "time" Htime).
  destruct (dict_get d "version.pre_release") eqn:Hpre.
  all: cbn [is_none negb].
  all: rewrite ?str_format_version_pre, ?str_format_version.
  all: rewrite !if_Ok.
  all: do 2 eexists; split; [reflexivity|].
  all: cbn [py_str py_repr].
  all: split; reflexivity.
Qed.

End Cooking.

(** ** [use_global_desc_values] *)

Section GlobalFallback.
Context {RT : PyRuntime}.

Lemma dict_find_app_skip (l1 l2 : dict) (k : string) :
  ~ In k (dict_keys l1) -> dict_find (l1 ++ l2)%list k = dict_find l2 k.
Proof.
  induction l1 as [|[k' v'] l1 IH]; simpl; intros Hn; [reflexivity|].
  destruct (String.eqb_spec k k') as [->|Hk].
  - exfalso. apply Hn. now left.
  - apply IH. intros Hin. apply Hn. now right.
Qed.

Lemma dict_set_app_skip (l1 l2 : dict) (k : string) (v w : value) :
  ~ In k (dict_keys l1) ->
  dict_set (l1 ++ (k, v) :: l2)%list k w = (l1 ++ (k, w) :: l2)%list.
Proof.
  induction l1 as [|[k' v'] l1 IH]; simpl; intros Hn.
  - now rewrite String.eqb_refl.
  - destruct (String.eqb_spec k k') as [->|Hk].
    + exfalso. apply Hn. now left.
    + rewrite IH; [reflexivity|]. intros Hin. apply Hn. now right.
Qed.

Lemma fill_from_keys (g : dict) (l : dict) :
  dict_keys (fill_from g l) = dict_keys l.
Proof.
  unfold dict_keys, fill_from. rewrite map_map. apply map_ext.
  intros [k v]. simpl. now destruct (is_none v).
Qed.

Lemma fill_from_snoc (g : dict) (done todo : dict) (k : string) (v : value) :
  (fill_from g (done ++ [(k, v)]) ++ todo)%list
  = (fill_from g done
     ++ (if is_none v then (k, dict_get g k) else (k, v)) :: todo)%list.
Proof.
  unfold fill_from. rewrite map_app. simpl. now rewrite <- app_assoc.
Qed.

Lemma same_process_refl (s : State) : same_process s s.
Proof. unfold same_process. repeat split; reflexivity. Qed.

Lemma same_process_trans (s1 s2 s3 : State) :
  same_process s1 s2 -> same_process s2 s3 -> same_process s1 s3.
Proof.
  unfold same_process.
  intros (A1 & A2 & A3 & A4 & A5) (B1 & B2 & B3 & B4 & B5).
  repeat split; congruence.
Qed.

Lemma outside_projects_refl (s : State) : outside_projects s s.
Proof. unfold outside_projects. auto using same_process_refl. Qed.

Lemma outside_projects_trans (s1 s2 s3 : State) :
  outside_projects s1 s2 -> outside_projects s2 s3 -> outside_projects s1 s3.
Proof.
  intros (A1 & A2 & A3) (B1 & B2 & B3). unfold outside_projects.
  split; [congruence|]. split; [congruence|].
  eapply same_process_trans; eauto.
Qed.

Section Loop.
Variables (ps : dict) (pname gname : string) (d g : dict) (alias : bool).
Hypothesis Hview :
  forall cur,
    dict_find (dict_set ps pname (JObj cur)) gname
    = Some (JObj (if alias then cur else g)).
Hypothesis Halias : alias = true -> g = d.
Hypothesis Hwf : dict_wf d.

(** The loop over the keys still to visit; [done] is the visited part of
    the descriptor. *)
Lemma use_global_loop (todo done : dict) (s : State) :
  d = (done ++ todo)%list ->
  projects s
  = JObj (dict_set ps pname (JObj (fill_from g done ++ todo)%list)) ->
  exists s',
    for_each (dict_keys todo) (fun key =>
      desc <- get_project pname ;;
      value <- lift (py_get desc key) ;;
      if is_none value then
        glob_desc <- get_project gname ;;
        gvalue <- lift (py_get glob_desc key) ;;
        store_key pname key gvalue ;;;
        Log_info ("using global value for '" ++ key ++ "' new value: '"
                  ++ py_str gvalue ++ "'")
      else ret tt) s = (Ok tt, s')
    /\ projects s' = JObj (dict_set ps pname (JObj (fill_from g d)))
    /\ outside_projects s s'.
Proof.
  revert done s. induction todo as [|[k v] todo IH]; intros done s Hd Hp.
  - simpl. exists s. rewrite app_nil_r in Hd, Hp. subst d.
    split; [reflexivity|]. split; [exact Hp | apply outside_projects_refl].
  - assert (Hk : ~ In k (dict_keys (fill_from g done))).
    { rewrite fill_from_keys. unfold dict_wf in Hwf. rewrite Hd in Hwf.
      unfold dict_keys in *. rewrite map_app in Hwf. simpl in Hwf.
      apply NoDup_remove_2 in Hwf. intros Hin. apply Hwf.
      apply in_or_app. now left. }
    assert (Hcur : dict_get (fill_from g done ++ (k, v) :: todo)%list k = v).
    { unfold dict_get. rewrite dict_find_app_skip by exact Hk.
      simpl. now rewrite String.eqb_refl. }
    assert (Hg : dict_get (if alias
                           then (fill_from g done ++ (k, v) :: todo)%list
                           else g) k = dict_get g k).
    { destruct alias eqn:Ha; [|reflexivity].
      rewrite Hcur, (Halias eq_refl), Hd.
      unfold dict_get. rewrite dict_find_app_skip.
      - simpl. now rewrite String.eqb_refl.
      - now rewrite fill_from_keys in Hk. }
    assert (Hnext : d = ((done ++ [(k, v)]) ++ todo)%list).
    { rewrite Hd. now rewrite <- app_assoc. }
    cbn [dict_keys map fst for_each].
    unfold bind at 1. unfold bind at 1. unfold get_project at 1.
    unfold bind at 1. unfold get_state at 1. unfold lift at 1.
    rewrite Hp. cbn [py_get]. rewrite dict_get_set_same.
    unfold bind at 1. unfold lift at 1. cbn [py_get]. rewrite Hcur.
    destruct (is_none v) eqn:Hv.
    + unfold bind at 1. unfold get_project at 1.
      unfold bind at 1. unfold get_state at 1. unfold lift at 1.
      rewrite Hp. cbn [py_get]. unfold dict_get at 1. rewrite Hview.
      unfold bind at 1. unfold lift at 1. cbn [py_get].
      unfold bind at 1. unfold store_key, modify. rewrite Hp.
      rewrite dict_find_set_same. rewrite dict_set_set.
      rewrite dict_set_app_skip by exact Hk.
      unfold Log_info, Log_log.
      match goal with
      | |- exists s', for_each _ _ ?s1 = _ /\ _ /\ _ =>
          destruct (IH (done ++ [(k, v)])%list s1 Hnext) as (s' & Hrun & Hp' & Hs')
      end.
      { cbn [projects add_log set_projects].
        match goal with
        | |- context [dict_get ?x k] =>
            replace (dict_get x k) with (dict_get g k) by (symmetry; exact Hg)
        end.
        rewrite fill_from_snoc, Hv. reflexivity. }
      exists s'. split; [exact Hrun|]. split; [exact Hp'|].
      eapply outside_projects_trans; [|exact Hs'].
      unfold outside_projects, same_process. simpl. repeat split; reflexivity.
    + unfold ret at 1.
      destruct (IH (done ++ [(k, v)])%list s Hnext) as (s' & Hrun & Hp' & Hs').
      { rewrite Hp, fill_from_snoc, Hv. reflexivity. }
      exists s'. split; [exact Hrun|]. split; [exact Hp'|exact Hs'].
Qed.

End Loop.

(** The run of [use_global_desc_values] with the global descriptor in the
    store. *)
Lemma use_global_desc_values_run :
  forall (ps : dict) (pname gname : string) (d g : dict) (s : State),
    projects s = JObj ps ->
    dict_find ps pname = Some (JObj d) ->
    dict_find ps gname = Some (JObj g) ->
    dict_wf d ->
    exists s',
      use_global_desc_values pname (Some gname) s = (Ok tt, s')
      /\ projects s' = JObj (dict_set ps pname (JObj (fill_from g d)))
      /\ outside_projects s s'.
Proof.
  intros ps pname gname d g s Hp Hd Hg Hwf.
  unfold use_global_desc_values.
  unfold bind at 1. unfold get_project at 1.
  unfold bind at 1. unfold get_state at 1. unfold lift at 1.
  rewrite Hp. cbn [py_get]. unfold dict_get at 1. rewrite Hg.
  cbn [is_none].
  unfold bind at 1. unfold Log_info at 1, Log_log at 1.
  unfold bind at 1. unfold get_project at 1.
  unfold bind at 1. unfold get_state at 1. unfold lift at 1.
  cbn [projects add_log]. rewrite Hp. cbn [py_get].
  unfold dict_get at 1. rewrite Hd.
  unfold bind at 1. unfold lift at 1. cbn [py_items].
  unfold bind at 1.
  match goal with
  | |- exists s', match for_each _ _ ?s1 with _ => _ end = _ /\ _ /\ _ =>
      destruct (use_global_loop ps pname gname d g (String.eqb gname pname))
        with (todo := d) (done := @nil (string * value)) (s := s1)
        as (s2 & Hrun & Hp2 & Hs2)
  end.
  - intros cur. destruct (String.eqb_spec gname pname) as [->|Hne].
    + apply dict_find_set_same.
    + rewrite dict_find_set_other by exact Hne. exact Hg.
  - intros Heq. apply String.eqb_eq in Heq. subst gname. congruence.
  - exact Hwf.
  - reflexivity.
  - cbn [projects add_log fill_from map app]. rewrite Hp.
    now rewrite (dict_set_found ps pname (JObj d) Hd).
  - rewrite Hrun. unfold Log_info, Log_log.
    eexists. split; [reflexivity|]. split.
    + cbn [projects add_log]. exact Hp2.
    + eapply outside_projects_trans;
        [|eapply outside_projects_trans; [exact Hs2|]].
      * unfold outside_projects, same_process. simpl.
        repeat split; reflexivity.
      * unfold outside_projects, same_process. simpl.
        repeat split; reflexivity.
Qed.

(** C2: with the global descriptor [g] in the store, [use_global_desc_values]
    returns normally and leaves, under the project's name, the descriptor
    in which exactly the entries whose value was null hold the value [g]
    has under the same key; every other entry, the order of the keys and
    every other project are as before, and nothing outside the store and
    the log changes.  The global descriptor may be the project itself. *)
Theorem use_global_desc_values_fills_nulls :
  forall (ps : dict) (pname gname : string) (d g : dict) (s : State),
    projects s = JObj ps ->
    dict_find ps pname = Some (JObj d) ->
    dict_find ps gname = Some (JObj g) ->
    dict_wf d ->
    exists s',
      use_global_desc_values pname (Some gname) s = (Ok tt, s')
      /\ projects s' = JObj (dict_set ps pname (JObj (fill_from g d)))
      /\ same_process s s'.
Proof.
  intros ps pname gname d g s Hp Hd Hg Hwf.
  destruct (use_global_desc_values_run ps pname gname d g s Hp Hd Hg Hwf)
    as (s' & Hrun & Hp' & _ & _ & Hs').
  exists s'. auto.
Qed.

End GlobalFallback.

(** ** [validate_project] *)

Section Validation.
Context {RT : PyRuntime}.

Lemma res_bind_ok {A B} (r : Res A) (k : A -> Res B) (b : B) :
  res_bind r k = Ok b -> exists a, r = Ok a /\ k a = Ok b.
Proof. destruct r as [a|e]; simpl; [eauto | discriminate]. Qed.

Lemma res_for_each_i_ok {A} (l : list A) (body : nat -> A -> Res unit)
    (k : nat) :
  res_for_each_i k l body = Ok tt ->
  forall i x, nth_error l i = Some x -> body (k + i)%nat x = Ok tt.
Proof.
  revert k. induction l as [|y l IH]; intros k H i x Hn.
  - destruct i; discriminate.
  - simpl in H. apply res_bind_ok in H. destruct H as ([] & Hy & Hrest).
    destruct i as [|i]; simpl in Hn.
    + injection Hn as <-. now rewrite Nat.add_0_r.
    + rewrite Nat.add_succ_r. apply (IH (S k) Hrest i x Hn).
Qed.

(** An entry that passes the first loop is the empty object or a single
    key with a string under it. *)
Lemma check_backend_shape_ok (l : list value) (i : nat) (bk : value) :
  check_backend_shape l i bk = Ok tt ->
  bk = JObj [] \/ exists name output, bk = JObj [(name, JStr output)].
Proof.
  unfold check_backend_shape. destruct bk as [| | | | |?|items]; try discriminate.
  destruct items as [|[name output] [|? ?]]; simpl; try discriminate.
  - now left.
  - unfold check, dict_get. simpl. rewrite String.eqb_refl.
    destruct output; simpl; try discriminate. right. eauto.
Qed.

(** An entry that passes the second loop has a first key. *)
Lemma check_backend_duplicates_nonempty (l : list value) (i : nat) :
  check_backend_duplicates l i (JObj []) <> Ok tt.
Proof. unfold check_backend_duplicates. simpl. discriminate. Qed.

(** The second loop, passed at position [i], separates the entry there
    from the entry at every other position. *)
Lemma check_backend_duplicates_ok (l : list value) (i j : nat)
    (ki oi kj oj : string) :
  check_backend_duplicates l i (JObj [(ki, JStr oi)]) = Ok tt ->
  nth_error l i = Some (JObj [(ki, JStr oi)]) ->
  nth_error l j = Some (JObj [(kj, JStr oj)]) ->
  j <> i ->
  kj <> ki /\ oj <> oi.
Proof.
  unfold check_backend_duplicates. cbn [first_key py_get res_bind].
  unfold dict_get at 1. simpl dict_find. rewrite String.eqb_refl.
  intros Hloop Hi Hj Hne.
  assert (Hidx : list_index l i = i).
  { destruct (Nat.eq_dec (list_index l i) i) as [|Hm]; [assumption|].
    exfalso.
    pose proof (res_for_each_i_ok _ _ _ Hloop i _ Hi) as Hself.
    cbn beta in Hself. rewrite Nat.add_0_l in Hself.
    apply Nat.eqb_neq in Hm. rewrite Nat.eqb_sym in Hm. rewrite Hm in Hself.
    cbn [py_get res_bind] in Hself. unfold dict_get in Hself.
    simpl in Hself. rewrite String.eqb_refl in Hself. discriminate. }
  pose proof (res_for_each_i_ok _ _ _ Hloop j _ Hj) as Hother.
  cbn beta in Hother. rewrite Nat.add_0_l, Hidx in Hother.
  apply Nat.eqb_neq in Hne. rewrite Hne in Hother.
  cbn [py_get res_bind first_key] in Hother. unfold dict_get in Hother.
  simpl in Hother.
  destruct (String.eqb_spec ki kj) as [->|Hk]; [discriminate|].
  simpl in Hother. rewrite String.eqb_refl in Hother. simpl in Hother.
  destruct (String.eqb_spec oj oi) as [->|Ho]; [discriminate|].
  split; congruence.
Qed.

Lemma validate_checks_backends_ok (d : dict) (l : list value) :
  validate_checks (JObj d) = Ok tt ->
  dict_get d "backends" = JList l ->
  res_for_each_i 0 l (check_backend_shape l) = Ok tt
  /\ res_for_each_i 0 l (check_backend_duplicates l) = Ok tt.
Proof.
  unfold validate_checks. intros H Hb.
  do 4 (apply res_bind_ok in H; destruct H as (? & _ & H)).
  apply res_bind_ok in H. destruct H as (? & H & _).
  rewrite Hb in H. cbn [is_none py_iter] in H.
  apply res_bind_ok in H. destruct H as (? & _ & H).
  cbn [res_bind] in H.
  apply res_bind_ok in H. destruct H as ([] & H1 & H2).
  destruct x3. now split.
Qed.

(** A [backends] list that passes the checks holds single-key objects
    with string outputs, pairwise distinct in name and in output. *)
Lemma validate_checks_backends_valid (d : dict) (l : list value) :
  validate_checks (JObj d) = Ok tt ->
  dict_get d "backends" = JList l ->
  (forall i bk, nth_error l i = Some bk ->
     exists name output, bk = JObj [(name, JStr output)])
  /\ (forall i j ki oi kj oj,
        i <> j ->
        nth_error l i = Some (JObj [(ki, JStr oi)]) ->
        nth_error l j = Some (JObj [(kj, JStr oj)]) ->
        ki <> kj /\ oi <> oj).
Proof.
  intros H Hb. destruct (validate_checks_backends_ok d l H Hb) as [H1 H2].
  split.
  - intros i bk Hi.
    pose proof (res_for_each_i_ok _ _ _ H1 i bk Hi) as Hs.
    pose proof (res_for_each_i_ok _ _ _ H2 i bk Hi) as Hd.
    apply check_backend_shape_ok in Hs. destruct Hs as [->|Hs]; [|exact Hs].
    exfalso. eapply check_backend_duplicates_nonempty; eauto.
  - intros i j ki oi kj oj Hne Hi Hj.
    pose proof (res_for_each_i_ok _ _ _ H2 j _ Hj) as Hd.
    rewrite Nat.add_0_l in Hd.
    now apply (check_backend_duplicates_ok l j i kj oj ki oi Hd Hj Hi).
Qed.

Lemma invalid_backends_rejected (d : dict) (l : list value) :
  dict_get d "backends" = JList l ->
  invalid_backends l ->
  exists e, validate_checks (JObj d) = Raise e.
Proof.
  intros Hb Hbad.
  destruct (validate_checks (JObj d)) as [[]|e] eqn:Hv; [exfalso | eauto].
  destruct (validate_checks_backends_valid d l Hv Hb) as [Hshape Huniq].
  destruct Hbad as [Hbad|[Hbad|[Hbad|Hbad]]].
  - destruct Hbad as (i & j & bi & bj & name & Hne & Hi & Hj & Hni & Hnj).
    destruct (Hshape i bi Hi) as (ki & oi & ->).
    destruct (Hshape j bj Hj) as (kj & oj & ->).
    destruct (Huniq i j ki oi kj oj Hne Hi Hj) as [Hk _].
    destruct Hni as (di & [= <-] & Hmi). destruct Hnj as (dj & [= <-] & Hmj).
    unfold dict_mem in Hmi, Hmj. simpl in Hmi, Hmj.
    destruct (String.eqb_spec name ki); [|discriminate].
    destruct (String.eqb_spec name kj); [|discriminate]. congruence.
  - destruct Hbad as (i & j & bi & bj & out & Hne & Hi & Hj & Hoi & Hoj).
    destruct (Hshape i bi Hi) as (ki & oi & ->).
    destruct (Hshape j bj Hj) as (kj & oj & ->).
    destruct (Huniq i j ki oi kj oj Hne Hi Hj) as [_ Ho].
    destruct Hoi as (di & ni & [= <-] & [Hin|[]]).
    destruct Hoj as (dj & nj & [= <-] & [Hjn|[]]). congruence.
  - destruct Hbad as (bk & Hin & Hns). apply In_nth_error in Hin.
    destruct Hin as (i & Hi). destruct (Hshape i bk Hi) as (k & o & ->).
    apply Hns. unfold single_key_object. eauto.
  - destruct Hbad as (bk & Hin & Hnull). apply In_nth_error in Hin.
    destruct Hin as (i & Hi). destruct (Hshape i bk Hi) as (k & o & ->).
    destruct Hnull as (dd & n & [= <-] & [Hi'|[]]). discriminate.
Qed.

(** C3: a project whose [backends] list has two entries with the same
    backend name, or two entries with the same output path, or an entry
    that is not a single-key object, or an entry whose output is null,
    does not validate: [validate_project] raises
    [VerHelError(PROJECT_VALIDATION_FAILED)]. *)
Theorem validate_project_rejects_invalid_backends :
  forall (ps : dict) (project_name : string) (d : dict) (l : list value)
         (s : State),
    projects s = JObj ps ->
    dict_get ps project_name = JObj d ->
    dict_get d "backends" = JList l ->
    invalid_backends l ->
    exists s',
      validate_project project_name s
      = (Raise (VerHelError ExitCodes.PROJECT_VALIDATION_FAILED), s').
Proof.
  intros ps pname d l s Hp Hd Hb Hbad.
  destruct (invalid_backends_rejected d l Hb Hbad) as (e & He).
  unfold validate_project, bind, Log_info, Log_error, Log_fatal, Log_log,
    get_state, lift, raise.
  cbn [projects add_log]. rewrite Hp. cbn [py_get]. rewrite Hd, He.
  eexists. reflexivity.
Qed.

(** *** Keys outside the canonical set *)

Lemma check_set_other (d : dict) (k key : string) (v : value) (t : PyType) :
  key <> k -> check (dict_set d k v) key t = check d key t.
Proof. intros H. unfold check. now rewrite dict_get_set_other. Qed.

Ltac other_key Hmem Hcompany :=
  let E := fresh in
  intros E; first
    [ exact (Hcompany (eq_sym E))
    | rewrite <- E in Hmem; vm_compute in Hmem; discriminate Hmem ].

Lemma validate_checks_set_other (d : dict) (k : string) (v : value) :
  dict_mem empty_project k = false ->
  k <> "project.company" ->
  validate_checks (JObj (dict_set d k v)) = validate_checks (JObj d).
Proof.
  intros Hmem Hcompany. unfold validate_checks.
  rewrite !check_set_other by other_key Hmem Hcompany.
  rewrite !dict_get_set_other by other_key Hmem Hcompany.
  reflexivity.
Qed.

Lemma warn_dangling_emits (d : dict) :
  exists msgs,
    emits (warn_dangling d) (Ok tt) msgs
    /\ forall k, In k (dict_keys d) -> dict_mem empty_project k = false ->
         In (WARNING, "dangling property '" ++ k ++ "'") msgs.
Proof.
  unfold warn_dangling. induction d as [|[k v] d (msgs & He & Hin)].
  - exists []. split; [apply emits_ret | intros k []].
  - cbn [for_each]. destruct (dict_mem empty_project k) eqn:Hk.
    + exists msgs. split.
      * cbn [negb]. apply (emits_bind_ok _ _ tt (Ok tt) [] msgs);
          [apply emits_ret | exact He].
      * intros k' [<-|Hk'] Hm; simpl in *; [congruence | now apply Hin].
    + exists ((WARNING, "dangling property '" ++ k ++ "'") :: msgs). split.
      * cbn [negb].
        apply (emits_bind_ok _ _ tt (Ok tt)
                 [(WARNING, "dangling property '" ++ k ++ "'")] msgs);
          [apply emits_log | exact He].
      * intros k' [<-|Hk'] Hm; simpl in *; [now left | right; now apply Hin].
Qed.

(** What [validate_project] does when the checks fail. *)
Lemma validate_project_fails (ps : dict) (pname : string) (desc : value)
    (e : PyExn) (s : State) :
  projects s = JObj ps ->
  dict_get ps pname = desc ->
  validate_checks desc = Raise e ->
  validate_project pname s
  = (Raise (VerHelError ExitCodes.PROJECT_VALIDATION_FAILED),
     log_many [(INFO, "validating project '" ++ pname ++ "'");
               (ERROR, exn_str e);
               (FATAL, "failed to validate project '" ++ pname ++ "'")] s).
Proof.
  intros Hp Hd He.
  unfold validate_project, bind, Log_info, Log_error, Log_fatal, Log_log,
    get_state, lift, raise.
  cbn [projects add_log]. rewrite Hp. cbn [py_get]. rewrite Hd, He.
  reflexivity.
Qed.

(** What it does when they pass. *)
Lemma validate_project_passes (ps : dict) (pname : string) (d : dict)
    (s : State) :
  projects s = JObj ps ->
  dict_get ps pname = JObj d ->
  validate_checks (JObj d) = Ok tt ->
  exists msgs,
    validate_project pname s = (Ok tt, log_many msgs s)
    /\ forall k, In k (dict_keys d) -> dict_mem empty_project k = false ->
         In (WARNING, "dangling property '" ++ k ++ "'") msgs.
Proof.
  intros Hp Hd Hv. destruct (warn_dangling_emits d) as (msgs & He & Hin).
  exists ((INFO, "validating project '" ++ pname ++ "'")
          :: app msgs [(SUCCESS, "project '" ++ pname ++ "' validated")]).
  split.
  - unfold validate_project.
    unfold bind at 1. unfold Log_info at 1, Log_log at 1.
    unfold bind at 1. unfold get_state at 1.
    unfold bind at 1. unfold lift at 1.
    cbn [projects add_log]. rewrite Hp. cbn [py_get]. rewrite Hd, Hv.
    unfold bind at 1. unfold lift at 1. cbn [py_items].
    unfold bind at 1. rewrite He.
    unfold Log_success, Log_log. cbn [log_many].
    rewrite log_many_app. reflexivity.
  - intros k Hk Hm. right. apply in_or_app. left. now apply Hin.
Qed.

Lemma dict_keys_set_in (d : dict) (k : string) (v : value) :
  In k (dict_keys (dict_set d k v)).
Proof.
  induction d as [|[k' v'] d IH]; simpl; [now left|].
  destruct (String.eqb_spec k k') as [->|Hk]; simpl; auto.
Qed.

Lemma dict_find_get (d : dict) (k : string) (v : value) :
  dict_find d k = Some v -> dict_get d k = v.
Proof. unfold dict_get. now intros ->. Qed.

Lemma company_type_checked (d : dict) (w : value) :
  type_of w <> TStr -> type_of w <> TNone ->
  exists e, validate_checks (JObj (dict_set d "project.company" w)) = Raise e.
Proof.
  intros Hs Hn.
  destruct (validate_checks (JObj (dict_set d "project.company" w)))
    as [[]|e] eqn:H; [exfalso | eauto].
  unfold validate_checks in H.
  do 10 (apply res_bind_ok in H; destruct H as (? & _ & H)).
  apply res_bind_ok in H. destruct H as (? & H & _).
  unfold check in H. rewrite dict_get_set_same in H.
  destruct w; simpl in *; try discriminate; congruence.
Qed.

(** C5, as the code has it: a key outside the canonical empty-project
    key set, other than [project.company], never changes the outcome of
    validation, whatever its value, and when validation succeeds the key
    has been reported by the warning [dangling property '<key>'].
    [project.company] is outside that key set too but is type-checked: a
    value that is neither a string nor null fails validation. *)
Theorem validate_project_dangling_key :
  forall (ps : dict) (project_name : string) (d : dict) (k : string)
         (v : value) (s : State),
    projects s = JObj ps ->
    dict_find ps project_name = Some (JObj d) ->
    dict_mem empty_project k = false ->
    k <> "project.company" ->
    let with_key (key : string) (x : value) :=
      set_projects
        (JObj (dict_set ps project_name (JObj (dict_set d key x)))) s in
    fst (validate_project project_name (with_key k v))
    = fst (validate_project project_name s)
    /\ (fst (validate_project project_name (with_key k v)) = Ok tt ->
        logged WARNING ("dangling property '" ++ k ++ "'")
          (snd (validate_project project_name (with_key k v))))
    /\ (forall w, type_of w <> TStr -> type_of w <> TNone ->
        fst (validate_project project_name (with_key "project.company" w))
        = Raise (VerHelError ExitCodes.PROJECT_VALIDATION_FAILED)).
Proof.
  intros ps pname d k v s Hp Hd Hmem Hcompany with_key.
  assert (Hp2 : forall key x,
            projects (with_key key x)
            = JObj (dict_set ps pname (JObj (dict_set d key x)))) by reflexivity.
  assert (Hd2 : forall key x,
            dict_get (dict_set ps pname (JObj (dict_set d key x))) pname
            = JObj (dict_set d key x)).
  { intros. apply dict_get_set_same. }
  pose proof (validate_checks_set_other d k v Hmem Hcompany) as Hsame.
  apply dict_find_get in Hd.
  split; [|split].
  - destruct (validate_checks (JObj d)) as [[]|e] eqn:Hv.
    + destruct (validate_project_passes ps pname d s Hp Hd Hv) as (m1 & -> & _).
      destruct (validate_project_passes _ pname _ _ (Hp2 k v) (Hd2 k v) Hsame)
        as (m2 & -> & _).
      reflexivity.
    + rewrite (validate_project_fails ps pname _ e s Hp Hd Hv).
      rewrite (validate_project_fails _ pname _ e _ (Hp2 k v) (Hd2 k v) Hsame).
      reflexivity.
  - destruct (validate_checks (JObj (dict_set d k v))) as [[]|e] eqn:Hv.
    + destruct (validate_project_passes _ pname _ _ (Hp2 k v) (Hd2 k v) Hv)
        as (m2 & -> & Hin).
      intros _. cbn [snd]. apply log_many_logged. apply Hin; [|exact Hmem].
      apply dict_keys_set_in.
    + rewrite (validate_project_fails _ pname _ e _ (Hp2 k v) (Hd2 k v) Hv).
      discriminate.
  - intros w Hs Hn. destruct (company_type_checked d w Hs Hn) as (e & He).
    now rewrite (validate_project_fails _ pname _ e _
                   (Hp2 "project.company" w) (Hd2 "project.company" w) He).
Qed.

End Validation.

(** ** [get_vcs_info] *)

Section Vcs.
Context {RT : PyRuntime}.

Lemma run_cmd_exit (line : string) (args : list string) (rc : Z)
    (out : string) (s : State) :
  shlex_split line = Ok args ->
  exec (env s) (runs s) (cwd s) args = ProcExit rc out ->
  exists s', run_cmd (JStr line) s = (Ok (rc, out), s') /\ same_place s s'.
Proof.
  intros Hsplit Hexec.
  unfold run_cmd, bind, lift, Log_debug, Log_log, get_state, modify, ret.
  rewrite Hsplit. cbn [env runs cwd add_log count_run]. rewrite Hexec.
  eexists. split; [reflexivity|]. split; reflexivity.
Qed.

Lemma run_cmd_any (cmd : value) (s : State) :
  exists r s', run_cmd cmd s = (r, s') /\ same_place s s'.
Proof.
  unfold run_cmd, bind, lift, Log_debug, Log_error, Log_log, get_state,
    modify, ret, raise.
  destruct cmd; try (do 2 eexists; split; [reflexivity | split; reflexivity]).
  destruct (shlex_split s0) as [args|e];
    [|do 2 eexists; split; [reflexivity | split; reflexivity]].
  cbn [env runs cwd add_log count_run].
  destruct (exec (env s) (runs s) (cwd s) args);
    do 2 eexists; (split; [reflexivity | split; reflexivity]).
Qed.

Lemma same_place_refl (s : State) : same_place s s.
Proof. split; reflexivity. Qed.

Lemma same_place_trans (s1 s2 s3 : State) :
  same_place s1 s2 -> same_place s2 s3 -> same_place s1 s3.
Proof. unfold same_place. intros [A B] [C D]. split; congruence. Qed.

Lemma same_place_log (t : LogType) (m : string) (s : State) :
  same_place s (snd (Log_log t m s)).
Proof. split; reflexivity. Qed.

(** A declared query whose result is text always comes back, with a
    value or with null. *)
Lemma run_wrapper_declared (f : dict) (frontend_name : value)
    (cmd_name : string) (s : State) :
  query_declared f cmd_name ->
  exists v s',
    run_wrapper (JObj f) frontend_name cmd_name OutStr s = (Ok v, s')
    /\ same_place s s'.
Proof.
  intros (cmd & codes & o & Ho & Hc & Hr).
  unfold run_wrapper.
  unfold bind at 1. unfold lift at 1. cbn [py_get]. rewrite Ho.
  unfold bind at 1. unfold lift at 1. cbn [py_get]. rewrite Hc.
  unfold bind at 1. unfold lift at 1. rewrite Hr.
  destruct (is_none cmd) eqn:Hn.
  - unfold bind, Log_error, Log_log, ret.
    do 2 eexists. split; [reflexivity | split; reflexivity].
  - unfold bind at 1. unfold try_except.
    unfold bind at 1. unfold Log_info at 1, Log_log at 1.
    unfold bind at 1.
    match goal with
    | |- context [run_cmd cmd ?s1] =>
        destruct (run_cmd_any cmd s1) as (r & s2 & Hrun & Hs2); rewrite Hrun
    end.
    destruct r as [[code out]|e].
    + unfold ret at 1. unfold bind at 1. unfold lift at 1.
      cbn [py_contains].
      destruct (list_mem (JInt code) codes).
      * unfold bind, Log_success, Log_log, lift. cbn [out_type].
        do 2 eexists. split; [reflexivity|].
        destruct Hs2 as [E1 E2]. split; simpl; [exact E1 | exact E2].
      * unfold bind, Log_error, Log_log, ret.
        do 2 eexists. split; [reflexivity|].
        destruct Hs2 as [E1 E2]. split; simpl; [exact E1 | exact E2].
    + unfold bind, Log_error, Log_log, ret.
      do 2 eexists. split; [reflexivity|].
      destruct Hs2 as [E1 E2]. split; simpl; [exact E1 | exact E2].
Qed.

(** A query that exits with an accepted code gives its stripped output,
    converted to the type asked for. *)
Lemma run_wrapper_accepted (f : dict) (frontend_name : value)
    (cmd_name : string) (t : OutType) (rc : Z) (out : string) (s s0 : State) :
  query_exits s0 f cmd_name rc out ->
  same_place s0 s ->
  exists s',
    run_wrapper (JObj f) frontend_name cmd_name t s
    = (out_type t (str_strip out), s')
    /\ same_place s0 s'.
Proof.
  intros (line & args & codes & (o & Ho & Hc & Hr) & Hsplit & Hexec & Hacc)
         [He Hd].
  unfold run_wrapper.
  unfold bind at 1. unfold lift at 1. cbn [py_get]. rewrite Ho.
  unfold bind at 1. unfold lift at 1. cbn [py_get]. rewrite Hc.
  unfold bind at 1. unfold lift at 1. rewrite Hr.
  cbn [is_none].
  unfold bind at 1. unfold try_except.
  unfold bind at 1. unfold Log_info at 1, Log_log at 1.
  unfold bind at 1.
  match goal with
  | |- context [run_cmd (JStr line) ?s1] =>
      destruct (run_cmd_exit line args rc out s1 Hsplit) as (s2 & Hrun & Hs2)
  end.
  { cbn [env runs cwd add_log]. rewrite He, Hd. apply Hexec. }
  rewrite Hrun. unfold ret at 1. unfold bind at 1. unfold lift at 1.
  cbn [py_contains]. rewrite Hacc.
  unfold bind, Log_success, Log_log, lift.
  eexists. split; [reflexivity|].
  destruct Hs2 as [E1 E2]. simpl in E1, E2.
  split; simpl; congruence.
Qed.

Lemma run_cmd_inv (cmd : value) (s s' : State) (code : Z) (out : string) :
  run_cmd cmd s = (Ok (code, out), s') ->
  exists line args,
    cmd = JStr line /\ shlex_split line = Ok args
    /\ exec (env s) (runs s) (cwd s) args = ProcExit code out.
Proof.
  unfold run_cmd, bind, lift, Log_debug, Log_error, Log_log, get_state,
    modify, ret, raise.
  destruct cmd; try discriminate.
  destruct (shlex_split s0) as [args|e] eqn:Hsplit; [|discriminate].
  cbn [env runs cwd add_log count_run].
  destruct (exec (env s) (runs s) (cwd s) args) eqn:Hexec; try discriminate.
  intros [= -> -> _]. eauto.
Qed.

(** The commit count comes back too, as long as accepted output is
    numeric. *)
Lemma run_wrapper_count (f : dict) (frontend_name : value) (s s0 : State) :
  query_declared f "get.commit_count" ->
  count_is_numeric s0 f ->
  same_place s0 s ->
  exists v s',
    run_wrapper (JObj f) frontend_name "get.commit_count" OutInt s = (Ok v, s')
    /\ same_place s0 s'.
Proof.
  intros (cmd & codes & o & Ho & Hc & Hr) Hnum [He Hd].
  assert (Hentry : command_entry f "get.commit_count" cmd codes).
  { exists o. auto. }
  unfold run_wrapper.
  unfold bind at 1. unfold lift at 1. cbn [py_get]. rewrite Ho.
  unfold bind at 1. unfold lift at 1. cbn [py_get]. rewrite Hc.
  unfold bind at 1. unfold lift at 1. rewrite Hr.
  destruct (is_none cmd) eqn:Hn.
  - unfold bind, Log_error, Log_log, ret.
    do 2 eexists. split; [reflexivity | split; simpl; congruence].
  - unfold bind at 1. unfold try_except.
    unfold bind at 1. unfold Log_info at 1, Log_log at 1.
    unfold bind at 1.
    match goal with
    | |- context [run_cmd cmd ?s1] =>
        destruct (run_cmd_any cmd s1) as (r & s2 & Hrun & Hs2);
        pose proof (run_cmd_inv cmd s1 s2) as Hinv; rewrite Hrun in *
    end.
    destruct Hs2 as [E1 E2]. simpl in E1, E2.
    destruct r as [[code out]|e].
    + unfold ret at 1. unfold bind at 1. unfold lift at 1.
      cbn [py_contains].
      destruct (list_mem (JInt code) codes) eqn:Hacc.
      * destruct (Hinv code out eq_refl) as (line & args & -> & Hsplit & Hexec).
        cbn [env runs cwd add_log] in Hexec. rewrite He, Hd in Hexec.
        pose proof (Hnum line args codes _ code out Hentry Hsplit Hexec Hacc)
          as Hint.
        unfold bind, Log_success, Log_log, lift. cbn [out_type].
        destruct (int_of_str (str_strip out)) as [n|]; [|contradiction].
        do 2 eexists. split; [reflexivity | split; simpl; congruence].
      * unfold bind, Log_error, Log_log, ret.
        do 2 eexists. split; [reflexivity | split; simpl; congruence].
    + unfold bind, Log_error, Log_log, ret.
      do 2 eexists. split; [reflexivity | split; simpl; congruence].
Qed.

(** C4, as the code has it: for a frontend that declares the
    [get.short_hash] and the [get.commit_count] query, the second of
    which prints an integer whenever it exits with an accepted code
    ([int()] is applied to its output outside the guarded call), when
    [get.tag] exits with a return code of its accepted set, zero or not
    (git's 128 with no tag, say), the [tag] field is the stripped
    standard output of the command, the empty string when it printed
    nothing, and not null; [commit_hash] and [branch], whose commands are
    accepted too, are their stripped outputs. *)
Theorem get_vcs_info_accepted_tag :
  forall (f : dict) (frontend_name : value) (s : State)
         (rc_hash rc_tag rc_branch : Z) (out_hash out_tag out_branch : string),
    query_exits s f "get.commit_hash" rc_hash out_hash ->
    query_declared f "get.short_hash" ->
    query_exits s f "get.tag" rc_tag out_tag ->
    query_exits s f "get.branch" rc_branch out_branch ->
    query_declared f "get.commit_count" ->
    count_is_numeric s f ->
    exists info s',
      get_vcs_info (JObj f) frontend_name s = (Ok info, s')
      /\ dict_get info "tag" = JStr (str_strip out_tag)
      /\ dict_get info "commit_hash" = JStr (str_strip out_hash)
      /\ dict_get info "branch" = JStr (str_strip out_branch).
Proof.
  intros f fname s rch rct rcb oh ot ob Hh Hs Ht Hb Hc Hnum.
  unfold get_vcs_info.
  unfold bind at 1. unfold Log_info at 1, Log_log at 1.
  unfold bind at 1.
  match goal with
  | |- context [run_wrapper _ _ "get.commit_hash" _ ?s1] =>
      destruct (run_wrapper_accepted f fname "get.commit_hash" OutStr
                  rch oh s1 s Hh) as (s2 & R2 & P2);
        [split; reflexivity|]
  end.
  rewrite R2. cbn [out_type].
  destruct (run_wrapper_declared f fname "get.short_hash" s2 Hs)
    as (v3 & s3 & R3 & P3).
  unfold bind at 1. rewrite R3.
  pose proof (same_place_trans _ _ _ P2 P3) as Q3.
  destruct (run_wrapper_accepted f fname "get.tag" OutStr rct ot s3 s Ht Q3)
    as (s4 & R4 & P4).
  unfold bind at 1. rewrite R4. cbn [out_type].
  destruct (run_wrapper_accepted f fname "get.branch" OutStr rcb ob s4 s Hb P4)
    as (s5 & R5 & P5).
  unfold bind at 1. rewrite R5. cbn [out_type].
  destruct (run_wrapper_count f fname s5 s Hc Hnum P5) as (v6 & s6 & R6 & P6).
  unfold bind at 1. rewrite R6.
  unfold bind, Log_info, Log_log, ret.
  do 2 eexists. split; [reflexivity|].
  repeat split; reflexivity.
Qed.

End Vcs.

(** ** Running a computation step by step *)

Lemma bind_ret {A B} (a : A) (k : A -> M B) (s : State) :
  bind (ret a) k s = k a s.
Proof. reflexivity. Qed.

Lemma bind_log {B} (t : LogType) (m : string) (k : unit -> M B) (s : State) :
  bind (Log_log t m) k s = k tt (log_many [(t, m)] s).
Proof. reflexivity. Qed.

Lemma bind_get_state {B} (k : State -> M B) (s : State) :
  bind get_state k s = k s s.
Proof. reflexivity. Qed.

Lemma bind_modify {B} (f : State -> State) (k : unit -> M B) (s : State) :
  bind (modify f) k s = k tt (f s).
Proof. reflexivity. Qed.

Lemma bind_raise {A B} (e : PyExn) (k : A -> M B) (s : State) :
  bind (@raise A e) k s = (Raise e, s).
Proof. reflexivity. Qed.

Lemma bind_lift_raise {A B} (e : PyExn) (k : A -> M B) (s : State) :
  bind (lift (@Raise A e)) k s = (Raise e, s).
Proof. reflexivity. Qed.

Lemma bind_run {A B} (m : M A) (k : A -> M B) (s s1 : State) (a : A) :
  m s = (Ok a, s1) -> bind m k s = k a s1.
Proof. intros H. unfold bind. now rewrite H. Qed.

Lemma bind_run_raise {A B} (m : M A) (k : A -> M B) (s s1 : State) (e : PyExn) :
  m s = (Raise e, s1) -> bind m k s = (Raise e, s1).
Proof. intros H. unfold bind. now rewrite H. Qed.

Lemma log_run (t : LogType) (m : string) (s : State) :
  Log_log t m s = (Ok tt, log_many [(t, m)] s).
Proof. reflexivity. Qed.

Lemma only_logged_refl (s : State) : only_logged s s.
Proof. unfold only_logged, same_process. repeat split; reflexivity. Qed.

Lemma only_logged_trans (s1 s2 s3 : State) :
  only_logged s1 s2 -> only_logged s2 s3 -> only_logged s1 s3.
Proof.
  unfold only_logged, same_process.
  intros (A1 & A2 & A3 & A4 & A5 & A6 & A7 & A8)
         (B1 & B2 & B3 & B4 & B5 & B6 & B7 & B8).
  repeat split; congruence.
Qed.

Lemma only_logged_log_many (l : list (LogType * string)) (s : State) :
  only_logged s (log_many l s).
Proof.
  destruct (log_many_fields l s) as (A1 & A2 & A3 & _ & _ & A4).
  unfold only_logged. auto.
Qed.

Lemma only_logged_set_flags (a b : bool) (s : State) :
  only_logged s (set_flags a b s).
Proof. unfold only_logged, same_process. repeat split; reflexivity. Qed.

Lemma only_logged_same_process (s s' : State) :
  only_logged s s' -> same_process s s'.
Proof. now intros (_ & _ & _ & H). Qed.

(** Running a computation that only logs. *)
Lemma emits_run {A} (m : M A) (r : Res A) (l : list (LogType * string))
    (s : State) :
  emits m r l -> m s = (r, log_many l s) /\ only_logged s (log_many l s).
Proof. intros H. split; [apply H | apply only_logged_log_many]. Qed.

Lemma env_log_many (l : list (LogType * string)) (s : State) :
  env (log_many l s) = env s.
Proof. now destruct (log_many_fields l s) as (_ & _ & _ & _ & _ & H & _). Qed.

Lemma cwd_log_many (l : list (LogType * string)) (s : State) :
  cwd (log_many l s) = cwd s.
Proof. now destruct (log_many_fields l s) as (_ & _ & _ & _ & _ & _ & H & _). Qed.

Lemma projects_log_many (l : list (LogType * string)) (s : State) :
  projects (log_many l s) = projects s.
Proof. now destruct (log_many_fields l s) as (H & _). Qed.

Lemma frontends_log_many (l : list (LogType * string)) (s : State) :
  frontends (log_many l s) = frontends s.
Proof. now destruct (log_many_fields l s) as (_ & H & _). Qed.

Lemma backends_log_many (l : list (LogType * string)) (s : State) :
  backends (log_many l s) = backends s.
Proof. now destruct (log_many_fields l s) as (_ & _ & H & _). Qed.

Lemma same_process_log_many (l : list (LogType * string)) (s : State) :
  same_process s (log_many l s).
Proof. now destruct (log_many_fields l s) as (_ & _ & _ & _ & _ & H). Qed.

Lemma try_except_ok {A} (m : M A) (h : PyExn -> M A) (s s1 : State) (a : A) :
  m s = (Ok a, s1) -> try_except m h s = (Ok a, s1).
Proof. intros H. unfold try_except. now rewrite H. Qed.

Lemma except_VerHelError_ok {A} (m : M A) (h : Z -> M A) (s s1 : State) (a : A) :
  m s = (Ok a, s1) -> except_VerHelError m h s = (Ok a, s1).
Proof. intros H. unfold except_VerHelError. now apply try_except_ok. Qed.

Lemma except_VerHelError_caught {A} (m : M A) (h : Z -> M A) (s s1 : State)
    (code : Z) :
  m s = (Raise (VerHelError code), s1) ->
  except_VerHelError m h s = h code s1.
Proof. intros H. unfold except_VerHelError, try_except. now rewrite H. Qed.

Ltac run_step :=
  first
    [ rewrite bind_assoc
    | rewrite bind_log
    | rewrite bind_modify
    | rewrite bind_ret
    | rewrite bind_get_state
    | rewrite bind_lift_ok
    | rewrite log_run ];
  cbn beta.

Ltac solve_only_logged :=
  repeat first
    [ apply only_logged_refl
    | assumption
    | eapply only_logged_trans; [| apply only_logged_log_many]
    | eapply only_logged_trans; [| apply only_logged_set_flags] ].

(** ** The commands *)

Section Commands.
Context {RT : PyRuntime}.

Lemma process_arguments_only_logs (args : Args) (cmd : string) (s : State) :
  exists s', process_arguments args cmd s = (Ok tt, s') /\ only_logged s s'.
Proof.
  unfold process_arguments, Log_debug.
  repeat match goal with
         | |- context [if ?c then _ else _] => destruct c
         end.
  all: repeat run_step.
  all: unfold ret.
  all: eexists; split; [reflexivity | solve_only_logged].
Qed.

Lemma load_from_file_ok (file_name : string) (root : value) (s : State) :
  load_file (env s) (cwd s) file_name = LoadContent (Document root) ->
  exists s', load_from_file file_name s = (Ok root, s') /\ only_logged s s'.
Proof.
  intros Hload. unfold load_from_file, Log_info, Log_success.
  do 2 run_step. rewrite env_log_many, cwd_log_many, Hload.
  run_step. unfold load_from_buffer, Log_info, Log_success.
  do 2 run_step. unfold ret.
  eexists. split; [reflexivity | solve_only_logged].
Qed.

Lemma load_projects_ok (file_name : option string) (ps : dict) (s : State) :
  load_file (env s) (cwd s)
    (match file_name with
     | None => PROJECTS_DEFAULT_FILE_NAME
     | Some f => f
     end) = LoadContent (Document (JObj ps)) ->
  exists s',
    load_projects file_name s = (Ok tt, s')
    /\ projects s' = JObj ps
    /\ frontends s' = frontends s
    /\ backends s' = backends s
    /\ same_process s s'.
Proof.
  intros Hload. unfold load_projects, Log_info, Log_success, Log_debug.
  run_step.
  match goal with
  | |- context [bind (try_except (bind (load_from_file ?f) _) _) _ ?s1] =>
      destruct (load_from_file_ok f (JObj ps) s1) as (s2 & Hrun & Hs2)
  end.
  { now rewrite env_log_many, cwd_log_many. }
  erewrite bind_run;
    [| apply try_except_ok; erewrite bind_run by exact Hrun; reflexivity].
  cbn [py_len py_keys]. repeat run_step.
  eexists. split; [reflexivity|].
  assert (Hl : only_logged s s2) by solve_only_logged.
  destruct Hl as (_ & Hf & Hb & Hsp).
  rewrite !projects_log_many, !frontends_log_many, !backends_log_many.
  cbn [projects frontends backends set_projects].
  split; [reflexivity|]. split; [exact Hf|]. split; [exact Hb|].
  repeat (eapply same_process_trans; [| apply same_process_log_many]).
  eapply same_process_trans; [exact Hsp|].
  unfold same_process. repeat split; reflexivity.
Qed.

Lemma check_if_project_exists_ok (ps : dict) (pname : string) (d : dict)
    (s : State) :
  projects s = JObj ps ->
  dict_find ps pname = Some (JObj d) ->
  exists s',
    check_if_project_exists pname s = (Ok (JObj d), s') /\ only_logged s s'.
Proof.
  intros Hp Hd.
  unfold check_if_project_exists, get_project, Log_info.
  do 3 run_step. rewrite projects_log_many, Hp. cbn [py_get].
  rewrite (dict_find_get _ _ _ Hd). run_step. cbn [is_none].
  run_step. unfold ret.
  eexists. split; [reflexivity | solve_only_logged].
Qed.

Lemma get_project_ok (ps : dict) (pname : string) (s : State) :
  projects s = JObj ps ->
  get_project pname s = (Ok (dict_get ps pname), s).
Proof.
  intros Hp. unfold get_project. run_step. now rewrite Hp.
Qed.

(** *** [set] *)

(** The keys whose default value is an integer are the three version
    numbers; each is a valid name and none is a backend key. *)
Lemma integer_keys (k : string) (n : Z) :
  dict_find default_project k = Some (JInt n) ->
  check_if_name_is_valid k = ret k /\ starts_with "backends." k = false.
Proof.
  unfold default_project. cbn [dict_find].
  repeat match goal with
         | |- context [String.eqb k ?c] =>
             destruct (String.eqb_spec k c) as [->|?]
         end; try discriminate; intros _; split; reflexivity.
Qed.

(** C10: for an existing project and a key whose default-project value is
    an integer, [set] with a new value that [int()] refuses returns
    [INVALID_VALUE]; the store is the one that was loaded, with the
    project descriptor as it was, and nothing has been written:
    [save_projects] is not reached. *)
Theorem set_rejects_non_integer :
  forall (args : Args) (ps d : dict) (n : Z) (s : State),
    dict_find default_project (property_name args) = Some (JInt n) ->
    load_file (env s) (cwd s)
      (match projects_file args with
       | None => PROJECTS_DEFAULT_FILE_NAME
       | Some f => f
       end) = LoadContent (Document (JObj ps)) ->
    dict_find ps (project args) = Some (JObj d) ->
    int_of_str (new_value args) = None ->
    exists s',
      set args s = (Ok ExitCodes.INVALID_VALUE, s')
      /\ projects s' = JObj ps
      /\ written s' = written s
      /\ same_process s s'.
Proof.
  intros args ps d n s Hint Hload Hd Hparse.
  destruct (integer_keys _ _ Hint) as [Hvalid Hnot_backend].
  unfold set.
  destruct (process_arguments_only_logs args "set" s) as (s1 & R1 & L1).
  erewrite bind_run by exact R1. unfold Log_info at 1. run_step.
  set (s2 := log_many [(INFO, "running set command")] s1).
  assert (L2 : only_logged s s2) by (subst s2; solve_only_logged).
  destruct (load_projects_ok (projects_file args) ps s2)
    as (s3 & R3 & P3 & _ & _ & S3).
  { destruct L2 as (_ & _ & _ & E & C & _). now rewrite E, C. }
  destruct (check_if_project_exists_ok ps (project args) d s3 P3 Hd)
    as (s4 & R4 & L4).
  erewrite bind_run.
  2:{ apply except_VerHelError_ok. rewrite Hvalid.
      unfold bind at 1. unfold ret at 1. cbn iota beta.
      erewrite bind_run by exact R3. erewrite bind_run by exact R4.
      reflexivity. }
  cbn iota beta. rewrite Hnot_backend.
  cbn [py_get]. do 2 run_step.
  unfold dict_index. rewrite Hint, Hparse. unfold Log_fatal.
  run_step. change (type_of (JInt n)) with TInt. cbn iota.
  repeat run_step. unfold ret.
  eexists. split; [reflexivity|].
  match goal with
  | |- projects ?X = _ /\ _ =>
      assert (L : only_logged s3 X) by solve_only_logged;
      assert (SP : same_process s X)
  end.
  { destruct L as (_ & _ & _ & LS).
    eapply same_process_trans; [apply (only_logged_same_process _ _ L2)|].
    eapply same_process_trans; [exact S3 | exact LS]. }
  destruct L as (LP & _).
  split; [now rewrite LP|]. split; [|exact SP].
  now destruct SP as (_ & _ & W & _).
Qed.

(** *** [generate] *)

Lemma validate_version_ok (d : dict) (s : State) :
  dict_get d "version.major" <> JNull ->
  dict_get d "version.minor" <> JNull ->
  dict_get d "version.patch" <> JNull ->
  validate_version (JObj d) s = (Ok tt, s).
Proof.
  intros H1 H2 H3. unfold validate_version. cbn [py_get].
  destruct (dict_get d "version.major"); try contradiction;
  destruct (dict_get d "version.minor"); try contradiction;
  destruct (dict_get d "version.patch"); try contradiction;
  reflexivity.
Qed.

Lemma load_from_buffer_ok (root : value) (s : State) :
  exists s',
    load_from_buffer (Document root) s = (Ok root, s') /\ only_logged s s'.
Proof.
  unfold load_from_buffer, Log_info, Log_success. do 2 run_step. unfold ret.
  eexists. split; [reflexivity | solve_only_logged].
Qed.

Lemma load_frontends_ok (args : Args) (fs : dict) (s : State) :
  frontends_source args s = LoadContent (Document (JObj fs)) ->
  exists s',
    load_frontends (frontends_file args) s = (Ok tt, s')
    /\ frontends s' = JObj fs
    /\ projects s' = projects s
    /\ backends s' = backends s
    /\ same_process s s'.
Proof.
  unfold frontends_source, load_frontends, Log_info, Log_success, Log_debug.
  intros Hsrc. run_step.
  match goal with
  | |- context [bind _ _ ?s1] =>
      assert (Hload : exists s2,
                match frontends_file args with
                | None => load_frontends_from_buffer FRONTENDS_DESC
                | Some f => load_frontends_from_file f
                end s1 = (Ok true, s2)
                /\ frontends s2 = JObj fs
                /\ projects s2 = projects s
                /\ backends s2 = backends s
                /\ same_process s s2)
  end.
  { destruct (frontends_file args) as [f|].
    - unfold load_frontends_from_file.
      match goal with
      | |- context [try_except _ _ ?s1] =>
          destruct (load_from_file_ok f (JObj fs) s1) as (s2 & R & L)
      end.
      { now rewrite env_log_many, cwd_log_many. }
      eexists. split.
      + apply try_except_ok. erewrite bind_run by exact R.
        run_step. reflexivity.
      + assert (L' : only_logged s s2) by solve_only_logged.
        destruct L' as (A1 & A2 & A3 & A4).
        cbn [frontends projects backends set_frontends].
        split; [reflexivity|]. split; [exact A1|]. split; [exact A3|].
        eapply same_process_trans; [exact A4|].
        unfold same_process. repeat split; reflexivity.
    - assert (Hbuf : FRONTENDS_DESC = Document (JObj fs)).
      { apply (f_equal (fun r => match r with
                                 | LoadContent b => b
                                 | _ => FRONTENDS_DESC
                                 end)) in Hsrc. exact Hsrc. }
      unfold load_frontends_from_buffer. rewrite Hbuf.
      match goal with
      | |- context [try_except _ _ ?s1] =>
          destruct (load_from_buffer_ok (JObj fs) s1) as (s2 & R & L)
      end.
      eexists. split.
      + apply try_except_ok. erewrite bind_run by exact R.
        run_step. reflexivity.
      + assert (L' : only_logged s s2) by solve_only_logged.
        destruct L' as (A1 & A2 & A3 & A4).
        cbn [frontends projects backends set_frontends].
        split; [reflexivity|]. split; [exact A1|]. split; [exact A3|].
        eapply same_process_trans; [exact A4|].
        unfold same_process. repeat split; reflexivity. }
  destruct Hload as (s2 & R & F & P & B & S).
  erewrite bind_run by exact R. cbn [negb]. run_step.
  rewrite F. cbn [py_len py_keys]. repeat run_step.
  eexists. split; [reflexivity|].
  rewrite !frontends_log_many, !projects_log_many, !backends_log_many.
  split; [exact F|]. split; [exact P|]. split; [exact B|].
  repeat (eapply same_process_trans; [| apply same_process_log_many]).
  exact S.
Qed.

Lemma check_if_frontend_exists_ok (fs fe : dict) (name : string) (s : State) :
  frontends s = JObj fs ->
  dict_get fs name = JObj fe ->
  exists s',
    check_if_frontend_exists (JStr name) s = (Ok (JObj fe), s')
    /\ only_logged s s'.
Proof.
  intros Hf Hn. unfold check_if_frontend_exists, Log_info, Log_success.
  do 2 run_step. rewrite frontends_log_many, Hf. cbn [py_get_key].
  rewrite Hn. run_step. cbn [is_none]. run_step. unfold ret.
  eexists. split; [reflexivity | solve_only_logged].
Qed.

Lemma check_if_vcs_is_installed_ok (fe : dict) (exe : string) (s : State) :
  dict_get fe "exe" = JStr exe ->
  which (env s) exe = true ->
  exists s',
    check_if_vcs_is_installed (JObj fe) s = (Ok tt, s') /\ only_logged s s'.
Proof.
  intros He Hw. unfold check_if_vcs_is_installed, Log_info, Log_success.
  cbn [py_get]. rewrite He. do 3 run_step.
  rewrite env_log_many, Hw. cbn [negb]. rewrite log_run.
  eexists. split; [reflexivity | solve_only_logged].
Qed.

Lemma no_output_refl (s : State) : no_output s s.
Proof. split; [reflexivity | apply same_process_refl]. Qed.

Lemma no_output_trans (s1 s2 s3 : State) :
  no_output s1 s2 -> no_output s2 s3 -> no_output s1 s3.
Proof.
  intros [A1 A2] [B1 B2]. split; [congruence|].
  eapply same_process_trans; eauto.
Qed.

Lemma only_logged_no_output (s s' : State) : only_logged s s' -> no_output s s'.
Proof. intros (_ & _ & B & S). now split. Qed.

Lemma outside_projects_no_output (s s' : State) :
  outside_projects s s' -> no_output s s'.
Proof. intros (_ & B & S). now split. Qed.

Lemma no_output_place (s s' : State) :
  no_output s s' -> env s' = env s /\ cwd s' = cwd s.
Proof. intros (_ & E & C & _). now split. Qed.

(** The statements of the first [try] of [generate], for a project that
    validates and has its version. *)
Lemma generate_loads_and_validates (args : Args) (ps d d' : dict) (s : State) :
  load_file (env s) (cwd s)
    (match projects_file args with
     | None => PROJECTS_DEFAULT_FILE_NAME
     | Some f => f
     end) = LoadContent (Document (JObj ps)) ->
  dict_find ps (project args) = Some (JObj d) ->
  validate_checks (JObj d) = Ok tt ->
  global_resolved args ps d d' ->
  dict_get d' "version.major" <> JNull ->
  dict_get d' "version.minor" <> JNull ->
  dict_get d' "version.patch" <> JNull ->
  exists s' ps',
    (load_projects (projects_file args) ;;;
     _ <- check_if_project_exists (project args) ;;
     validate_project (project args) ;;;
     match global_desc_name args with
     | Some g =>
         validate_project g ;;;
         use_global_desc_values (project args) (Some g)
     | None => ret tt
     end ;;;
     desc <- get_project (project args) ;;
     validate_version desc ;;;
     ret (@None Z)) s = (Ok None, s')
    /\ projects s' = JObj ps'
    /\ dict_get ps' (project args) = JObj d'
    /\ no_output s s'.
Proof.
  intros Hload Hd Hv Hg V1 V2 V3.
  destruct (load_projects_ok (projects_file args) ps s Hload)
    as (s1 & R1 & P1 & _ & B1 & S1).
  destruct (check_if_project_exists_ok ps (project args) d s1 P1 Hd)
    as (s2 & R2 & L2).
  assert (P2 : projects s2 = JObj ps).
  { destruct L2 as (E & _). now rewrite E. }
  destruct (validate_project_passes ps (project args) d s2 P2
              (dict_find_get _ _ _ Hd) Hv) as (m3 & R3 & _).
  assert (N3 : no_output s (log_many m3 s2)).
  { eapply no_output_trans; [split; [exact B1 | exact S1]|].
    eapply no_output_trans; [apply only_logged_no_output, L2|].
    apply only_logged_no_output, only_logged_log_many. }
  assert (P3 : projects (log_many m3 s2) = JObj ps)
    by now rewrite projects_log_many.
  erewrite bind_run by exact R1. erewrite bind_run by exact R2.
  erewrite bind_run by exact R3.
  unfold global_resolved in Hg.
  destruct (global_desc_name args) as [g|].
  - destruct Hg as (gd & Hgd & Hgv & Hwf & ->).
    destruct (validate_project_passes ps g gd _ P3
                (dict_find_get _ _ _ Hgd) Hgv) as (m4 & R4 & _).
    assert (P4 : projects (log_many m4 (log_many m3 s2)) = JObj ps)
      by now rewrite projects_log_many.
    destruct (use_global_desc_values_run ps (project args) g d gd _
                P4 Hd Hgd Hwf) as (s5 & R5 & P5 & O5).
    rewrite bind_assoc. erewrite bind_run by exact R4.
    erewrite bind_run by exact R5.
    erewrite bind_run by (apply get_project_ok; exact P5).
    rewrite dict_get_set_same.
    erewrite bind_run by (apply validate_version_ok; assumption).
    exists s5, (dict_set ps (project args) (JObj (fill_from gd d))).
    split; [reflexivity|]. split; [exact P5|].
    split; [apply dict_get_set_same|].
    eapply no_output_trans; [exact N3|].
    eapply no_output_trans;
      [apply only_logged_no_output, only_logged_log_many|].
    apply outside_projects_no_output, O5.
  - subst d'. rewrite bind_ret.
    erewrite bind_run by (apply get_project_ok; exact P3).
    rewrite (dict_find_get _ _ _ Hd).
    erewrite bind_run by (apply validate_version_ok; assumption).
    exists (log_many m3 s2), ps.
    split; [reflexivity|]. split; [exact P3|].
    split; [apply (dict_find_get _ _ _ Hd) | exact N3].
Qed.

(** The frontend step, for a project whose frontend is ready. *)
Lemma generate_frontend_step (args : Args) (vcs : value) (s0 s : State) :
  frontend_ready args s0 vcs ->
  env s = env s0 -> cwd s = cwd s0 ->
  exists frontend s',
    (if negb (is_none vcs) then
       except_VerHelError
         (load_frontends (frontends_file args) ;;;
          frontend <- check_if_frontend_exists vcs ;;
          check_if_vcs_is_installed frontend ;;;
          ret (@inl value Z frontend))
         (fun code => ret (inr code))
     else ret (inl JNull)) s = (Ok (inl frontend), s')
    /\ projects s' = projects s
    /\ no_output s s'.
Proof.
  intros [->|(name & fs & fe & exe & -> & Hsrc & Hn & He & Hw)] E C.
  - exists JNull, s. cbn [is_none negb]. split; [reflexivity|].
    split; [reflexivity | apply no_output_refl].
  - cbn [is_none negb].
    destruct (load_frontends_ok args fs s) as (s1 & R1 & F1 & P1 & B1 & S1).
    { unfold frontends_source in *. now rewrite E, C. }
    destruct (check_if_frontend_exists_ok fs fe name s1 F1 Hn)
      as (s2 & R2 & L2).
    destruct (check_if_vcs_is_installed_ok fe exe s2 He) as (s3 & R3 & L3).
    { destruct L2 as (_ & _ & _ & E2 & _). destruct S1 as (E1 & _).
      now rewrite E2, E1, E. }
    exists (JObj fe), s3. split.
    + apply except_VerHelError_ok. erewrite bind_run by exact R1.
      erewrite bind_run by exact R2. erewrite bind_run by exact R3.
      reflexivity.
    + assert (L : only_logged s1 s3)
        by (eapply only_logged_trans; [exact L2 | exact L3]).
      split.
      * destruct L as (A & _). now rewrite A.
      * eapply no_output_trans; [split; [exact B1 | exact S1]|].
        apply only_logged_no_output, L.
Qed.

Lemma no_output_nothing_produced (s s' : State) :
  no_output s s' -> nothing_produced s s'.
Proof.
  intros (B & E & C & W & _ & N). unfold nothing_produced.
  repeat split; assumption.
Qed.

Lemma outside_projects_nothing_produced (s s' : State) :
  outside_projects s s' -> frontends s' = frontends s /\ nothing_produced s s'.
Proof.
  intros (F & B & E & C & W & _ & N). unfold nothing_produced.
  repeat split; assumption.
Qed.

(** *** Steps that produce nothing *)

Lemma no_output_bind {A B} (m : M A) (k : A -> M B) :
  (forall s, no_output s (snd (m s))) ->
  (forall a s, no_output s (snd (k a s))) ->
  forall s, no_output s (snd (bind m k s)).
Proof.
  intros Hm Hk s. unfold bind. specialize (Hm s).
  destruct (m s) as [[a|e] s1]; cbn [snd] in *; [|exact Hm].
  eapply no_output_trans; [exact Hm | apply Hk].
Qed.

Lemma no_output_try {A} (m : M A) (h : PyExn -> M A) :
  (forall s, no_output s (snd (m s))) ->
  (forall e s, no_output s (snd (h e s))) ->
  forall s, no_output s (snd (try_except m h s)).
Proof.
  intros Hm Hh s. unfold try_except. specialize (Hm s).
  destruct (m s) as [[a|e] s1]; cbn [snd] in *; [exact Hm|].
  eapply no_output_trans; [exact Hm | apply Hh].
Qed.

Lemma no_output_except {A} (m : M A) (h : Z -> M A) :
  (forall s, no_output s (snd (m s))) ->
  (forall code s, no_output s (snd (h code s))) ->
  forall s, no_output s (snd (except_VerHelError m h s)).
Proof.
  intros Hm Hh. unfold except_VerHelError. apply no_output_try; [exact Hm|].
  intros e s. destruct e; try apply no_output_refl. apply Hh.
Qed.

Lemma no_output_log (t : LogType) (m : string) (s : State) :
  no_output s (snd (Log_log t m s)).
Proof.
  rewrite log_run. apply only_logged_no_output, only_logged_log_many.
Qed.

Lemma no_output_set_frontends (v : value) (s : State) :
  no_output s (snd (modify (set_frontends v) s)).
Proof. unfold no_output, same_process. repeat split; reflexivity. Qed.

Ltac no_output_step :=
  first
    [ apply no_output_refl
    | apply no_output_log
    | apply no_output_set_frontends
    | apply no_output_bind; [intros ? | intros ? ?]
    | apply no_output_try; [intros ? | intros ? ?]
    | apply no_output_except; [intros ? | intros ? ?] ].

Lemma load_from_buffer_no_output (buffer : Buffer) (s : State) :
  no_output s (snd (load_from_buffer buffer s)).
Proof.
  revert s. unfold load_from_buffer, Log_info, Log_error, Log_success.
  apply no_output_bind; [intros s; apply no_output_log | intros _ s].
  destruct buffer as [msg|root]; revert s; repeat no_output_step.
Qed.

Lemma load_from_file_no_output (file_name : string) (s : State) :
  no_output s (snd (load_from_file file_name s)).
Proof.
  revert s. unfold load_from_file, Log_info, Log_error, Log_success.
  apply no_output_bind; [intros s; apply no_output_log | intros _ s].
  revert s. apply no_output_bind; [intros s; apply no_output_refl|].
  intros s0 s. destruct (load_file (env s0) (cwd s0) file_name) as [msg|buffer];
    revert s.
  - repeat no_output_step.
  - apply no_output_bind; [intros s; apply no_output_log | intros _ s].
    apply load_from_buffer_no_output.
Qed.

Lemma load_frontends_no_output (file_name : option string) (s : State) :
  no_output s (snd (load_frontends file_name s)).
Proof.
  revert s.
  unfold load_frontends, load_frontends_from_buffer, load_frontends_from_file,
    Log_info, Log_fatal, Log_success, Log_debug.
  apply no_output_bind; [intros s; apply no_output_log | intros _].
  apply no_output_bind.
  - destruct file_name as [f|].
    + apply no_output_try; [|intros e s; apply no_output_refl].
      apply no_output_bind; [apply load_from_file_no_output|].
      intros root. repeat no_output_step.
    + apply no_output_try; [|intros e s; apply no_output_refl].
      apply no_output_bind; [apply load_from_buffer_no_output|].
      intros root. repeat no_output_step.
  - intros ok. destruct (negb ok); repeat no_output_step.
Qed.

Lemma check_if_frontend_exists_no_output (frontend_name : value) (s : State) :
  no_output s (snd (check_if_frontend_exists frontend_name s)).
Proof.
  revert s. unfold check_if_frontend_exists, Log_info, Log_fatal, Log_success.
  apply no_output_bind; [intros s; apply no_output_log | intros _].
  apply no_output_bind; [intros s; apply no_output_refl | intros s0].
  apply no_output_bind; [intros s; apply no_output_refl | intros frontend].
  destruct (is_none frontend); repeat no_output_step.
Qed.

Lemma check_if_vcs_is_installed_no_output (frontend : value) (s : State) :
  no_output s (snd (check_if_vcs_is_installed frontend s)).
Proof.
  revert s. unfold check_if_vcs_is_installed, Log_info, Log_fatal, Log_success.
  apply no_output_bind; [intros s; apply no_output_refl | intros exe_name].
  apply no_output_bind; [intros s; apply no_output_log | intros _].
  destruct exe_name as [| | | |exe| |]; try (intros s; apply no_output_refl).
  apply no_output_bind; [intros s; apply no_output_refl | intros s0].
  destruct (negb (which (env s0) exe)); repeat no_output_step.
Qed.

(** The frontend step of [generate], whatever the frontend. *)
Lemma generate_frontend_step_no_output (args : Args) (vcs : value) (s : State) :
  no_output s
    (snd ((if negb (is_none vcs) then
             except_VerHelError
               (load_frontends (frontends_file args) ;;;
                frontend <- check_if_frontend_exists vcs ;;
                check_if_vcs_is_installed frontend ;;;
                ret (@inl value Z frontend))
               (fun code => ret (inr code))
           else ret (inl JNull)) s)).
Proof.
  destruct (negb (is_none vcs)); [|apply no_output_refl].
  revert s. apply no_output_except; [|intros code s; apply no_output_refl].
  apply no_output_bind; [apply load_frontends_no_output | intros _].
  apply no_output_bind; [apply check_if_frontend_exists_no_output|].
  intros frontend.
  apply no_output_bind; [apply check_if_vcs_is_installed_no_output|].
  intros _ s. apply no_output_refl.
Qed.

(** C9, as the code has it: for a project that validates (with its global
    descriptor, when one is given) and has its version, and whose
    [backends] list is absent, null or empty, [generate] writes no file,
    runs no command, loads no backend descriptor and leaves the working
    directory where it was, whatever the frontend of the project; when
    the frontend is null or loads, exists and is installed, the command
    returns [SUCCESS] and has printed nothing of its own. *)
Theorem generate_without_backends :
  forall (args : Args) (ps d d' : dict) (s : State),
    load_file (env s) (cwd s)
      (match projects_file args with
       | None => PROJECTS_DEFAULT_FILE_NAME
       | Some f => f
       end) = LoadContent (Document (JObj ps)) ->
    dict_find ps (project args) = Some (JObj d) ->
    validate_checks (JObj d) = Ok tt ->
    global_resolved args ps d d' ->
    dict_get d' "version.major" <> JNull ->
    dict_get d' "version.minor" <> JNull ->
    dict_get d' "version.patch" <> JNull ->
    dict_get d' "backends" = JNull \/ dict_get d' "backends" = JList [] ->
    exists r s',
      generate args s = (r, s')
      /\ nothing_produced s s'
      /\ (frontend_ready args s (dict_get d' "frontend") ->
          r = Ok ExitCodes.SUCCESS /\ printed s' = printed s).
Proof.
  intros args ps d d' s Hload Hd Hv Hg V1 V2 V3 Hback.
  assert (Hrun : exists r s',
            generate args s = (r, s')
            /\ no_output s s'
            /\ (frontend_ready args s (dict_get d' "frontend") ->
                r = Ok ExitCodes.SUCCESS)).
  { unfold generate.
    destruct (process_arguments_only_logs args "generate" s) as (s1 & R1 & L1).
    erewrite bind_run by exact R1. unfold Log_info at 1. run_step.
    set (s2 := log_many [(INFO, "running generate command")] s1).
    assert (N2 : no_output s s2).
    { apply only_logged_no_output. subst s2. solve_only_logged. }
    destruct (no_output_place _ _ N2) as [E2 C2].
    destruct (generate_loads_and_validates args ps d d' s2)
      as (s3 & ps' & R3 & P3 & D3 & N3); try assumption.
    { now rewrite E2, C2. }
    erewrite bind_run by (apply except_VerHelError_ok; exact R3).
    cbn iota beta.
    erewrite bind_run by (apply get_project_ok; exact P3).
    rewrite D3. cbn [py_get]. run_step.
    assert (N13 : no_output s s3) by (eapply no_output_trans; eauto).
    destruct (no_output_place _ _ N13) as [E3 C3].
    pose proof (generate_frontend_step_no_output args (dict_get d' "frontend")
                  s3) as N4.
    pose proof (fun F => generate_frontend_step args (dict_get d' "frontend")
                           s s3 F E3 C3) as Hready.
    destruct ((if negb (is_none (dict_get d' "frontend")) then
                 except_VerHelError
                   (load_frontends (frontends_file args) ;;;
                    frontend <- check_if_frontend_exists
                                  (dict_get d' "frontend") ;;
                    check_if_vcs_is_installed frontend ;;;
                    ret (@inl value Z frontend))
                   (fun code => ret (inr code))
               else ret (inl JNull)) s3) as [[[frontend|code]|e] s4] eqn:R4;
      cbn [snd] in N4.
    - erewrite bind_run by exact R4. cbn iota beta. run_step.
      assert (Hn : forall s5,
                (if is_none (dict_get d' "backends") then ret O
                 else lift (py_len (dict_get d' "backends"))) s5 = (Ok O, s5)).
      { intros s5. destruct Hback as [->| ->]; reflexivity. }
      erewrite bind_run by apply Hn.
      assert (Hno : (negb (is_none (dict_get d' "backends")) && Nat.ltb 0 0)%bool
                    = false) by apply andb_false_r.
      rewrite Hno. unfold Log_warn, Log_info. do 2 run_step. unfold ret.
      do 2 eexists. split; [reflexivity|]. split; [|reflexivity].
      eapply no_output_trans; [exact N13|].
      eapply no_output_trans; [exact N4|].
      apply only_logged_no_output. solve_only_logged.
    - erewrite bind_run by exact R4. cbn iota beta. unfold ret.
      do 2 eexists. split; [reflexivity|].
      split; [eapply no_output_trans; [exact N13 | exact N4]|].
      intros F. destruct (Hready F) as (fr & s4' & R & _). discriminate R.
    - erewrite bind_run_raise by exact R4.
      do 2 eexists. split; [reflexivity|].
      split; [eapply no_output_trans; [exact N13 | exact N4]|].
      intros F. destruct (Hready F) as (fr & s4' & R & _). discriminate R. }
  destruct Hrun as (r & s' & R & N & S).
  exists r, s'. split; [exact R|].
  split; [apply no_output_nothing_produced, N|].
  intros F. split; [exact (S F)|].
  now destruct N as (_ & _ & _ & _ & P & _).
Qed.

End Commands.

(* ================================================================== *)
(** * The properties on the sample store *)
(* ================================================================== *)

Section Examples.
#[local] Existing Instance AsciiRuntime.runtime.

Ltac distinct_keys :=
  unfold dict_wf; cbn [dict_keys map fst];
  repeat (constructor;
          [ cbn [In]; intros H;
            repeat (destruct H as [H|H]; [discriminate H|]); exact H | ]);
  constructor.

(** [demo] is version 1.2.3 with the pre-release [beta]. *)
Lemma cook_info_version_string_witness :
  exists info s',
    cook_info "demo" (JObj demo_project)
      (JObj [("date", JStr "2021-06-01"); ("time", JStr "12:00:00")])
      (JObj []) sample_state = (Ok info, s')
    /\ dict_get info "version.string" = JStr "1.2.3-beta"
    /\ dict_get info "version.pre_release" = JStr "beta".
Proof.
  exact (cook_info_version_string "demo" demo_project
           [("date", JStr "2021-06-01"); ("time", JStr "12:00:00")] []
           1 2 3 sample_state eq_refl eq_refl eq_refl eq_refl eq_refl).
Defined.

(** [demo] takes its author, name and copyright from [_Global]. *)
Lemma use_global_desc_values_fills_nulls_witness :
  dict_wf demo_project
  /\ exists s',
       use_global_desc_values "demo" (Some "_Global") loaded_state = (Ok tt, s')
       /\ projects s'
          = JObj (dict_set sample_projects "demo"
                    (JObj (fill_from global_project demo_project)))
       /\ same_process loaded_state s'.
Proof.
  assert (Hwf : dict_wf demo_project) by distinct_keys.
  split; [exact Hwf|].
  exact (use_global_desc_values_fills_nulls sample_projects "demo" "_Global"
           demo_project global_project loaded_state
           eq_refl eq_refl eq_refl Hwf).
Defined.

(** The two backends of [clashing] write the same file. *)
Lemma validate_project_rejects_invalid_backends_witness :
  invalid_backends clashing_backends
  /\ exists s',
       validate_project "clashing" loaded_state
       = (Raise (VerHelError ExitCodes.PROJECT_VALIDATION_FAILED), s').
Proof.
  assert (Hbad : invalid_backends clashing_backends).
  { right. left.
    exists 0%nat, 1%nat, (JObj [("cpp", JStr "out/version.hpp")]),
      (JObj [("c", JStr "out/version.hpp")]), (JStr "out/version.hpp").
    split; [discriminate|]. split; [reflexivity|]. split; [reflexivity|].
    split.
    - exists [("cpp", JStr "out/version.hpp")], "cpp".
      split; [reflexivity | now left].
    - exists [("c", JStr "out/version.hpp")], "c".
      split; [reflexivity | now left]. }
  split; [exact Hbad|].
  exact (validate_project_rejects_invalid_backends sample_projects "clashing"
           clashing_project clashing_backends loaded_state
           eq_refl eq_refl eq_refl Hbad).
Defined.

(** [demo] excludes [build.time]. *)
Lemma backend_generate_excluded_key_witness :
  py_contains (JList [JStr "build.time"]) (JStr "build.time") = Ok true
  /\ backend_generate (JObj cpp_backend) (JObj demo_cooked) None
       (JList [JStr "build.time"]) sample_state
     = backend_generate
         (JObj (dict_set cpp_backend "var_map"
                  (JList (firstn 13 cpp_var_map ++ skipn 14 cpp_var_map))))
         (JObj demo_cooked) None (JList [JStr "build.time"]) sample_state.
Proof.
  split; [reflexivity|].
  exact (backend_generate_excluded_key cpp_backend (JObj demo_cooked) None
           (JList [JStr "build.time"])
           (firstn 13 cpp_var_map) (skipn 14 cpp_var_map)
           (nth 13 cpp_var_map JNull) (JStr "BUILD_TIME         ") "build.time"
           sample_state eq_refl eq_refl eq_refl).
Defined.

(** A key [custom.note] added to [demo]. *)
Lemma validate_project_dangling_key_witness :
  dict_mem empty_project "custom.note" = false
  /\ fst (validate_project "demo"
            (set_projects
               (JObj (dict_set sample_projects "demo"
                        (JObj (dict_set demo_project "custom.note" (JInt 7)))))
               loaded_state))
     = fst (validate_project "demo" loaded_state).
Proof.
  split; [reflexivity|].
  assert (Hne : "custom.note" <> "project.company") by discriminate.
  exact (proj1 (validate_project_dangling_key sample_projects "demo"
                  demo_project "custom.note" (JInt 7) loaded_state
                  eq_refl eq_refl eq_refl Hne)).
Defined.

(** [quiet] has a version and neither frontend nor backend. *)
Lemma generate_without_backends_witness :
  validate_checks (JObj quiet_project) = Ok tt
  /\ exists s',
       generate (sample_args "quiet") sample_state = (Ok ExitCodes.SUCCESS, s')
       /\ nothing_produced sample_state s'
       /\ printed s' = printed sample_state.
Proof.
  split; [reflexivity|].
  assert (V1 : dict_get quiet_project "version.major" <> JNull) by discriminate.
  assert (V2 : dict_get quiet_project "version.minor" <> JNull) by discriminate.
  assert (V3 : dict_get quiet_project "version.patch" <> JNull) by discriminate.
  assert (F : frontend_ready (sample_args "quiet") sample_state
                (dict_get quiet_project "frontend")) by (left; reflexivity).
  assert (B : dict_get quiet_project "backends" = JNull
              \/ dict_get quiet_project "backends" = JList [])
    by (right; reflexivity).
  destruct (generate_without_backends (sample_args "quiet") sample_projects
              quiet_project quiet_project sample_state
              eq_refl eq_refl eq_refl eq_refl V1 V2 V3 B)
    as (r & s' & R & N & S).
  destruct (S F) as [-> P]. exists s'. auto.
Defined.

(** [set demo version.major one]. *)
Lemma set_rejects_non_integer_witness :
  int_of_str "one" = None
  /\ exists s',
       set (sample_args "demo") sample_state
       = (Ok ExitCodes.INVALID_VALUE, s')
       /\ projects s' = JObj sample_projects
       /\ written s' = written sample_state
       /\ same_process sample_state s'.
Proof.
  split; [reflexivity|].
  exact (set_rejects_non_integer (sample_args "demo") sample_projects
           demo_project 0 sample_state eq_refl eq_refl eq_refl eq_refl).
Defined.

Ltac sample_query :=
  do 3 eexists;
  split; [eexists; split; [reflexivity | split; reflexivity]|];
  split; [reflexivity|];
  split; [intros; reflexivity | reflexivity].

(** The repository without a tag: [git describe] exits with 128. *)
Lemma get_vcs_info_accepted_tag_witness :
  query_exits sample_state git_frontend "get.tag" 128 ""
  /\ exists info s',
       get_vcs_info (JObj git_frontend) (JStr "git") sample_state
       = (Ok info, s')
       /\ dict_get info "tag" = JStr ""
       /\ dict_get info "commit_hash" = JStr "0a1b2c3d4e5f"
       /\ dict_get info "branch" = JStr "main".
Proof.
  assert (Hhash : query_exits sample_state git_frontend "get.commit_hash" 0
                    ("0a1b2c3d4e5f" ++ nl)) by sample_query.
  assert (Htag : query_exits sample_state git_frontend "get.tag" 128 "")
    by sample_query.
  assert (Hbranch : query_exits sample_state git_frontend "get.branch" 0
                      ("main" ++ nl)) by sample_query.
  assert (Hshort : query_declared git_frontend "get.short_hash").
  { do 3 eexists. split; [reflexivity | split; reflexivity]. }
  assert (Hcount : query_declared git_frontend "get.commit_count").
  { do 3 eexists. split; [reflexivity | split; reflexivity]. }
  assert (Hnum : count_is_numeric sample_state git_frontend).
  { intros line args codes n rc out (o & Ho & Hc & Hr) Hsplit Hexec Hacc.
    vm_compute in Ho. injection Ho as <-.
    vm_compute in Hc. injection Hc as <-.
    vm_compute in Hsplit. injection Hsplit as <-.
    vm_compute in Hexec. injection Hexec as <- <-.
    vm_compute. discriminate. }
  split; [exact Htag|].
  exact (get_vcs_info_accepted_tag git_frontend (JStr "git") sample_state
           0 128 0 ("0a1b2c3d4e5f" ++ nl) "" ("main" ++ nl)
           Hhash Hshort Htag Hbranch Hcount Hnum).
Defined.

(** C4 as stated fails: [get.tag] exits with 128, a code of its accepted
    set other than zero, and the [tag] field is the empty string, not
    null. *)
Lemma get_vcs_info_tag_not_null :
  sample_exec 0 "/work"
    ["git"; "describe"; "--tags"; "--abbrev=0"; "--exact-match"]
  = ProcExit 128 ""
  /\ dict_get git_frontend "get.tag"
     = JObj [("cmd", JStr "git describe --tags --abbrev=0 --exact-match");
             ("ret_codes", JList [JInt 0; JInt 128])]
  /\ exists info,
       fst (get_vcs_info (JObj git_frontend) (JStr "git") sample_state)
       = Ok info
       /\ dict_get info "tag" = JStr ""
       /\ dict_get info "tag" <> JNull
       /\ dict_get info "branch" = JStr "main"
       /\ dict_get info "commit_hash" = JStr "0a1b2c3d4e5f".
Proof.
  split; [reflexivity|]. split; [reflexivity|].
  exists [("name", JStr "git"); ("commit_hash", JStr "0a1b2c3d4e5f");
          ("short_hash", JStr "0a1b2c3"); ("tag", JStr "");
          ("branch", JStr "main"); ("commit_count", JInt 42)].
  split; [vm_compute; reflexivity|].
  split; [reflexivity|]. split; [discriminate|]. split; reflexivity.
Qed.

(** C5 as stated fails: [project.company] is not a key of the empty
    project, and the integer 5 under it makes validation fail where the
    descriptor without it validates. *)
Lemma validate_project_company_rejected :
  dict_mem empty_project "project.company" = false
  /\ fst (validate_project "plain" loaded_state) = Ok tt
  /\ fst (validate_project "company" loaded_state)
     = Raise (VerHelError ExitCodes.PROJECT_VALIDATION_FAILED).
Proof.
  split; [reflexivity|]. split; vm_compute; reflexivity.
Qed.

(** C9 as stated fails: [svn] validates, has its version and an empty
    [backends] list, and [generate] returns [FRONTEND_DOESNT_EXISTS]. *)
Lemma generate_missing_frontend :
  validate_checks (JObj svn_project) = Ok tt
  /\ dict_get svn_project "version.major" = JInt 0
  /\ dict_get svn_project "version.minor" = JInt 1
  /\ dict_get svn_project "version.patch" = JInt 0
  /\ dict_get svn_project "backends" = JList []
  /\ fst (generate (sample_args "svn") sample_state)
     = Ok ExitCodes.FRONTEND_DOESNT_EXISTS
  /\ ExitCodes.FRONTEND_DOESNT_EXISTS <> ExitCodes.SUCCESS.
Proof.
  do 5 (split; [reflexivity|]).
  split; [vm_compute; reflexivity | discriminate].
Qed.

End Examples.

(* ================================================================== *)
(** * Further properties *)
(* ================================================================== *)

(** ** The format engine *)

Section Formatting.
Context {RT : PyRuntime}.

Lemma snoc_append (lit : string) (c : ascii) (t : string) :
  (snoc lit c ++ t = lit ++ String c t)%string.
Proof. induction lit as [|x lit IH]; simpl; [reflexivity | now rewrite IH]. Qed.

(** Literal text is scanned into the current chunk. *)
Lemma parse_from_text (lit t r : string) :
  no_braces t = true ->
  parse_from (QLit lit) (t ++ r) = parse_from (QLit (lit ++ t)) r.
Proof.
  revert lit. induction t as [|c t IH]; intros lit H.
  - simpl. now rewrite append_nil_r.
  - simpl in H. apply andb_prop in H. destruct H as [H Ht].
    apply andb_prop in H. destruct H as [H1 H2].
    apply negb_true_iff in H1, H2.
    cbn [append parse_from pstep]. rewrite H1, H2.
    destruct (parse_from (QLit (snoc lit c)) (t ++ r)) as [items err] eqn:E.
    rewrite IH in E by exact Ht. rewrite snoc_append in E.
    cbn [app]. now rewrite E.
Qed.

Lemma formatter_parser_text (t : string) :
  no_braces t = true -> formatter_parser t = ([FLit t], None).
Proof.
  intros H. unfold formatter_parser.
  rewrite <- (append_nil_r t) at 1. rewrite parse_from_text by exact H.
  reflexivity.
Qed.

(** X1: a template without braces is rendered as itself by [str.format]
    and by [VerHelFormatter], whatever the arguments. *)
Theorem format_text_without_braces :
  forall (t : string) (args : list value),
    no_braces t = true ->
    str_format t args = Ok t /\ fmtr_format t args = Ok t.
Proof.
  intros t args H. unfold str_format, fmtr_format. cbn [vformat].
  rewrite (formatter_parser_text t H). split; reflexivity.
Qed.

End Formatting.

(** ** Lines of a generated source *)

Section Lines.
Context {RT : PyRuntime}.

Lemma bind_lift_eq {A B} (r : Res A) (a : A) (k : A -> M B) (s : State) :
  r = Ok a -> bind (lift r) k s = k a s.
Proof. intros ->. reflexivity. Qed.

Lemma parse_from_field_0 (lit r : string) :
  parse_from (QLit lit) ("{0}" ++ r) =
  let (items, err) := parse_from (QLit "") r in
  (FLit lit :: FField "0" None "" :: items, err).
Proof. simpl. destruct (parse_from (QLit "") r); reflexivity. Qed.

Lemma parse_from_field_1 (lit r : string) :
  parse_from (QLit lit) ("{1}" ++ r) =
  let (items, err) := parse_from (QLit "") r in
  (FLit lit :: FField "1" None "" :: items, err).
Proof. simpl. destruct (parse_from (QLit "") r); reflexivity. Qed.

Lemma parse_from_field_1u (lit r : string) :
  parse_from (QLit lit) ("{1!u}" ++ r) =
  let (items, err) := parse_from (QLit "") r in
  (FLit lit :: FField "1" (Some "u"%char) "" :: items, err).
Proof. simpl. destruct (parse_from (QLit "") r); reflexivity. Qed.

Lemma parse_from_last (t : string) :
  no_braces t = true -> parse_from (QLit "") t = ([FLit t], None).
Proof. exact (formatter_parser_text t). Qed.

Lemma formatter_parser_number_line (a b c : string) :
  no_braces a = true -> no_braces b = true -> no_braces c = true ->
  formatter_parser (a ++ "{0}" ++ b ++ "{1}" ++ c) =
  ([FLit a; FField "0" None ""; FLit b; FField "1" None ""; FLit c], None).
Proof.
  intros Ha Hb Hc. unfold formatter_parser.
  rewrite parse_from_text by exact Ha.
  rewrite parse_from_field_0, parse_from_text by exact Hb.
  rewrite parse_from_field_1, parse_from_last by exact Hc.
  reflexivity.
Qed.

Lemma formatter_parser_string_line (a b c : string) :
  no_braces a = true -> no_braces b = true -> no_braces c = true ->
  formatter_parser (a ++ "{0}" ++ b ++ "{1!u}" ++ c) =
  ([FLit a; FField "0" None ""; FLit b; FField "1" (Some "u"%char) "";
    FLit c], None).
Proof.
  intros Ha Hb Hc. unfold formatter_parser.
  rewrite parse_from_text by exact Ha.
  rewrite parse_from_field_0, parse_from_text by exact Hb.
  rewrite parse_from_field_1u, parse_from_last by exact Hc.
  reflexivity.
Qed.

Lemma fmtr_format_number_line (a b c : string) (x y : value) :
  no_braces a = true -> no_braces b = true -> no_braces c = true ->
  fmtr_format (a ++ "{0}" ++ b ++ "{1}" ++ c) [x; y] =
  Ok (a ++ py_str x ++ b ++ py_str y ++ c).
Proof.
  intros Ha Hb Hc. unfold fmtr_format. cbn [vformat].
  rewrite (formatter_parser_number_line a b c Ha Hb Hc).
  transitivity (Ok ((((a ++ py_str x) ++ b) ++ py_str y) ++ c)).
  - cbv -[py_str]. reflexivity.
  - now rewrite !append_assoc.
Qed.

Lemma fmtr_format_string_line (a b c : string) (x y : value) :
  no_braces a = true -> no_braces b = true -> no_braces c = true ->
  fmtr_format (a ++ "{0}" ++ b ++ "{1!u}" ++ c) [x; y] =
  Ok (a ++ py_str x ++ b ++ str_upper (py_str y) ++ c).
Proof.
  intros Ha Hb Hc. unfold fmtr_format. cbn [vformat].
  rewrite (formatter_parser_string_line a b c Ha Hb Hc).
  transitivity (Ok ((((a ++ py_str x) ++ b) ++ str_upper (py_str y)) ++ c)).
  - cbv -[py_str str_upper]. reflexivity.
  - now rewrite !append_assoc.
Qed.

(** X2: a round of the variable loop on a present, non-excluded key.  With
    the line templates of the shape the built-in backend uses, an integer
    is written in decimal and a string in upper case, each after the
    emitted name, and nothing is logged. *)
Theorem emit_var_line :
  forall (a b c a' b' c' : string) (cooked : dict) (excluded : list value)
         (var_name : string) (emit_name : string) (rest : dict)
         (ss : string) (s : State),
    no_braces a = true -> no_braces b = true -> no_braces c = true ->
    no_braces a' = true -> no_braces b' = true -> no_braces c' = true ->
    list_mem (JStr var_name) excluded = false ->
    let run v :=
      emit_var (JStr (a ++ "{0}" ++ b ++ "{1}" ++ c))
               (JStr (a' ++ "{0}" ++ b' ++ "{1!u}" ++ c'))
               (JObj ((var_name, v) :: cooked)) (JList excluded)
               (JObj ((var_name, JStr emit_name) :: rest)) ss s in
    (forall n : Z,
       run (JInt n) = (Ok (ss ++ a ++ emit_name ++ b ++ str_of_Z n ++ c), s)) /\
    (forall text : string,
       run (JStr text) =
       (Ok (ss ++ a' ++ emit_name ++ b' ++ str_upper text ++ c'), s)).
Proof.
  intros a b c a' b' c' cooked excluded var_name emit_name rest ss s
         Ha Hb Hc Ha' Hb' Hc' Hex run.
  split; intros x; unfold run, emit_var.
  - rewrite bind_lift_eq with (a := (var_name, JStr emit_name)) by reflexivity.
    cbn beta iota.
    rewrite bind_lift_eq with (a := false)
      by (cbn [py_contains]; now rewrite Hex).
    cbn iota.
    rewrite bind_lift_eq with (a := JInt x)
      by (unfold py_index, dict_index; cbn [dict_find]; now rewrite String.eqb_refl).
    cbn [is_none negb type_of]. cbn iota.
    rewrite bind_lift_eq
      with (a := (a ++ emit_name ++ b ++ str_of_Z x ++ c)%string)
      by (cbn [fmtr_format_value];
          now rewrite fmtr_format_number_line by assumption).
    reflexivity.
  - rewrite bind_lift_eq with (a := (var_name, JStr emit_name)) by reflexivity.
    cbn beta iota.
    rewrite bind_lift_eq with (a := false)
      by (cbn [py_contains]; now rewrite Hex).
    cbn iota.
    rewrite bind_lift_eq with (a := JStr x)
      by (unfold py_index, dict_index; cbn [dict_find]; now rewrite String.eqb_refl).
    cbn [is_none negb type_of]. cbn iota.
    rewrite bind_lift_eq
      with (a := (a' ++ emit_name ++ b' ++ str_upper x ++ c')%string)
      by (cbn [fmtr_format_value];
          now rewrite fmtr_format_string_line by assumption).
    reflexivity.
Qed.

End Lines.

Section LineExamples.
#[local] Existing Instance AsciiRuntime.runtime.

(** The closing line of the built-in namespace has no field in it. *)
Lemma format_text_without_braces_witness :
  str_format "// namespace verhel" [JStr "unused"] = Ok "// namespace verhel"
  /\ fmtr_format "// namespace verhel" [JStr "unused"]
     = Ok "// namespace verhel".
Proof.
  exact (format_text_without_braces "// namespace verhel" [JStr "unused"]
           eq_refl).
Defined.

(** The two lines of the C++ backend, for a major version and a name. *)
Lemma emit_var_line_witness :
  (forall n : Z,
     emit_var (JStr "    inline constexpr auto {0} = {1};")
              (JStr "    inline constexpr auto {0} = '{1!u}';")
              (JObj [("version.major", JInt n)]) (JList [JStr "build.time"])
              (JObj [("version.major", JStr "VERSION_MAJOR")]) "" sample_state
     = (Ok ("" ++ "    inline constexpr auto " ++ "VERSION_MAJOR" ++ " = "
            ++ str_of_Z n ++ ";"), sample_state))
  /\ (forall text : string,
        emit_var (JStr "    inline constexpr auto {0} = {1};")
                 (JStr "    inline constexpr auto {0} = '{1!u}';")
                 (JObj [("version.major", JStr text)])
                 (JList [JStr "build.time"])
                 (JObj [("version.major", JStr "VERSION_MAJOR")]) ""
                 sample_state
        = (Ok ("" ++ "    inline constexpr auto " ++ "VERSION_MAJOR" ++ " = '"
               ++ str_upper text ++ "';"), sample_state)).
Proof.
  exact (emit_var_line "    inline constexpr auto " " = " ";"
           "    inline constexpr auto " " = '" "';" []
           [JStr "build.time"] "version.major" "VERSION_MAJOR" [] ""
           sample_state eq_refl eq_refl eq_refl eq_refl eq_refl eq_refl
           eq_refl).
Defined.

End LineExamples.

(** ** What validation accepts *)

Section Accepted.
Context {RT : PyRuntime}.

Lemma check_typed (d : dict) (key : string) (t : PyType) :
  check d key t = Ok tt <-> typed_or_null d key t = true.
Proof.
  unfold check, typed_or_null. cbv zeta.
  destruct (type_eqb (type_of (dict_get d key)) t),
    (type_eqb (type_of (dict_get d key)) TNone); simpl;
    split; intros H; (reflexivity || discriminate H).
Qed.

Lemma res_for_each_i_intro {A} (l : list A) (body : nat -> A -> Res unit)
    (k : nat) :
  (forall i x, nth_error l i = Some x -> body (k + i)%nat x = Ok tt) ->
  res_for_each_i k l body = Ok tt.
Proof.
  revert k. induction l as [|y l IH]; intros k H; [reflexivity|].
  cbn [res_for_each_i]. rewrite <- (Nat.add_0_r k) at 1.
  rewrite (H 0%nat y eq_refl). cbn [res_bind]. apply IH.
  intros i x Hi. rewrite Nat.add_succ_l, <- Nat.add_succ_r. now apply H.
Qed.

(** [l.index(l[i])] is [i] when no earlier element equals the one at
    [i]. *)
Lemma list_index_from_first (r : list value) (j i : nat) (x : value) :
  (j <= i)%nat -> (i - j < List.length r)%nat ->
  (forall t y, (j + t < i)%nat -> nth_error r t = Some y -> py_eq y x = false) ->
  list_index_from r j i x = i.
Proof.
  revert j. induction r as [|y r IH]; intros j Hle Hlen Hne.
  - simpl in Hlen. lia.
  - cbn [list_index_from]. destruct (Nat.eqb_spec j i) as [->|Hji].
    + reflexivity.
    + rewrite (Hne 0%nat y) by (simpl; (lia || reflexivity)).
      cbn [orb]. apply IH; [lia | simpl in Hlen; lia |].
      intros t z Ht Hz. apply (Hne (S t) z); [lia | exact Hz].
Qed.

Lemma nth_error_entries (entries : list (string * string)) (i : nat)
    (bk : value) :
  nth_error (map backend_entry entries) i = Some bk ->
  exists e, nth_error entries i = Some e /\ bk = backend_entry e.
Proof.
  rewrite nth_error_map. destruct (nth_error entries i) as [e|]; simpl;
    [|discriminate].
  intros [= <-]. eauto.
Qed.

Lemma NoDup_map_nth {A B} (f : A -> B) (l : list A) (i j : nat) (a b : A) :
  NoDup (map f l) -> nth_error l i = Some a -> nth_error l j = Some b ->
  i <> j -> f a <> f b.
Proof.
  intros Hnd Hi Hj Hne Heq. apply Hne.
  apply (proj1 (NoDup_nth_error (map f l)) Hnd).
  - rewrite length_map. apply nth_error_Some. congruence.
  - rewrite !nth_error_map, Hi, Hj. simpl. congruence.
Qed.

Lemma py_eq_entries (e e' : string * string) :
  fst e <> fst e' -> py_eq (backend_entry e) (backend_entry e') = false.
Proof.
  intros H. unfold backend_entry. cbn [py_eq List.length Nat.eqb andb dict_find].
  apply String.eqb_neq in H. now rewrite H.
Qed.

Lemma list_index_entries (entries : list (string * string)) (i : nat) :
  NoDup (map fst entries) -> (i < List.length entries)%nat ->
  list_index (map backend_entry entries) i = i.
Proof.
  intros Hnd Hlen. unfold list_index.
  destruct (nth_error entries i) as [e|] eqn:He;
    [|apply nth_error_None in He; lia].
  assert (Hx : nth i (map backend_entry entries) JNull = backend_entry e).
  { apply nth_error_nth. now rewrite nth_error_map, He. }
  rewrite Hx. apply list_index_from_first; [lia | rewrite length_map; lia |].
  intros t y Ht Hy. cbn [Nat.add] in Ht.
  apply nth_error_entries in Hy. destruct Hy as (e' & He' & ->).
  apply py_eq_entries.
  apply (NoDup_map_nth fst entries t i e' e Hnd He' He). lia.
Qed.

Lemma check_backend_shape_entry (l : list value) (i : nat)
    (e : string * string) :
  check_backend_shape l i (backend_entry e) = Ok tt.
Proof.
  unfold check_backend_shape, backend_entry.
  cbn [List.length Nat.ltb Nat.leb res_for_each].
  unfold check, dict_get. cbn [dict_find]. rewrite String.eqb_refl.
  reflexivity.
Qed.

Lemma check_backend_duplicates_entries (entries : list (string * string))
    (i : nat) (e : string * string) :
  NoDup (map fst entries) -> NoDup (map snd entries) ->
  nth_error entries i = Some e ->
  check_backend_duplicates (map backend_entry entries) i (backend_entry e)
  = Ok tt.
Proof.
  intros Hn Ho He. unfold check_backend_duplicates.
  assert (Hlen : (i < List.length entries)%nat)
    by (apply nth_error_Some; congruence).
  rewrite (list_index_entries entries i Hn Hlen).
  unfold backend_entry at 1 2. cbn [first_key py_get res_bind].
  unfold dict_get at 1. cbn [dict_find]. rewrite String.eqb_refl.
  apply res_for_each_i_intro. intros j other Hj. cbn [Nat.add].
  destruct (Nat.eqb_spec j i) as [->|Hji]; [reflexivity|].
  apply nth_error_entries in Hj. destruct Hj as (e' & He' & ->).
  unfold backend_entry. cbn [py_get res_bind first_key].
  unfold dict_get. cbn [dict_find].
  pose proof (NoDup_map_nth fst entries i j e e' Hn He He' (not_eq_sym Hji))
    as Hname.
  pose proof (NoDup_map_nth snd entries j i e' e Ho He' He Hji) as Hout.
  apply String.eqb_neq in Hname, Hout.
  rewrite Hname. cbn [is_none negb]. rewrite String.eqb_refl.
  cbn [py_eq]. now rewrite Hout.
Qed.

Lemma valid_backends_accepted (d : dict) (l : list value) :
  dict_get d "backends" = JList l ->
  valid_backends (JList l) ->
  res_bind (check d "backends" TList) (fun _ =>
  res_bind (py_iter (JList l)) (fun l =>
  res_bind (res_for_each_i 0 l (check_backend_shape l)) (fun _ =>
  res_for_each_i 0 l (check_backend_duplicates l)))) = Ok tt.
Proof.
  intros Hb [Hv|(entries & Hl & Hn & Ho)]; [discriminate Hv|].
  injection Hl as ->.
  unfold check. rewrite Hb. cbn [type_of type_eqb negb andb res_bind py_iter].
  rewrite res_for_each_i_intro.
  - cbn [res_bind]. apply res_for_each_i_intro. intros i bk Hi.
    pose proof Hi as Hi'. apply nth_error_entries in Hi'.
    destruct Hi' as (e & He & ->). cbn [Nat.add].
    now apply check_backend_duplicates_entries.
  - intros i bk Hi. apply nth_error_entries in Hi.
    destruct Hi as (e & _ & ->). apply check_backend_shape_entry.
Qed.

(** The entries of a list that passed both loops. *)
Lemma entries_of_backends (l : list value) :
  (forall i bk, nth_error l i = Some bk ->
     exists name output, bk = JObj [(name, JStr output)]) ->
  exists entries, l = map backend_entry entries.
Proof.
  induction l as [|bk l IH]; intros H.
  - now exists [].
  - destruct (H 0%nat bk eq_refl) as (name & output & ->).
    destruct IH as (entries & ->).
    { intros i x Hi. apply (H (S i) x Hi). }
    now exists ((name, output) :: entries).
Qed.

Lemma NoDup_by_position {A} (l : list A) :
  (forall i j a, i <> j -> nth_error l i = Some a -> nth_error l j <> Some a) ->
  NoDup l.
Proof.
  intros H. apply NoDup_nth_error. intros i j Hi Heq.
  destruct (Nat.eq_dec i j) as [|Hne]; [assumption | exfalso].
  destruct (nth_error l i) as [a|] eqn:Ha;
    [|apply nth_error_None in Ha; lia].
  now apply (H i j a Hne Ha).
Qed.

Lemma validate_checks_backends_entries (d : dict) (l : list value) :
  validate_checks (JObj d) = Ok tt ->
  dict_get d "backends" = JList l ->
  valid_backends (JList l).
Proof.
  intros Hv Hb. destruct (validate_checks_backends_valid d l Hv Hb)
    as [Hshape Huniq].
  destruct (entries_of_backends l Hshape) as (entries & ->).
  right. exists entries. split; [reflexivity|].
  assert (Hpos : forall i j ei ej, i <> j ->
            nth_error entries i = Some ei -> nth_error entries j = Some ej ->
            fst ei <> fst ej /\ snd ei <> snd ej).
  { intros i j [ki oi] [kj oj] Hne Hi Hj.
    apply (Huniq i j ki oi kj oj Hne).
    - rewrite nth_error_map, Hi. reflexivity.
    - rewrite nth_error_map, Hj. reflexivity. }
  split; apply NoDup_by_position; intros i j a Hne Hi Hj;
    rewrite nth_error_map in Hi, Hj;
    destruct (nth_error entries i) as [ei|] eqn:Ei; try discriminate Hi;
    destruct (nth_error entries j) as [ej|] eqn:Ej; try discriminate Hj;
    simpl in Hi, Hj; destruct (Hpos i j ei ej Hne Ei Ej); congruence.
Qed.

Ltac typed_key := unfold typed_keys; cbn [In]; tauto.

Lemma validate_checks_valid (d : dict) :
  validate_checks (JObj d) = Ok tt <-> valid_descriptor d.
Proof.
  split.
  - intros Hv. split.
    + pose proof Hv as H. unfold validate_checks in H.
      apply res_bind_ok in H. destruct H as ([] & K1 & H).
      apply res_bind_ok in H. destruct H as ([] & K2 & H).
      apply res_bind_ok in H. destruct H as ([] & K3 & H).
      apply res_bind_ok in H. destruct H as ([] & K4 & H).
      apply res_bind_ok in H. destruct H as ([] & _ & H).
      apply res_bind_ok in H. destruct H as ([] & K5 & H).
      apply res_bind_ok in H. destruct H as ([] & K6 & H).
      apply res_bind_ok in H. destruct H as ([] & K7 & H).
      apply res_bind_ok in H. destruct H as ([] & K8 & H).
      apply res_bind_ok in H. destruct H as ([] & K9 & H).
      apply res_bind_ok in H. destruct H as ([] & K10 & H).
      apply res_bind_ok in H. destruct H as ([] & K11 & H).
      apply res_bind_ok in H. destruct H as ([] & K12 & H).
      apply res_bind_ok in H. destruct H as ([] & K13 & K14).
      intros key t Hin. apply check_typed.
      unfold typed_keys in Hin. cbn [In] in Hin.
      repeat (destruct Hin as [Hin|Hin];
              [injection Hin as <- <-; assumption|]).
      destruct Hin.
    + destruct (dict_get d "backends") as [| | | | |l|] eqn:Hb;
        try (exfalso; unfold validate_checks in Hv;
             do 4 (apply res_bind_ok in Hv; destruct Hv as (? & _ & Hv));
             apply res_bind_ok in Hv; destruct Hv as (? & Hv & _);
             rewrite Hb in Hv; cbn [is_none] in Hv;
             apply res_bind_ok in Hv; destruct Hv as (? & Hv & _);
             unfold check in Hv; rewrite Hb in Hv; discriminate Hv).
      * now left.
      * now apply (validate_checks_backends_entries d l Hv).
  - intros [Hkeys Hbk].
    assert (C : forall key t, In (key, t) typed_keys -> check d key t = Ok tt).
    { intros key t Hin. apply check_typed. now apply Hkeys. }
    unfold validate_checks. cbv zeta.
    rewrite (C "version.major" TInt), (C "version.minor" TInt),
      (C "version.patch" TInt), (C "version.pre_release" TStr) by typed_key.
    cbn [res_bind].
    replace (if is_none (dict_get d "backends") then Ok tt
             else res_bind (check d "backends" TList) (fun _ =>
                  res_bind (py_iter (dict_get d "backends")) (fun l =>
                  res_bind (res_for_each_i 0 l (check_backend_shape l))
                    (fun _ => res_for_each_i 0 l (check_backend_duplicates l)))))
      with (@Ok unit tt).
    + cbn [res_bind].
      rewrite (C "frontend" TStr), (C "license.spdx" TStr),
        (C "license.file" TStr), (C "project.author" TStr),
        (C "project.copyright" TStr), (C "project.company" TStr),
        (C "project.description" TStr), (C "project.directory" TStr),
        (C "project.name" TStr) by typed_key.
      cbn [res_bind]. apply C. typed_key.
    + symmetry. destruct Hbk as [Hb|(entries & Hb & Hn)].
      * rewrite Hb. reflexivity.
      * rewrite Hb. cbn [is_none].
        apply valid_backends_accepted; [exact Hb|].
        right. now exists entries.
Qed.

(** X3: validation accepts exactly the descriptors whose typed keys hold a
    value of their type or null and whose [backends] is null or a list of
    single-key objects with string outputs, no two with the same name or
    the same output. *)
Theorem validate_checks_accepts :
  forall d : dict, validate_checks (JObj d) = Ok tt <-> valid_descriptor d.
Proof. exact validate_checks_valid. Qed.

End Accepted.

Section StoreCommands.
Context {RT : PyRuntime}.

(** ** The commands that read and rewrite the store *)

Lemma written_log_many (l : list (LogType * string)) (s : State) :
  written (log_many l s) = written s.
Proof. now destruct (same_process_log_many l s) as (_ & _ & H & _). Qed.

Lemma printed_log_many (l : list (LogType * string)) (s : State) :
  printed (log_many l s) = printed s.
Proof. now destruct (same_process_log_many l s) as (_ & _ & _ & H & _). Qed.

Lemma outside_projects_log_many (l : list (LogType * string)) (s : State) :
  outside_projects s (log_many l s).
Proof.
  destruct (only_logged_log_many l s) as (_ & F & B & P).
  unfold outside_projects. auto.
Qed.

Lemma only_logged_outside_projects (s s' : State) :
  only_logged s s' -> outside_projects s s'.
Proof. intros (_ & F & B & P). unfold outside_projects. auto. Qed.

Lemma outside_projects_set_projects (v : value) (s : State) :
  outside_projects s (set_projects v s).
Proof. unfold outside_projects, same_process. repeat split; reflexivity. Qed.

(** The opening of every command. *)
Lemma command_opening (args : Args) (cmd msg : string) (s : State) :
  exists s1,
    only_logged s s1
    /\ forall B (k : unit -> M B),
         bind (process_arguments args cmd) (fun _ => bind (Log_info msg) k) s
         = k tt s1.
Proof.
  destruct (process_arguments_only_logs args cmd s) as (s1 & R1 & L1).
  exists (log_many [(INFO, msg)] s1). split; [solve_only_logged|].
  intros B k.
  erewrite bind_run by exact R1. unfold Log_info. now rewrite bind_log.
Qed.


Lemma try_except_raise {A} (m : M A) (h : PyExn -> M A) (s s1 : State)
    (e : PyExn) :
  m s = (Raise e, s1) -> try_except m h s = h e s1.
Proof. intros H. unfold try_except. now rewrite H. Qed.

Lemma load_from_file_fails (file_name : string) (s : State) :
  unreadable (load_file (env s) (cwd s) file_name) ->
  exists e s', load_from_file file_name s = (Raise e, s') /\ only_logged s s'.
Proof.
  intros Hload. unfold load_from_file, Log_info, Log_error, Log_success.
  do 2 run_step. rewrite env_log_many, cwd_log_many.
  destruct Hload as [(msg & ->)|(msg & ->)].
  - do 2 run_step. unfold raise.
    do 2 eexists. split; [reflexivity | solve_only_logged].
  - run_step. unfold load_from_buffer, Log_info, Log_error.
    do 2 run_step. unfold raise.
    do 2 eexists. split; [reflexivity | solve_only_logged].
Qed.

Lemma load_projects_fails (file_name : option string) (s : State) :
  unreadable (load_file (env s) (cwd s) (projects_file_name file_name)) ->
  exists s',
    only_logged s s'
    /\ forall B (k : unit -> M B),
         bind (load_projects file_name) k s
         = (Raise (VerHelError ExitCodes.FAILED_TO_LOAD_PROJECTS), s').
Proof.
  intros Hload.
  destruct (load_from_file_fails (projects_file_name file_name)
              (log_many [(INFO, "loading projects description from '"
                                ++ projects_file_name file_name ++ "'")] s))
    as (e & s2 & R2 & L2).
  { now rewrite env_log_many, cwd_log_many. }
  exists (log_many [(FATAL, "failed to load projects")] s2).
  split; [solve_only_logged|]. intros B k.
  unfold load_projects.
  fold (projects_file_name file_name).
  unfold Log_info, Log_fatal. do 2 run_step.
  run_step. erewrite bind_run.
  2:{ erewrite try_except_raise
        by (erewrite bind_run_raise by exact R2; reflexivity).
      reflexivity. }
  cbn iota beta. do 2 run_step. now rewrite bind_raise.
Qed.

Lemma projects_set_projects (v : value) (s : State) :
  projects (set_projects v s) = v.
Proof. reflexivity. Qed.

Lemma same_process_set_projects (v : value) (s : State) :
  same_process s (set_projects v s).
Proof. unfold same_process. repeat split; reflexivity. Qed.

(** A valid name that is a key of the project is returned as it is, and
    is no backend key. *)
Lemma project_key_valid (key : string) :
  dict_mem empty_project key = true ->
  check_if_name_is_valid key = ret key
  /\ starts_with "backends." key = false
  /\ dict_mem default_project key = true.
Proof.
  unfold dict_mem, empty_project, default_project. cbn [dict_find].
  repeat match goal with
         | |- context [String.eqb key ?c] =>
             destruct (String.eqb_spec key c) as [->|?]
         end; try discriminate; intros _; repeat split; reflexivity.
Qed.

(** Loading the store and finding the project in it. *)
Lemma load_and_find (file_name : option string) (ps : dict)
    (pname : string) (d : dict) (s : State) :
  load_file (env s) (cwd s) (projects_file_name file_name)
  = LoadContent (Document (JObj ps)) ->
  dict_find ps pname = Some (JObj d) ->
  exists s',
    projects s' = JObj ps /\ outside_projects s s'
    /\ forall B (k : value -> M B),
         bind (load_projects file_name)
           (fun _ => bind (check_if_project_exists pname) k) s
         = k (JObj d) s'.
Proof.
  intros Hload Hd.
  destruct (load_projects_ok file_name ps s Hload)
    as (s1 & R1 & P1 & F1 & B1 & S1).
  destruct (check_if_project_exists_ok ps pname d s1 P1 Hd)
    as (s2 & R2 & L2).
  exists s2. split; [|split].
  - destruct L2 as (-> & _). exact P1.
  - eapply outside_projects_trans;
      [| apply only_logged_outside_projects; exact L2].
    unfold outside_projects. auto.
  - intros B k.
    erewrite bind_run by exact R1. now erewrite bind_run by exact R2.
Qed.

(** The same for a name the store has no descriptor for. *)
Lemma load_and_miss (file_name : option string) (ps : dict)
    (pname : string) (s : State) :
  load_file (env s) (cwd s) (projects_file_name file_name)
  = LoadContent (Document (JObj ps)) ->
  dict_get ps pname = JNull ->
  exists s',
    projects s' = JObj ps /\ outside_projects s s'
    /\ logged FATAL ("project '" ++ pname ++ "' doesn't exists") s'
    /\ forall B (k : value -> M B),
         bind (load_projects file_name)
           (fun _ => bind (check_if_project_exists pname) k) s
         = (Raise (VerHelError ExitCodes.PROJECT_DOESNT_EXISTS), s').
Proof.
  intros Hload Hd.
  destruct (load_projects_ok file_name ps s Hload)
    as (s1 & R1 & P1 & F1 & B1 & S1).
  exists (log_many [(FATAL, "project '" ++ pname ++ "' doesn't exists")]
            (log_many [(INFO, "checking if project '" ++ pname ++ "' exists")]
               s1)).
  split; [now rewrite !projects_log_many|].
  split.
  { eapply outside_projects_trans; [| apply outside_projects_log_many].
    eapply outside_projects_trans; [| apply outside_projects_log_many].
    unfold outside_projects. auto. }
  split; [apply log_many_logged; now left|].
  intros B k.
  erewrite bind_run by exact R1.
  unfold check_if_project_exists, get_project, Log_info, Log_fatal.
  repeat run_step. rewrite projects_log_many, P1. cbn [py_get]. rewrite Hd.
  repeat run_step. cbn [is_none]. repeat run_step. rewrite ?bind_raise.
  reflexivity.
Qed.

Lemma store_key_run {B} (ps : dict) (name key : string) (d : dict)
    (v : value) (k : unit -> M B) (s : State) :
  projects s = JObj ps ->
  dict_find ps name = Some (JObj d) ->
  bind (store_key name key v) k s
  = k tt (set_projects (JObj (dict_set ps name (JObj (dict_set d key v)))) s).
Proof.
  intros Hp Hd. unfold store_key. rewrite bind_modify. now rewrite Hp, Hd.
Qed.

(** Writing the store. *)
Lemma save_projects_ok (file_name : option string) (s : State) :
  write_text (env s) (cwd s) (projects_file_name file_name) = WriteOk ->
  exists s',
    save_projects file_name s = (Ok tt, s')
    /\ projects s' = projects s
    /\ written s'
       = (written s
          ++ [(cwd s, projects_file_name file_name, JsonData (projects s))])%list
    /\ printed s' = printed s.
Proof.
  intros Hw. unfold save_projects. fold (projects_file_name file_name).
  unfold Log_info, Log_success. do 2 run_step.
  rewrite env_log_many, cwd_log_many, Hw.
  do 2 run_step.
  eexists. split; [reflexivity|].
  rewrite !projects_log_many, !written_log_many, !printed_log_many.
  cbn [projects written printed add_written].
  rewrite !projects_log_many, !written_log_many, !printed_log_many.
  auto.
Qed.

Lemma save_projects_fails (file_name : option string) (msg : string)
    (s : State) :
  write_text (env s) (cwd s) (projects_file_name file_name) = WriteIOError msg ->
  exists s',
    save_projects file_name s
    = (Raise (VerHelError ExitCodes.FAILED_TO_SAVE_PROJECTS), s')
    /\ only_logged s s'.
Proof.
  intros Hw. unfold save_projects. fold (projects_file_name file_name).
  unfold Log_info, Log_error. do 2 run_step.
  rewrite env_log_many, cwd_log_many, Hw.
  do 2 run_step. unfold raise.
  eexists. split; [reflexivity | solve_only_logged].
Qed.

Lemma bind_caught {A B} (m : M A) (h : Z -> M A) (k : A -> M B)
    (s s1 : State) (code : Z) :
  m s = (Raise (VerHelError code), s1) ->
  bind (except_VerHelError m h) k s = bind (h code) k s1.
Proof.
  intros H. unfold bind at 1. now rewrite (except_VerHelError_caught _ _ _ _ _ H).
Qed.

Lemma bind_passed {A B} (m : M A) (h : Z -> M A) (k : A -> M B)
    (s s1 : State) (a : A) :
  m s = (Ok a, s1) -> bind (except_VerHelError m h) k s = k a s1.
Proof.
  intros H. apply bind_run. now apply except_VerHelError_ok.
Qed.

Ltac open_command s1 L1 :=
  match goal with
  | |- context [bind (process_arguments ?args ?cmd)
                  (fun _ => bind (Log_info ?msg) _) ?s] =>
      let R := fresh "R" in
      destruct (command_opening args cmd msg s) as (s1 & L1 & R);
      rewrite R; clear R
  end.


Lemma place_kept (s s1 s3 : State) :
  only_logged s s1 -> outside_projects s1 s3 ->
  env s3 = env s /\ cwd s3 = cwd s /\ written s3 = written s
  /\ printed s3 = printed s.
Proof.
  intros (_ & _ & _ & E1 & C1 & W1 & P1 & _) (_ & _ & E3 & C3 & W3 & P3 & _).
  repeat split; congruence.
Qed.

(** The end of [init], [delete] and [set]: the store is written and the
    command reports; a failed write ends the command with its code. *)
Lemma save_and_report (file_name : option string) (tail : M Z) (s : State) :
  (forall s1, exists s2,
      tail s1 = (Ok ExitCodes.SUCCESS, s2) /\ only_logged s1 s2) ->
  let w := write_text (env s) (cwd s) (projects_file_name file_name) in
  exists s',
    (failed <-
       except_VerHelError
         (save_projects file_name ;;; ret None)
         (fun code => ret (Some code)) ;;
     match failed with
     | Some code => ret code
     | None => tail
     end) s = (Ok (saved_exit w), s')
    /\ projects s' = projects s
    /\ written s'
       = saved_files w (written s)
           (cwd s, projects_file_name file_name, JsonData (projects s))
    /\ printed s' = printed s.
Proof.
  intros Htail w. subst w.
  destruct (write_text (env s) (cwd s) (projects_file_name file_name))
    as [msg|] eqn:Hw.
  - destruct (save_projects_fails file_name msg s Hw) as (s1 & R & L).
    erewrite bind_caught by (erewrite bind_run_raise by exact R; reflexivity).
    rewrite bind_ret. exists s1. split; [reflexivity|].
    destruct L as (P & _ & _ & _ & _ & W & Pr & _). cbn [saved_files]. auto.
  - destruct (save_projects_ok file_name s Hw) as (s1 & R & P & W & Pr).
    erewrite bind_passed by (erewrite bind_run by exact R; reflexivity).
    destruct (Htail s1) as (s2 & R2 & L2). exists s2. split; [exact R2|].
    destruct L2 as (P2 & _ & _ & _ & _ & W2 & Pr2 & _).
    cbn [saved_files]. rewrite P2, W2, Pr2. auto.
Qed.

Lemma set_run (args : Args) (ps d : dict) (stored : value) (s : State) :
  dict_mem empty_project (property_name args) = true ->
  new_value_stored (property_name args) (new_value args) = Some stored ->
  load_file (env s) (cwd s) (projects_file_name (projects_file args))
  = LoadContent (Document (JObj ps)) ->
  dict_find ps (project args) = Some (JObj d) ->
  let w :=
    write_text (env s) (cwd s) (projects_file_name (projects_file args)) in
  let ps' :=
    dict_set ps (project args)
      (JObj (dict_set d (property_name args) stored)) in
  exists s',
    set args s = (Ok (saved_exit w), s')
    /\ projects s' = JObj ps'
    /\ written s'
       = saved_files w (written s)
           (cwd s, projects_file_name (projects_file args),
            JsonData (JObj ps'))
    /\ printed s' = printed s.
Proof.
  intros Hkey Hstored Hload Hd w ps'.
  destruct (project_key_valid _ Hkey) as (Hvalid & Hnot_backend & Hdef).
  unfold set. open_command s1 L1.
  destruct (load_and_find (projects_file args) ps (project args) d s1)
    as (s3 & P3 & O3 & R3); [| exact Hd |].
  { destruct L1 as (_ & _ & _ & E & C & _). now rewrite E, C. }
  destruct (place_kept s s1 s3 L1 O3) as (E3 & C3 & W3 & Pr3).
  erewrite bind_passed by (rewrite Hvalid, bind_ret, R3; reflexivity).
  cbn iota beta. rewrite Hnot_backend. cbn [py_get]. repeat run_step.
  rewrite (dict_index_mem _ _ Hdef). repeat run_step.
  unfold new_value_stored in Hstored.
  assert (Hrun : forall old,
    exists s',
      (r <- (store_key (project args) (property_name args) stored ;;;
             ret (inl (old, stored))) ;;
       match r with
       | inr code => ret code
       | inl (old_value, new_value) =>
           failed <-
             except_VerHelError
               (save_projects (projects_file args) ;;; ret None)
               (fun code => ret (Some code)) ;;
           match failed with
           | Some code => ret code
           | None =>
               (if is_none old_value then
                  Log_success ("successfully set value for '"
                               ++ property_name args
                               ++ "', new value '" ++ py_str new_value ++ "'")
                else
                  Log_success ("successfully set value for '"
                               ++ property_name args
                               ++ "', old '" ++ py_str old_value ++ "' new '"
                               ++ py_str new_value ++ "'")) ;;;
               Log_info "set command finished" ;;;
               ret ExitCodes.SUCCESS
           end
       end) s3 = (Ok (saved_exit w), s')
      /\ projects s' = JObj ps'
      /\ written s'
         = saved_files w (written s)
             (cwd s, projects_file_name (projects_file args),
              JsonData (JObj ps'))
      /\ printed s' = printed s).
  { intros old. rewrite bind_assoc.
    rewrite (store_key_run ps _ _ d stored _ s3 P3 Hd). rewrite bind_ret.
    cbn iota beta.
    match goal with
    | |- context [bind (except_VerHelError _ _)
                    (fun failed => match failed with
                                   | Some code => ret code
                                   | None => ?tail
                                   end) ?s4] =>
        destruct (save_and_report (projects_file args) tail s4)
          as (s' & R & P & W & Pr)
    end.
    { intros s5. unfold Log_success, Log_info.
      destruct (is_none old); repeat run_step; unfold ret;
        (eexists; split; [reflexivity | solve_only_logged]). }
    exists s'. split.
    - rewrite R. cbn [env cwd set_projects]. subst w. now rewrite E3, C3.
    - rewrite P, W, Pr. cbn [projects written printed env cwd set_projects].
      subst w. rewrite E3, C3, W3, Pr3. auto. }
  destruct (type_of (dict_get default_project (property_name args)));
    try (injection Hstored as <-; apply Hrun).
  destruct (int_of_str (new_value args)) as [n|]; cbn [option_map] in Hstored;
    [|discriminate Hstored].
  injection Hstored as <-. apply Hrun.
Qed.

(** X4: [set] on a key of the project, for an existing project and a
    projects file that can be read: the descriptor takes the new value
    (as an integer for the three version numbers, as text for every
    other key) and the store is written to the projects file, with exit
    code [SUCCESS]; when the write fails the exit code is
    [FAILED_TO_SAVE_PROJECTS] and no file is written.  Nothing is
    printed. *)
Theorem set_stores_value :
  forall (args : Args) (ps d : dict) (stored : value) (s : State),
    dict_mem empty_project (property_name args) = true ->
    new_value_stored (property_name args) (new_value args) = Some stored ->
    load_file (env s) (cwd s) (projects_file_name (projects_file args))
    = LoadContent (Document (JObj ps)) ->
    dict_find ps (project args) = Some (JObj d) ->
    let w :=
      write_text (env s) (cwd s) (projects_file_name (projects_file args)) in
    let ps' :=
      dict_set ps (project args)
        (JObj (dict_set d (property_name args) stored)) in
    exists s',
      set args s = (Ok (saved_exit w), s')
      /\ projects s' = JObj ps'
      /\ written s'
         = saved_files w (written s)
             (cwd s, projects_file_name (projects_file args),
              JsonData (JObj ps'))
      /\ printed s' = printed s.
Proof. exact set_run. Qed.

Lemma valid_name_accepted (name : string) :
  valid_name name = true -> exists key, check_if_name_is_valid name = ret key.
Proof.
  unfold valid_name, check_if_name_is_valid.
  destruct (starts_with "backends." name).
  - destruct (Nat.eqb _ 0); [discriminate | eauto].
  - intros ->. cbn [negb]. eauto.
Qed.

Lemma valid_name_refused (name : string) (s : State) :
  valid_name name = false ->
  exists s',
    only_logged s s'
    /\ forall B (k : string -> M B),
         bind (check_if_name_is_valid name) k s
         = (Raise (VerHelError ExitCodes.INVALID_KEY), s').
Proof.
  unfold valid_name, check_if_name_is_valid, Log_fatal.
  destruct (starts_with "backends." name).
  - destruct (Nat.eqb _ 0); [intros _ | discriminate].
    eexists. split; [|intros B k; repeat run_step; now rewrite bind_raise].
    solve_only_logged.
  - intros ->. cbn [negb].
    eexists. split; [|intros B k; repeat run_step; now rewrite bind_raise].
    solve_only_logged.
Qed.

(** X5: a project the store has no descriptor for.  [delete], [validate]
    and [generate], and [get] and [set] for a valid property name, return
    [PROJECT_DOESNT_EXISTS] and log the FATAL message
    [project '<name>' doesn't exists]; the store is the one that was
    loaded, no frontend or backend descriptor is loaded, no command is
    run and no file is written. *)
Theorem unknown_project_stops_command :
  forall (args : Args) (ps : dict) (s : State) (cmd : Args -> M Z),
    load_file (env s) (cwd s) (projects_file_name (projects_file args))
    = LoadContent (Document (JObj ps)) ->
    dict_get ps (project args) = JNull ->
    In cmd [delete; validate; generate]
    \/ (In cmd [get; set] /\ valid_name (property_name args) = true) ->
    exists s',
      cmd args s = (Ok ExitCodes.PROJECT_DOESNT_EXISTS, s')
      /\ logged FATAL ("project '" ++ project args ++ "' doesn't exists") s'
      /\ projects s' = JObj ps
      /\ frontends s' = frontends s
      /\ nothing_produced s s'.
Proof.
  intros args ps s cmd Hload Hd Hcmd.
  assert (Hmiss : forall s1, only_logged s s1 ->
            exists s',
              (logged FATAL ("project '" ++ project args ++ "' doesn't exists")
                 s'
               /\ projects s' = JObj ps
               /\ frontends s' = frontends s
               /\ nothing_produced s s')
              /\ forall B (k : value -> M B),
                   bind (load_projects (projects_file args))
                     (fun _ => bind (check_if_project_exists (project args)) k)
                     s1
                   = (Raise (VerHelError ExitCodes.PROJECT_DOESNT_EXISTS), s')).
  { intros s1 L1.
    destruct (load_and_miss (projects_file args) ps (project args) s1)
      as (s' & P & O & G & R); [| exact Hd |].
    - destruct L1 as (_ & _ & _ & E & C & _). now rewrite E, C.
    - exists s'. split; [|exact R]. split; [exact G|]. split; [exact P|].
      apply outside_projects_nothing_produced.
      eapply outside_projects_trans;
        [apply only_logged_outside_projects; exact L1 | exact O]. }
  destruct Hcmd as [Hin|[Hin Hname]]; cbn [In] in Hin.
  - destruct Hin as [<-|[<-|[<-|[]]]].
    + unfold delete. open_command s1 L1.
      destruct (Hmiss s1 L1) as (s' & O & R).
      erewrite bind_caught by apply R. rewrite bind_ret.
      exists s'. split; [reflexivity | exact O].
    + unfold validate. open_command s1 L1.
      destruct (Hmiss s1 L1) as (s' & O & R).
      erewrite bind_caught by apply R. rewrite bind_ret.
      exists s'. split; [reflexivity | exact O].
    + unfold generate. open_command s1 L1.
      destruct (Hmiss s1 L1) as (s' & O & R).
      erewrite bind_caught by apply R. rewrite bind_ret.
      exists s'. split; [reflexivity | exact O].
  - destruct (valid_name_accepted _ Hname) as (key & Hkey).
    destruct Hin as [<-|[<-|[]]].
    + unfold get. open_command s1 L1.
      destruct (Hmiss s1 L1) as (s' & O & R).
      erewrite bind_caught by (rewrite Hkey, bind_ret; apply R).
      rewrite bind_ret. exists s'. split; [reflexivity | exact O].
    + unfold set. open_command s1 L1.
      destruct (Hmiss s1 L1) as (s' & O & R).
      erewrite bind_caught by (rewrite Hkey, bind_ret; apply R).
      rewrite bind_ret. exists s'. split; [reflexivity | exact O].
Qed.

(** X6: a projects file that cannot be read or holds no JSON.  [delete],
    [validate] and [generate], [get] and [set] for a valid property name,
    and [init] when the file exists, return [FAILED_TO_LOAD_PROJECTS], and
    only the log has changed. *)
Theorem unreadable_projects_file_stops_command :
  forall (args : Args) (s : State) (cmd : Args -> M Z),
    unreadable
      (load_file (env s) (cwd s) (projects_file_name (projects_file args))) ->
    In cmd [delete; validate; generate]
    \/ (In cmd [get; set] /\ valid_name (property_name args) = true)
    \/ (cmd = init
        /\ exists file, projects_file args = Some file
                        /\ dir_exists (env s) (cwd s) file = true) ->
    exists s',
      cmd args s = (Ok ExitCodes.FAILED_TO_LOAD_PROJECTS, s')
      /\ only_logged s s'.
Proof.
  intros args s cmd Hload Hcmd.
  assert (Hfail : forall s1, only_logged s s1 ->
            exists s',
              only_logged s s'
              /\ forall B (k : unit -> M B),
                   bind (load_projects (projects_file args)) k s1
                   = (Raise (VerHelError ExitCodes.FAILED_TO_LOAD_PROJECTS),
                      s')).
  { intros s1 L1.
    destruct (load_projects_fails (projects_file args) s1) as (s' & L & R).
    - destruct L1 as (_ & _ & _ & E & C & _). now rewrite E, C.
    - exists s'. split; [|exact R]. eapply only_logged_trans; eauto. }
  destruct Hcmd as [Hin|[[Hin Hname]|[-> (file & Hfile & Hex)]]];
    try cbn [In] in Hin.
  - destruct Hin as [<-|[<-|[<-|[]]]].
    + unfold delete. open_command s1 L1.
      destruct (Hfail s1 L1) as (s' & L & R).
      erewrite bind_caught by apply R. rewrite bind_ret.
      exists s'. auto.
    + unfold validate. open_command s1 L1.
      destruct (Hfail s1 L1) as (s' & L & R).
      erewrite bind_caught by apply R. rewrite bind_ret.
      exists s'. auto.
    + unfold generate. open_command s1 L1.
      destruct (Hfail s1 L1) as (s' & L & R).
      erewrite bind_caught by apply R. rewrite bind_ret.
      exists s'. auto.
  - destruct (valid_name_accepted _ Hname) as (key & Hkey).
    destruct Hin as [<-|[<-|[]]].
    + unfold get. open_command s1 L1.
      destruct (Hfail s1 L1) as (s' & L & R).
      erewrite bind_caught by (rewrite Hkey, bind_ret; apply R).
      rewrite bind_ret. exists s'. auto.
    + unfold set. open_command s1 L1.
      destruct (Hfail s1 L1) as (s' & L & R).
      erewrite bind_caught by (rewrite Hkey, bind_ret; apply R).
      rewrite bind_ret. exists s'. auto.
  - unfold init. open_command s1 L1. rewrite Hfile in *.
    destruct (Hfail s1 L1) as (s' & L & R).
    run_step.
    assert (Hex1 : dir_exists (env s1) (cwd s1) file = true).
    { destruct L1 as (_ & _ & _ & E & C & _). now rewrite E, C. }
    rewrite Hex1. run_step.
    erewrite bind_caught by apply R. repeat run_step. unfold ret.
    exists s'. auto.
Qed.

(** X7: [get] and [set] refuse a property name that is neither a key of
    the project nor [backends.] followed by a name: they return
    [INVALID_KEY] before the projects file is read, and only the log has
    changed. *)
Theorem invalid_property_name_stops_command :
  forall (args : Args) (s : State) (cmd : Args -> M Z),
    valid_name (property_name args) = false ->
    In cmd [get; set] ->
    exists s',
      cmd args s = (Ok ExitCodes.INVALID_KEY, s') /\ only_logged s s'.
Proof.
  intros args s cmd Hname Hin. cbn [In] in Hin.
  destruct Hin as [<-|[<-|[]]].
  - unfold get. open_command s1 L1.
    destruct (valid_name_refused _ s1 Hname) as (s' & L & R).
    erewrite bind_caught by apply R. rewrite bind_ret.
    exists s'. split; [reflexivity|]. eapply only_logged_trans; eauto.
  - unfold set. open_command s1 L1.
    destruct (valid_name_refused _ s1 Hname) as (s' & L & R).
    erewrite bind_caught by apply R. rewrite bind_ret.
    exists s'. split; [reflexivity|]. eapply only_logged_trans; eauto.
Qed.

(** *** [set] and validation *)

Lemma stored_type (key text : string) (t : PyType) (v : value) :
  In (key, t) typed_keys -> key <> "exclude" ->
  new_value_stored key text = Some v -> type_of v = t.
Proof.
  unfold typed_keys. cbn [In]. intros Hin Hne.
  repeat (destruct Hin as [Hin|Hin];
          [injection Hin as <- <-; unfold new_value_stored;
           cbn [default_project dict_get dict_find String.eqb Ascii.eqb
                  Bool.eqb type_of];
           try (destruct (int_of_str text); cbn [option_map]);
           intros H; try discriminate H; try (now contradiction Hne);
           now injection H as <- |]).
  destruct Hin.
Qed.

Lemma valid_after_set (d : dict) (key text : string) (v : value) :
  valid_descriptor d ->
  dict_mem empty_project key = true ->
  new_value_stored key text = Some v ->
  valid_descriptor (dict_set d key v)
  <-> key <> "backends" /\ key <> "exclude".
Proof.
  intros [Hkeys Hbk] Hkey Hv. split.
  - intros [Hkeys' Hbk']. split; intros ->.
    + rewrite dict_get_set_same in Hbk'.
      unfold new_value_stored in Hv. cbn in Hv. injection Hv as <-.
      destruct Hbk' as [H|(entries & H & _)]; discriminate H.
    + specialize (Hkeys' "exclude" TList).
      unfold typed_or_null in Hkeys'. rewrite dict_get_set_same in Hkeys'.
      unfold new_value_stored in Hv. cbn in Hv. injection Hv as <-.
      cbn in Hkeys'. discriminate Hkeys'.
      unfold typed_keys. cbn [In]. tauto.
  - intros [Hb He]. split.
    + intros k t Hin. unfold typed_or_null.
      destruct (String.eqb_spec k key) as [->|Hne].
      * rewrite dict_get_set_same.
        rewrite (stored_type key text t v Hin He Hv).
        destruct t; reflexivity.
      * rewrite dict_get_set_other by exact Hne. now apply Hkeys.
    + rewrite dict_get_set_other by congruence. exact Hbk.
Qed.

(** X8: [set] and validation.  After a successful [set] on a valid
    project, the project is still valid, unless the key is [backends] or
    [exclude]: there the new value is stored as text in the place of a
    list, and the project no longer validates. *)
Theorem set_then_validate :
  forall (args : Args) (ps d : dict) (stored : value) (s : State),
    dict_mem empty_project (property_name args) = true ->
    new_value_stored (property_name args) (new_value args) = Some stored ->
    load_file (env s) (cwd s) (projects_file_name (projects_file args))
    = LoadContent (Document (JObj ps)) ->
    dict_find ps (project args) = Some (JObj d) ->
    validate_checks (JObj d) = Ok tt ->
    exists s' d',
      set args s
      = (Ok (saved_exit
               (write_text (env s) (cwd s)
                  (projects_file_name (projects_file args)))), s')
      /\ projects s' = JObj (dict_set ps (project args) (JObj d'))
      /\ (validate_checks (JObj d') = Ok tt
          <-> property_name args <> "backends"
              /\ property_name args <> "exclude").
Proof.
  intros args ps d stored s Hkey Hstored Hload Hd Hvalid.
  destruct (set_run args ps d stored s Hkey Hstored Hload Hd)
    as (s' & R & P & _).
  exists s', (dict_set d (property_name args) stored).
  split; [exact R|]. split; [exact P|].
  rewrite validate_checks_valid.
  apply (valid_after_set d _ (new_value args)); [|exact Hkey|exact Hstored].
  now apply validate_checks_valid.
Qed.

Lemma backend_name_accepted (bk : string) :
  bk <> "" -> check_if_name_is_valid ("backends." ++ bk) = ret bk.
Proof.
  intros Hne. unfold check_if_name_is_valid. simpl.
  destruct bk; [contradiction | reflexivity].
Qed.

(** X9: [set] on [backends.<name>].  The name the check returns has lost
    its prefix, so the command takes the way of the plain keys and looks
    the name up in the default project: for a name that is no key of the
    project it raises [KeyError]; the store is the one that was loaded
    and nothing is written. *)
Theorem set_backend_raises_key_error :
  forall (args : Args) (ps d : dict) (bk : string) (s : State),
    property_name args = "backends." ++ bk ->
    bk <> "" ->
    starts_with "backends." bk = false ->
    dict_mem empty_project bk = false ->
    load_file (env s) (cwd s) (projects_file_name (projects_file args))
    = LoadContent (Document (JObj ps)) ->
    dict_find ps (project args) = Some (JObj d) ->
    exists s',
      set args s = (Raise (KeyError bk), s')
      /\ projects s' = JObj ps
      /\ outside_projects s s'.
Proof.
  intros args ps d bk s Hname Hne Hpre Hmem Hload Hd.
  unfold set. open_command s1 L1.
  destruct (load_and_find (projects_file args) ps (project args) d s1)
    as (s3 & P3 & O3 & R3); [| exact Hd |].
  { destruct L1 as (_ & _ & _ & E & C & _). now rewrite E, C. }
  erewrite bind_passed
    by (rewrite Hname, (backend_name_accepted bk Hne), bind_ret, R3;
        reflexivity).
  cbn iota beta. rewrite Hpre. cbn [py_get]. repeat run_step.
  assert (Hdef : dict_index default_project bk = Raise (KeyError bk)).
  { revert Hmem. unfold dict_mem, dict_index, empty_project, default_project.
    cbn [dict_find].
    repeat match goal with
           | |- context [String.eqb bk ?c] => destruct (String.eqb bk c)
           end; intros H; try discriminate H; reflexivity. }
  rewrite Hdef, bind_lift_raise.
  exists s3. split; [reflexivity|]. split; [exact P3|].
  eapply outside_projects_trans;
    [apply only_logged_outside_projects; exact L1 | exact O3].
Qed.

(** *** [delete] *)

Lemma dict_find_remove_same (d : dict) (k : string) :
  dict_wf d -> dict_find (dict_remove d k) k = None.
Proof.
  unfold dict_wf. induction d as [|[k' v] d IH]; intros Hwf; [reflexivity|].
  cbn [dict_keys map fst] in Hwf. inversion Hwf as [|? ? Hnin Hnd]; subst.
  cbn [dict_remove]. destruct (String.eqb_spec k k') as [->|Hne].
  - clear IH Hwf Hnd. induction d as [|[k0 v0] d IH]; [reflexivity|].
    cbn [dict_find]. cbn [dict_keys map fst In] in Hnin.
    destruct (String.eqb_spec k' k0) as [->|_]; [tauto|]. apply IH. tauto.
  - cbn [dict_find]. destruct (String.eqb_spec k k'); [contradiction|].
    now apply IH.
Qed.

Lemma dict_find_remove_other (d : dict) (k k' : string) :
  k' <> k -> dict_find (dict_remove d k) k' = dict_find d k'.
Proof.
  intros Hne. induction d as [|[k0 v0] d IH]; [reflexivity|].
  cbn [dict_remove]. destruct (String.eqb_spec k k0) as [->|Hk].
  - cbn [dict_find]. destruct (String.eqb_spec k' k0); [contradiction|].
    reflexivity.
  - cbn [dict_find]. now rewrite IH.
Qed.

(** X10: [delete] for an existing project and a projects file that can be
    read.  The store without the project is written to the projects file
    and the exit code is [SUCCESS] ([FAILED_TO_SAVE_PROJECTS], and no file,
    when the write fails); in the new store the name is absent and every
    other name has the descriptor it had. *)
Theorem delete_removes_project :
  forall (args : Args) (ps d : dict) (s : State),
    dict_wf ps ->
    load_file (env s) (cwd s) (projects_file_name (projects_file args))
    = LoadContent (Document (JObj ps)) ->
    dict_find ps (project args) = Some (JObj d) ->
    let w :=
      write_text (env s) (cwd s) (projects_file_name (projects_file args)) in
    exists s' ps',
      delete args s = (Ok (saved_exit w), s')
      /\ projects s' = JObj ps'
      /\ written s'
         = saved_files w (written s)
             (cwd s, projects_file_name (projects_file args),
              JsonData (JObj ps'))
      /\ printed s' = printed s
      /\ dict_find ps' (project args) = None
      /\ forall name, name <> project args ->
           dict_find ps' name = dict_find ps name.
Proof.
  intros args ps d s Hwf Hload Hd w.
  unfold delete. open_command s1 L1.
  destruct (load_and_find (projects_file args) ps (project args) d s1)
    as (s3 & P3 & O3 & R3); [| exact Hd |].
  { destruct L1 as (_ & _ & _ & E & C & _). now rewrite E, C. }
  destruct (place_kept s s1 s3 L1 O3) as (E3 & C3 & W3 & Pr3).
  erewrite bind_passed by (rewrite R3; reflexivity).
  cbn iota beta. run_step. rewrite P3. cbn [py_pop].
  unfold dict_mem. rewrite Hd. repeat run_step.
  match goal with
  | |- context [bind (except_VerHelError _ _)
                  (fun failed => match failed with
                                 | Some code => ret code
                                 | None => ?tail
                                 end) ?s4] =>
      destruct (save_and_report (projects_file args) tail s4)
        as (s' & R & P & W & Pr)
  end.
  { intros s5. unfold Log_success, Log_info. repeat run_step. unfold ret.
    eexists. split; [reflexivity | solve_only_logged]. }
  exists s', (dict_remove ps (project args)).
  split; [|split; [|split; [|split; [|split]]]].
  - rewrite R. cbn [env cwd set_projects]. subst w. now rewrite E3, C3.
  - rewrite P. reflexivity.
  - rewrite W. cbn [projects written env cwd set_projects].
    subst w. now rewrite E3, C3, W3.
  - rewrite Pr. cbn [printed set_projects]. exact Pr3.
  - now apply dict_find_remove_same.
  - intros name Hne. now apply dict_find_remove_other.
Qed.

(** *** [init] *)

Lemma dict_set_fresh (d : dict) (k : string) (v : value) :
  ~ In k (dict_keys d) -> dict_set d k v = (d ++ [(k, v)])%list.
Proof.
  induction d as [|[k' v'] d IH]; intros Hnin; [reflexivity|].
  cbn [dict_keys map fst In] in Hnin. cbn [dict_set app].
  destruct (String.eqb_spec k k') as [->|_]; [tauto|].
  rewrite IH by tauto. reflexivity.
Qed.

Lemma name_collision (names : list string) (name : string) :
  existsb (fun n => String.eqb n name) names = true <-> In name names.
Proof.
  rewrite existsb_exists. split.
  - intros (n & Hin & Heq). apply String.eqb_eq in Heq. now subst.
  - intros Hin. exists name. split; [exact Hin | apply String.eqb_refl].
Qed.

(** X11: [init] with a name the store does not have.  The store the new
    project is added to is the one read from the projects file when the
    file exists, and the one of the instance when it does not; the empty
    project is added last under the name, the store is written to the
    projects file and the exit code is [SUCCESS]
    ([FAILED_TO_SAVE_PROJECTS], and no file, when the write fails). *)
Theorem init_adds_empty_project :
  forall (args : Args) (file : string) (start : dict) (s : State),
    projects_file args = Some file ->
    (if dir_exists (env s) (cwd s) file
     then load_file (env s) (cwd s) file = LoadContent (Document (JObj start))
     else projects s = JObj start) ->
    ~ In (project args) (dict_keys start) ->
    let w := write_text (env s) (cwd s) file in
    let ps' := (start ++ [(project args, JObj empty_project)])%list in
    exists s',
      init args s = (Ok (saved_exit w), s')
      /\ projects s' = JObj ps'
      /\ written s'
         = saved_files w (written s) (cwd s, file, JsonData (JObj ps'))
      /\ printed s' = printed s.
Proof.
  intros args file start s Hfile Hstart Hfresh w ps'.
  unfold init. open_command s1 L1. rewrite Hfile.
  assert (E1 : env s1 = env s) by now destruct L1 as (_ & _ & _ & E & _).
  assert (C1 : cwd s1 = cwd s) by now destruct L1 as (_ & _ & _ & _ & C & _).
  run_step. rewrite E1, C1.
  assert (Hnext : forall s3,
    projects s3 = JObj start -> outside_projects s1 s3 ->
    exists s',
      (s <- get_state ;;
       root <- lift (py_setitem (projects s) (project args)
                       (JObj empty_project)) ;;
       modify (set_projects root) ;;;
       failed <-
         except_VerHelError
           (save_projects (Some file) ;;; ret None)
           (fun code => ret (Some code)) ;;
       match failed with
       | Some code => ret code
       | None =>
           Log_success ("successfully added new project '"
                        ++ project args ++ "'") ;;;
           ret ExitCodes.SUCCESS
       end) s3 = (Ok (saved_exit w), s')
      /\ projects s' = JObj ps'
      /\ written s'
         = saved_files w (written s) (cwd s, file, JsonData (JObj ps'))
      /\ printed s' = printed s).
  { intros s3 P3 O3.
    destruct (place_kept s s1 s3 L1 O3) as (E3 & C3 & W3 & Pr3).
    run_step. rewrite P3. cbn [py_setitem]. repeat run_step.
    rewrite (dict_set_fresh _ _ _ Hfresh). fold ps'.
    match goal with
    | |- context [bind (except_VerHelError _ _)
                    (fun failed => match failed with
                                   | Some code => ret code
                                   | None => ?tail
                                   end) ?s4] =>
        destruct (save_and_report (Some file) tail s4)
          as (s' & R & P & W & Pr)
    end.
    { intros s5. unfold Log_success. repeat run_step. unfold ret.
      eexists. split; [reflexivity | solve_only_logged]. }
    exists s'. split; [|split; [|split]].
    - rewrite R. cbn [env cwd set_projects projects_file_name].
      subst w. now rewrite E3, C3.
    - rewrite P. reflexivity.
    - rewrite W. cbn [projects written env cwd set_projects projects_file_name].
      subst w. now rewrite E3, C3, W3.
    - rewrite Pr. cbn [printed set_projects]. exact Pr3. }
  destruct (dir_exists (env s) (cwd s) file).
  - destruct (load_projects_ok (Some file) start s1)
      as (s3 & R3 & P3 & F3 & B3 & S3).
    { cbn iota. now rewrite E1, C1. }
    rewrite bind_assoc.
    erewrite bind_passed by (erewrite bind_run by exact R3; reflexivity).
    cbn iota beta. repeat run_step. rewrite P3. cbn [py_items].
    repeat run_step.
    destruct (existsb (fun name => String.eqb name (project args))
                (dict_keys start)) eqn:Hex.
    { apply name_collision in Hex. contradiction. }
    repeat run_step. apply Hnext; [exact P3|].
    unfold outside_projects. auto.
  - run_step. apply Hnext.
    + destruct L1 as (-> & _). exact Hstart.
    + apply outside_projects_refl.
Qed.

(** X12: [init] with a name the projects file already has returns
    [PROJECT_ALREADY_EXISTS]; the store is the one that was loaded and
    nothing is written. *)
Theorem init_existing_project :
  forall (args : Args) (file : string) (ps : dict) (s : State),
    projects_file args = Some file ->
    dir_exists (env s) (cwd s) file = true ->
    load_file (env s) (cwd s) file = LoadContent (Document (JObj ps)) ->
    In (project args) (dict_keys ps) ->
    exists s',
      init args s = (Ok ExitCodes.PROJECT_ALREADY_EXISTS, s')
      /\ projects s' = JObj ps
      /\ outside_projects s s'.
Proof.
  intros args file ps s Hfile Hex Hload Hin.
  unfold init. open_command s1 L1. rewrite Hfile.
  assert (E1 : env s1 = env s) by now destruct L1 as (_ & _ & _ & E & _).
  assert (C1 : cwd s1 = cwd s) by now destruct L1 as (_ & _ & _ & _ & C & _).
  run_step. rewrite E1, C1, Hex.
  destruct (load_projects_ok (Some file) ps s1)
    as (s3 & R3 & P3 & F3 & B3 & S3).
  { cbn iota. now rewrite E1, C1. }
  rewrite bind_assoc.
  erewrite bind_passed by (erewrite bind_run by exact R3; reflexivity).
  cbn iota beta. repeat run_step. rewrite P3. cbn [py_items].
  repeat run_step. apply name_collision in Hin. rewrite Hin.
  unfold Log_fatal. repeat run_step. unfold ret.
  eexists. split; [reflexivity|]. split.
  - now rewrite projects_log_many.
  - eapply outside_projects_trans; [| apply outside_projects_log_many].
    eapply outside_projects_trans;
      [apply only_logged_outside_projects; exact L1|].
    unfold outside_projects. auto.
Qed.

(** X13: [init] without a projects file
    raises [TypeError] where the path is built; only the log has
    changed. *)
Theorem init_requires_projects_file :
  forall (args : Args) (s : State),
    projects_file args = None ->
    exists message s',
      init args s = (Raise (TypeError message), s') /\ only_logged s s'.
Proof.
  intros args s Hfile. unfold init. open_command s1 L1. rewrite Hfile.
  unfold raise. eauto.
Qed.

(** *** [validate] *)

(** X14: the [validate] command for an existing project: when the
    descriptor passes the checks the exit code is [SUCCESS] and the
    command prints [OK] unless [--quiet] was given; otherwise the exit
    code is [PROJECT_VALIDATION_FAILED] and the FATAL message
    [failed to validate project '<name>'] is logged.  The store is the
    one that was loaded and no file is written. *)
Theorem validate_reports :
  forall (args : Args) (ps d : dict) (s : State),
    load_file (env s) (cwd s) (projects_file_name (projects_file args))
    = LoadContent (Document (JObj ps)) ->
    dict_find ps (project args) = Some (JObj d) ->
    exists s',
      (if is_ok (validate_checks (JObj d))
       then
         validate args s = (Ok ExitCodes.SUCCESS, s')
         /\ printed s'
            = (printed s ++ if quiet args then [] else ["OK"])%list
       else
         validate args s = (Ok ExitCodes.PROJECT_VALIDATION_FAILED, s')
         /\ logged FATAL
              ("failed to validate project '" ++ project args ++ "'") s')
      /\ projects s' = JObj ps
      /\ written s' = written s.
Proof.
  intros args ps d s Hload Hd.
  unfold validate. open_command s1 L1.
  destruct (load_and_find (projects_file args) ps (project args) d s1)
    as (s3 & P3 & O3 & R3); [| exact Hd |].
  { destruct L1 as (_ & _ & _ & E & C & _). now rewrite E, C. }
  destruct (place_kept s s1 s3 L1 O3) as (E3 & C3 & W3 & Pr3).
  destruct (validate_checks (JObj d)) as [[]|e] eqn:Hv; cbn [is_ok].
  - destruct (validate_project_passes ps (project args) d s3 P3
                (dict_find_get _ _ _ Hd) Hv) as (msgs & Rv & _).
    erewrite bind_passed
      by (rewrite R3; erewrite bind_run by exact Rv; reflexivity).
    cbn iota beta. unfold print, Log_success.
    destruct (quiet args); cbn [negb]; repeat run_step; unfold ret;
      (eexists; split; [split; [reflexivity|]|]);
      rewrite ?printed_log_many, ?projects_log_many, ?written_log_many;
      cbn [printed projects written add_printed];
      rewrite ?printed_log_many, ?projects_log_many, ?written_log_many;
      rewrite ?app_nil_r; rewrite ?P3, ?W3, ?Pr3; auto.
  - erewrite bind_caught
      by (rewrite R3;
          erewrite bind_run_raise
            by (apply (validate_project_fails ps (project args) (JObj d) e s3
                         P3 (dict_find_get _ _ _ Hd) Hv));
          reflexivity).
    rewrite bind_ret. eexists. split; [split; [reflexivity|]|].
    + apply log_many_logged. cbn [In]. auto.
    + rewrite !projects_log_many, !written_log_many. auto.
Qed.

(** *** [get] *)

(** X15: [get] on a key of the project, for an existing project: the
    value the descriptor has under the key is printed as [str()] gives it
    (null as [None]) and the exit code is [SUCCESS]; for a descriptor
    that does not have the key the command raises [KeyError] and prints
    nothing.  Nothing is written. *)
Theorem get_prints_value :
  forall (args : Args) (ps d : dict) (s : State),
    dict_mem empty_project (property_name args) = true ->
    load_file (env s) (cwd s) (projects_file_name (projects_file args))
    = LoadContent (Document (JObj ps)) ->
    dict_find ps (project args) = Some (JObj d) ->
    exists s',
      match dict_find d (property_name args) with
      | Some v =>
          get args s = (Ok ExitCodes.SUCCESS, s')
          /\ printed s' = (printed s ++ [py_str v])%list
      | None =>
          get args s = (Raise (KeyError (property_name args)), s')
          /\ printed s' = printed s
      end
      /\ projects s' = JObj ps
      /\ written s' = written s.
Proof.
  intros args ps d s Hkey Hload Hd.
  destruct (project_key_valid _ Hkey) as (Hvalid & Hnot_backend & _).
  unfold get. open_command s1 L1.
  destruct (load_and_find (projects_file args) ps (project args) d s1)
    as (s3 & P3 & O3 & R3); [| exact Hd |].
  { destruct L1 as (_ & _ & _ & E & C & _). now rewrite E, C. }
  destruct (place_kept s s1 s3 L1 O3) as (E3 & C3 & W3 & Pr3).
  erewrite bind_passed by (rewrite Hvalid, bind_ret, R3; reflexivity).
  cbn iota beta. rewrite Hnot_backend. cbn [py_index]. unfold dict_index.
  destruct (dict_find d (property_name args)) as [v|].
  - unfold print, Log_success, Log_info. repeat run_step. unfold ret.
    eexists. split; [split; [reflexivity|]|].
    + rewrite !printed_log_many. cbn [printed add_printed]. now rewrite Pr3.
    + rewrite !projects_log_many, !written_log_many.
      cbn [projects written add_printed]. auto.
  - rewrite bind_assoc, bind_lift_raise. exists s3. auto.
Qed.

(** The first entry of [entries] with the name [bk]. *)
Lemma find_backend_entries (entries : list (string * string)) (bk : string)
    (i : nat) :
  match find (fun e => String.eqb (fst e) bk) entries with
  | Some e =>
      exists j,
        find_backend (map backend_entry entries) bk i = Ok (i + j)%nat
        /\ nth_error entries j = Some e
  | None =>
      find_backend (map backend_entry entries) bk i
      = Ok (i + List.length entries)%nat
  end.
Proof.
  revert i. induction entries as [|[n o] entries IH]; intros i.
  - cbn. now rewrite Nat.add_0_r.
  - cbn [find fst map find_backend backend_entry snd py_get res_bind].
    unfold dict_get. cbn [dict_find]. rewrite (String.eqb_sym bk n).
    destruct (String.eqb n bk); cbn [is_none negb].
    + exists 0%nat. now rewrite Nat.add_0_r.
    + specialize (IH (S i)).
      destruct (find (fun e => String.eqb (fst e) bk) entries) as [e|].
      * destruct IH as (j & Hj & He). exists (S j).
        now rewrite Nat.add_succ_r.
      * cbn [List.length]. now rewrite Nat.add_succ_r.
Qed.

(** X16: [get] on [backends.<name>], for an existing project whose
    [backends] is a list of single-key entries: the command prints the
    output of the first entry with that name, with exit code [SUCCESS];
    when no entry has the name the exit code is [BACKEND_DOESNT_EXISTS]
    and the FATAL message [backend '<name>' doesn't exists] is logged.
    The store is the one that was loaded and no file is written. *)
Theorem get_backend_output :
  forall (args : Args) (ps d : dict) (bk : string)
         (entries : list (string * string)) (s : State),
    property_name args = "backends." ++ bk ->
    bk <> "" ->
    load_file (env s) (cwd s) (projects_file_name (projects_file args))
    = LoadContent (Document (JObj ps)) ->
    dict_find ps (project args) = Some (JObj d) ->
    dict_get d "backends" = JList (map backend_entry entries) ->
    exists s',
      match find (fun e => String.eqb (fst e) bk) entries with
      | Some e =>
          get args s = (Ok ExitCodes.SUCCESS, s')
          /\ printed s' = (printed s ++ [snd e])%list
      | None =>
          get args s = (Ok ExitCodes.BACKEND_DOESNT_EXISTS, s')
          /\ logged FATAL ("backend '" ++ bk ++ "' doesn't exists") s'
      end
      /\ projects s' = JObj ps
      /\ written s' = written s.
Proof.
  intros args ps d bk entries s Hname Hne Hload Hd Hbk.
  unfold get. open_command s1 L1.
  destruct (load_and_find (projects_file args) ps (project args) d s1)
    as (s3 & P3 & O3 & R3); [| exact Hd |].
  { destruct L1 as (_ & _ & _ & E & C & _). now rewrite E, C. }
  destruct (place_kept s s1 s3 L1 O3) as (E3 & C3 & W3 & Pr3).
  erewrite bind_passed
    by (rewrite Hname, (backend_name_accepted bk Hne), bind_ret, R3;
        reflexivity).
  cbn iota beta.
  replace (starts_with "backends." (property_name args)) with true
    by (rewrite Hname; reflexivity).
  cbn [py_get]. rewrite Hbk.
  pose proof (find_backend_entries entries bk 0) as Hfind.
  destruct (find (fun e => String.eqb (fst e) bk) entries) as [[n o]|] eqn:Hf.
  - unfold py_iter, py_len. repeat run_step. rewrite length_map.
    destruct Hfind as (j & Hj & He). rewrite Hj. cbn [Nat.add].
    repeat run_step.
    assert (Hlt : (j < List.length entries)%nat)
      by (apply nth_error_Some; congruence).
    destruct (Nat.eqb_spec j (List.length entries)) as [Heq|_]; [lia|].
    assert (Hn : nth j (map backend_entry entries) JNull
                 = backend_entry (n, o)).
    { apply nth_error_nth. now rewrite nth_error_map, He. }
    rewrite Hn.
    assert (Hbn : n = bk).
    { apply find_some in Hf. destruct Hf as (_ & Hf).
      now apply String.eqb_eq in Hf. }
    subst n. unfold backend_entry. cbn [fst snd py_index].
    unfold dict_index. cbn [dict_find]. rewrite String.eqb_refl.
    unfold print, Log_success, Log_info. repeat run_step. unfold ret.
    eexists. split; [split; [reflexivity|]|].
    + rewrite !printed_log_many. cbn [printed add_printed py_str].
      now rewrite Pr3.
    + rewrite !projects_log_many, !written_log_many.
      cbn [projects written add_printed]. auto.
  - unfold py_iter, py_len. repeat run_step. rewrite length_map.
    rewrite Hfind. cbn [Nat.add]. repeat run_step.
    rewrite Nat.eqb_refl. unfold Log_fatal. repeat run_step. unfold ret.
    eexists. split; [split; [reflexivity|]|].
    + apply log_many_logged. now left.
    + rewrite !projects_log_many, !written_log_many. auto.
Qed.

(** *** [generate] *)

Lemma validate_version_null (d : dict) (s : State) :
  dict_get d "version.major" = JNull
  \/ dict_get d "version.minor" = JNull
  \/ dict_get d "version.patch" = JNull ->
  exists s',
    only_logged s s'
    /\ logged FATAL (null_version_key d ++ " is null") s'
    /\ forall B (k : unit -> M B),
         bind (validate_version (JObj d)) k s
         = (Raise (VerHelError ExitCodes.VERSION_IS_NULL), s').
Proof.
  intros H. unfold validate_version, null_version_key, Log_fatal.
  cbn [py_get].
  destruct (is_none (dict_get d "version.major")) eqn:H1.
  { exists (log_many [(FATAL, "version.major is null")] s).
    split; [solve_only_logged|].
    split; [apply log_many_logged; now left|].
    intros B k; repeat run_step; rewrite H1;
      repeat run_step; rewrite !bind_raise; reflexivity. }
  destruct (is_none (dict_get d "version.minor")) eqn:H2.
  { exists (log_many [(FATAL, "version.minor is null")] s).
    split; [solve_only_logged|].
    split; [apply log_many_logged; now left|].
    intros B k; repeat run_step; rewrite H1;
      repeat run_step; rewrite H2;
      repeat run_step; rewrite !bind_raise; reflexivity. }
  destruct (is_none (dict_get d "version.patch")) eqn:H3.
  { exists (log_many [(FATAL, "version.patch is null")] s).
    split; [solve_only_logged|].
    split; [apply log_many_logged; now left|].
    intros B k; repeat run_step; rewrite H1;
      repeat run_step; rewrite H2;
      repeat run_step; rewrite H3;
      repeat run_step; rewrite !bind_raise; reflexivity. }
  exfalso. destruct H as [H|[H|H]]; rewrite H in *; discriminate.
Qed.

(** X17: what stops [generate] before anything is produced, for a project
    of the store: a descriptor that fails the checks, or a global
    descriptor named on the command line that fails them (one that is
    not in the store does), gives [PROJECT_VALIDATION_FAILED], with the
    FATAL message [failed to validate project '<name>'] in the log; a
    valid descriptor with a null [version.major], [version.minor] or
    [version.patch], with no global descriptor named, gives
    [VERSION_IS_NULL], with the FATAL message [<key> is null] for the
    first of the three that is null.  In each case no backend descriptor
    is loaded, no command is run, no file is written and the working
    directory is the same. *)
Theorem generate_stops_before_output :
  forall (args : Args) (ps d : dict) (s : State),
    load_file (env s) (cwd s) (projects_file_name (projects_file args))
    = LoadContent (Document (JObj ps)) ->
    dict_find ps (project args) = Some (JObj d) ->
    (validate_checks (JObj d) <> Ok tt ->
     exists s',
       generate args s = (Ok ExitCodes.PROJECT_VALIDATION_FAILED, s')
       /\ logged FATAL
            ("failed to validate project '" ++ project args ++ "'") s'
       /\ nothing_produced s s')
    /\ (forall g,
          validate_checks (JObj d) = Ok tt ->
          global_desc_name args = Some g ->
          validate_checks (dict_get ps g) <> Ok tt ->
          exists s',
            generate args s = (Ok ExitCodes.PROJECT_VALIDATION_FAILED, s')
            /\ logged FATAL ("failed to validate project '" ++ g ++ "'") s'
            /\ nothing_produced s s')
    /\ (validate_checks (JObj d) = Ok tt ->
        global_desc_name args = None ->
        dict_get d "version.major" = JNull
        \/ dict_get d "version.minor" = JNull
        \/ dict_get d "version.patch" = JNull ->
        exists s',
          generate args s = (Ok ExitCodes.VERSION_IS_NULL, s')
          /\ logged FATAL (null_version_key d ++ " is null") s'
          /\ nothing_produced s s').
Proof.
  intros args ps d s Hload Hd.
  assert (Hstart : exists s1 s3,
            only_logged s s1 /\ projects s3 = JObj ps
            /\ outside_projects s1 s3
            /\ (forall B (k : unit -> M B),
                  bind (process_arguments args "generate")
                    (fun _ => bind (Log_info "running generate command") k) s
                  = k tt s1)
            /\ forall B (k : value -> M B),
                 bind (load_projects (projects_file args))
                   (fun _ => bind (check_if_project_exists (project args)) k)
                   s1
                 = k (JObj d) s3).
  { destruct (command_opening args "generate" "running generate command" s)
      as (s1 & L1 & R1).
    destruct (load_and_find (projects_file args) ps (project args) d s1)
      as (s3 & P3 & O3 & R3); [| exact Hd |].
    { destruct L1 as (_ & _ & _ & E & C & _). now rewrite E, C. }
    exists s1, s3. auto. }
  destruct Hstart as (s1 & s3 & L1 & P3 & O3 & R1 & R3).
  assert (N3 : no_output s s3).
  { eapply no_output_trans; [apply only_logged_no_output, L1|].
    apply outside_projects_no_output, O3. }
  assert (Hfail : forall (desc : value) (name : string) (s4 : State),
            projects s4 = JObj ps -> dict_get ps name = desc ->
            validate_checks desc <> Ok tt ->
            exists e,
              validate_project name s4
              = (Raise (VerHelError ExitCodes.PROJECT_VALIDATION_FAILED),
                 log_many
                   [(INFO, "validating project '" ++ name ++ "'");
                    (ERROR, exn_str e);
                    (FATAL, "failed to validate project '" ++ name ++ "'")]
                   s4)).
  { intros desc name s4 P4 Hdesc Hbad.
    destruct (validate_checks desc) as [[]|e] eqn:Hv; [congruence|].
    exists e. apply (validate_project_fails ps name desc e s4 P4 Hdesc Hv). }
  split; [|split].
  - intros Hbad.
    destruct (Hfail (JObj d) (project args) s3 P3 (dict_find_get _ _ _ Hd) Hbad)
      as (e & Rv).
    unfold generate. rewrite R1.
    erewrite bind_caught
      by (rewrite R3; erewrite bind_run_raise by exact Rv; reflexivity).
    rewrite bind_ret. eexists. split; [reflexivity|].
    split; [apply log_many_logged; cbn [In]; auto|].
    apply no_output_nothing_produced.
    eapply no_output_trans; [exact N3|].
    apply only_logged_no_output, only_logged_log_many.
  - intros g Hv Hg Hbad.
    destruct (validate_project_passes ps (project args) d s3 P3
                (dict_find_get _ _ _ Hd) Hv) as (m3 & Rv & _).
    destruct (Hfail (dict_get ps g) g (log_many m3 s3)) as (e & Rg);
      [now rewrite projects_log_many | reflexivity | exact Hbad |].
    unfold generate. rewrite R1, Hg.
    erewrite bind_caught
      by (rewrite R3; erewrite bind_run by exact Rv;
          rewrite bind_assoc; erewrite bind_run_raise by exact Rg;
          reflexivity).
    rewrite bind_ret. eexists. split; [reflexivity|].
    split; [apply log_many_logged; cbn [In]; auto|].
    apply no_output_nothing_produced.
    eapply no_output_trans; [exact N3|].
    eapply no_output_trans;
      apply only_logged_no_output, only_logged_log_many.
  - intros Hv Hg Hnull.
    destruct (validate_project_passes ps (project args) d s3 P3
                (dict_find_get _ _ _ Hd) Hv) as (m3 & Rv & _).
    destruct (validate_version_null d (log_many m3 s3) Hnull)
      as (s5 & L5 & G5 & R5).
    unfold generate. rewrite R1, Hg.
    erewrite bind_caught
      by (rewrite R3; erewrite bind_run by exact Rv; rewrite bind_ret;
          erewrite bind_run
            by (apply (get_project_ok ps); rewrite projects_log_many;
                exact P3);
          rewrite (dict_find_get _ _ _ Hd); apply R5).
    rewrite bind_ret. eexists. split; [reflexivity|].
    split; [exact G5|].
    apply no_output_nothing_produced.
    eapply no_output_trans; [exact N3|].
    eapply no_output_trans;
      [apply only_logged_no_output, only_logged_log_many|].
    apply only_logged_no_output, L5.
Qed.

End StoreCommands.

Section ListCommands.
Context {RT : PyRuntime}.

(** ** The commands that list names *)





End ListCommands.

Section VcsQueries.
Context {RT : PyRuntime}.

(** ** The queries of a frontend *)

(** A query that is refused gives null. *)
Lemma run_wrapper_refused (f : dict) (frontend_name : value)
    (cmd_name : string) (t : OutType) (s s0 : State) :
  query_refused s0 f cmd_name ->
  same_place s0 s ->
  exists s',
    run_wrapper (JObj f) frontend_name cmd_name t s = (Ok JNull, s')
    /\ same_place s0 s'.
Proof.
  intros (line & args & codes & (o & Ho & Hc & Hr) & Hsplit & Hexec) [He Hd].
  unfold run_wrapper.
  unfold bind at 1. unfold lift at 1. cbn [py_get]. rewrite Ho.
  unfold bind at 1. unfold lift at 1. cbn [py_get]. rewrite Hc.
  unfold bind at 1. unfold lift at 1. rewrite Hr.
  cbn [is_none].
  unfold bind at 1. unfold try_except.
  unfold bind at 1. unfold Log_info at 1, Log_log at 1.
  unfold bind at 1.
  match goal with
  | |- context [run_cmd (JStr line) ?s1] =>
      destruct (run_cmd_any (JStr line) s1) as (r & s2 & Hrun & Hs2);
      pose proof (run_cmd_inv (JStr line) s1 s2) as Hinv; rewrite Hrun in *
  end.
  destruct Hs2 as [E1 E2]. simpl in E1, E2.
  destruct r as [[code out]|e].
  - destruct (Hinv code out eq_refl) as (line' & args' & [= <-] & Hs' & Hex').
    rewrite Hsplit in Hs'. injection Hs' as <-.
    cbn [env runs cwd add_log] in Hex'. rewrite He, Hd in Hex'.
    specialize (Hexec (runs s)). rewrite Hex' in Hexec.
    unfold ret at 1. unfold bind at 1. unfold lift at 1.
    cbn [py_contains]. rewrite Hexec.
    unfold bind, Log_error, Log_log, ret.
    eexists. split; [reflexivity | split; simpl; congruence].
  - unfold bind, Log_error, Log_log, ret.
    eexists. split; [reflexivity | split; simpl; congruence].
Qed.

(** X19: for a frontend that declares the [get.short_hash] and the
    [get.commit_count] query, the second of which prints an integer
    whenever it exits with an accepted code, when the [get.tag] query is
    refused (it exits with a code outside its accepted set, or does not
    run to its end), the [tag] of the VCS information is null, while
    [commit_hash] and [branch], whose commands are accepted, are their
    stripped outputs. *)
Theorem get_vcs_info_refused_tag :
  forall (f : dict) (frontend_name : value) (s : State)
         (rc_hash rc_branch : Z) (out_hash out_branch : string),
    query_exits s f "get.commit_hash" rc_hash out_hash ->
    query_declared f "get.short_hash" ->
    query_refused s f "get.tag" ->
    query_exits s f "get.branch" rc_branch out_branch ->
    query_declared f "get.commit_count" ->
    count_is_numeric s f ->
    exists info s',
      get_vcs_info (JObj f) frontend_name s = (Ok info, s')
      /\ dict_get info "tag" = JNull
      /\ dict_get info "commit_hash" = JStr (str_strip out_hash)
      /\ dict_get info "branch" = JStr (str_strip out_branch).
Proof.
  intros f fname s rch rcb oh ob Hh Hs Ht Hb Hc Hnum.
  unfold get_vcs_info.
  unfold bind at 1. unfold Log_info at 1, Log_log at 1.
  unfold bind at 1.
  match goal with
  | |- context [run_wrapper _ _ "get.commit_hash" _ ?s1] =>
      destruct (run_wrapper_accepted f fname "get.commit_hash" OutStr
                  rch oh s1 s Hh) as (s2 & R2 & P2);
        [split; reflexivity|]
  end.
  rewrite R2. cbn [out_type].
  destruct (run_wrapper_declared f fname "get.short_hash" s2 Hs)
    as (v3 & s3 & R3 & P3).
  unfold bind at 1. rewrite R3.
  pose proof (same_place_trans _ _ _ P2 P3) as Q3.
  destruct (run_wrapper_refused f fname "get.tag" OutStr s3 s Ht Q3)
    as (s4 & R4 & P4).
  unfold bind at 1. rewrite R4.
  destruct (run_wrapper_accepted f fname "get.branch" OutStr rcb ob s4 s Hb P4)
    as (s5 & R5 & P5).
  unfold bind at 1. rewrite R5. cbn [out_type].
  destruct (run_wrapper_count f fname s5 s Hc Hnum P5) as (v6 & s6 & R6 & P6).
  unfold bind at 1. rewrite R6.
  unfold bind, Log_info, Log_log, ret.
  do 2 eexists. split; [reflexivity|].
  repeat split; reflexivity.
Qed.

(** X20: the commit count is converted with [int()] outside the guarded
    call: when the [get.commit_count] query is accepted but its stripped
    output is no integer, [get_vcs_info] raises [ValueError]. *)
Theorem get_vcs_info_count_not_numeric :
  forall (f : dict) (frontend_name : value) (s : State) (rc : Z)
         (out : string),
    query_declared f "get.commit_hash" ->
    query_declared f "get.short_hash" ->
    query_declared f "get.tag" ->
    query_declared f "get.branch" ->
    query_exits s f "get.commit_count" rc out ->
    int_of_str (str_strip out) = None ->
    exists message s',
      get_vcs_info (JObj f) frontend_name s = (Raise (ValueError message), s').
Proof.
  intros f fname s rc out H1 H2 H3 H4 Hc Hint.
  unfold get_vcs_info.
  unfold bind at 1. unfold Log_info at 1, Log_log at 1.
  unfold bind at 1.
  match goal with
  | |- context [run_wrapper _ _ "get.commit_hash" _ ?s1] =>
      assert (P1 : same_place s s1) by (split; reflexivity);
      destruct (run_wrapper_declared f fname "get.commit_hash" s1 H1)
        as (v2 & s2 & R2 & P2)
  end.
  rewrite R2.
  destruct (run_wrapper_declared f fname "get.short_hash" s2 H2)
    as (v3 & s3 & R3 & P3).
  unfold bind at 1. rewrite R3.
  destruct (run_wrapper_declared f fname "get.tag" s3 H3)
    as (v4 & s4 & R4 & P4).
  unfold bind at 1. rewrite R4.
  destruct (run_wrapper_declared f fname "get.branch" s4 H4)
    as (v5 & s5 & R5 & P5).
  unfold bind at 1. rewrite R5.
  assert (Q5 : same_place s s5).
  { repeat (eapply same_place_trans; [|eassumption]). exact P1. }
  destruct (run_wrapper_accepted f fname "get.commit_count" OutInt rc out
              s5 s Hc Q5) as (s6 & R6 & P6).
  unfold bind at 1. rewrite R6. cbn [out_type]. rewrite Hint.
  eauto.
Qed.

Lemma bind_try_ok {A B} (m : M A) (h : PyExn -> M A) (k : A -> M B)
    (s s1 : State) (a : A) :
  m s = (Ok a, s1) -> bind (try_except m h) k s = k a s1.
Proof. intros H. apply bind_run. now apply try_except_ok. Qed.

Lemma bind_try_raise {A B} (m : M A) (h : PyExn -> M A) (k : A -> M B)
    (s s1 : State) (e : PyExn) :
  m s = (Raise e, s1) -> bind (try_except m h) k s = bind (h e) k s1.
Proof. intros H. unfold bind at 1. now rewrite (try_except_raise _ _ _ _ _ H). Qed.

(** What the process keeps but for the number of commands run. *)
Lemma run_cmd_outcome (line : string) (args : list string) (s : State) :
  shlex_split line = Ok args ->
  exists r s',
    run_cmd (JStr line) s = (r, s')
    /\ match exec (env s) (runs s) (cwd s) args with
       | ProcExit rc out => r = Ok (rc, out)
       | _ => exists e, r = Raise e
       end
    /\ same_place s s' /\ written s' = written s /\ printed s' = printed s.
Proof.
  intros Hsplit.
  unfold run_cmd, bind, lift, Log_debug, Log_error, Log_log, get_state,
    modify, ret, raise.
  rewrite Hsplit. cbn [env runs cwd add_log count_run].
  destruct (exec (env s) (runs s) (cwd s) args);
    do 2 eexists; (split; [reflexivity|]);
    (split; [eauto | repeat split; reflexivity]).
Qed.

(** X21: [check_if_project_repo_exists] returns when the [get.repo]
    command exits with one of its accepted codes, and raises
    [VerHelError(REPO_DOESNT_EXISTS)] in every other case: another exit
    code, a time-out, or a command that cannot be run.  An exit code
    outside the accepted ones is reported with the FATAL message
    [version control repository doesn't exists].  The working directory
    is the same and no file is written. *)
Theorem check_if_project_repo_exists_decides :
  forall (f : dict) (line : string) (args : list string) (codes : list value)
         (s : State),
    command_entry f "get.repo" (JStr line) codes ->
    shlex_split line = Ok args ->
    exists s',
      check_if_project_repo_exists (JObj f) s
      = (if exit_accepted codes (exec (env s) (runs s) (cwd s) args)
         then Ok tt
         else Raise (VerHelError ExitCodes.REPO_DOESNT_EXISTS), s')
      /\ same_place s s'
      /\ written s' = written s
      /\ forall rc out,
           exec (env s) (runs s) (cwd s) args = ProcExit rc out ->
           list_mem (JInt rc) codes = false ->
           logged FATAL "version control repository doesn't exists" s'.
Proof.
  intros f line args codes s (o & Ho & Hc & Hr) Hsplit.
  unfold check_if_project_repo_exists, Log_info. run_step.
  cbn [py_get]. rewrite Ho. run_step.
  set (s1 := log_many [(INFO, "checking if repo exists")] s).
  assert (E1 : env s1 = env s) by apply env_log_many.
  assert (C1 : cwd s1 = cwd s) by apply cwd_log_many.
  assert (N1 : runs s1 = runs s)
    by now destruct (same_process_log_many
                       [(INFO, "checking if repo exists")] s)
         as (_ & _ & _ & _ & N).
  assert (W1 : written s1 = written s) by apply written_log_many.
  destruct (run_cmd_outcome line args s1 Hsplit)
    as (r & s2 & Hrun & Hr2 & [E2 C2] & W2 & _).
  rewrite E1, N1, C1 in Hr2.
  destruct (exec (env s) (runs s) (cwd s) args) as [| |code out];
    cbn [exit_accepted].
  1, 2: destruct Hr2 as (e & ->);
    (erewrite bind_try_raise
       by (cbn [py_get]; rewrite Hc; run_step;
           erewrite bind_run_raise by exact Hrun; reflexivity));
    unfold Log_error; repeat run_step; rewrite !bind_raise;
    (eexists; split; [reflexivity|]);
    unfold same_place;
    rewrite ?env_log_many, ?cwd_log_many, ?written_log_many;
    (split; [split; congruence|]); (split; [congruence | discriminate]).
  subst r.
  erewrite bind_try_ok
    by (cbn [py_get]; rewrite Hc; run_step;
        erewrite bind_run by exact Hrun; reflexivity).
  cbn [py_get fst]. rewrite Hr. run_step. cbn [py_contains]. run_step.
  unfold Log_fatal, Log_success.
  destruct (list_mem (JInt code) codes) eqn:Hacc; cbn [negb]; repeat run_step;
    rewrite ?bind_raise; (eexists; split; [reflexivity|]);
    unfold same_place;
    rewrite ?env_log_many, ?cwd_log_many, ?written_log_many;
    (split; [split; congruence|]); (split; [congruence|]);
    intros rc0 out0 [= <- <-] Hrc.
  - congruence.
  - apply log_many_logged. now left.
Qed.

End VcsQueries.

Section BackendsAndDirectory.
Context {RT : PyRuntime}.

(** ** The backends of a project and its directory *)

Lemma backend_names_entries (entries : list (string * string)) :
  backend_names (map backend_entry entries) = Ok (map fst entries).
Proof.
  induction entries as [|[n o] entries IH]; [reflexivity|].
  cbn [map backend_names backend_entry fst snd py_items res_bind].
  rewrite IH. reflexivity.
Qed.

Lemma flag_log_many (l : list (LogType * string)) (s : State) :
  fatal_if_bk_not_impl (log_many l s) = fatal_if_bk_not_impl s.
Proof. now destruct (log_many_fields l s) as (_ & _ & _ & H & _). Qed.

(** With the flag off every name is visited and the missing ones are
    counted; with the flag on the first missing one ends the loop. *)
Lemma check_backends_loop_run (bs : dict) (entries : list (string * string))
    (found : nat) (s : State) :
  backends s = JObj bs ->
  exists msgs,
    check_backends_loop (map backend_entry entries) found s
    = (if (fatal_if_bk_not_impl s
           && negb (Nat.eqb (List.length (missing_backends bs entries)) 0))%bool
       then Raise (VerHelError ExitCodes.BACKEND_DOESNT_EXISTS)
       else Ok (found + List.length (missing_backends bs entries))%nat,
       log_many msgs s).
Proof.
  revert found s. induction entries as [|[n o] entries IH]; intros found s Hb.
  - exists []. cbn. rewrite Nat.add_0_r, andb_false_r. reflexivity.
  - cbn [map check_backends_loop backend_entry fst snd py_items dict_keys].
    repeat run_step. change (dict_keys [(n, JStr o)]) with [n].
    cbv beta iota. repeat run_step. rewrite Hb. cbn [py_get].
    repeat run_step.
    unfold missing_backends. cbn [filter fst].
    fold (missing_backends bs entries).
    destruct (is_none (dict_get bs n)) eqn:Hn.
    + destruct (fatal_if_bk_not_impl s) eqn:Hflag.
      * unfold Log_fatal. repeat run_step. rewrite !bind_raise.
        cbn [List.length Nat.eqb negb andb].
        eexists [(_, _)]. reflexivity.
      * unfold Log_error. repeat run_step.
        match goal with
        | |- context [check_backends_loop _ ?n ?s1] =>
            destruct (IH n s1) as (msgs & ->)
        end.
        { now rewrite backends_log_many. }
        rewrite flag_log_many, Hflag. cbn [andb List.length].
        rewrite Nat.add_succ_r. eexists ((_, _) :: msgs). reflexivity.
    + unfold Log_success. repeat run_step.
      match goal with
      | |- context [check_backends_loop _ ?n ?s1] =>
          destruct (IH n s1) as (msgs & ->)
      end.
      { now rewrite backends_log_many. }
      rewrite flag_log_many. eexists ((_, _) :: msgs). reflexivity.
Qed.

(** X22: [check_if_backends_exists] on the entries of a project, against
    the loaded backends.  With [fatal_if_bk_not_impl] set it raises
    [VerHelError(BACKEND_DOESNT_EXISTS)] exactly when some entry names a
    backend that is not loaded; otherwise it returns.  Only the log
    changes, and when it returns the last message is the success
    message exactly when the number of missing backends equals the
    number of entries, and the warning otherwise. *)
Theorem check_if_backends_exists_outcome :
  forall (bs : dict) (entries : list (string * string)) (s : State),
    backends s = JObj bs ->
    let missing := List.length (missing_backends bs entries) in
    exists msgs,
      if (fatal_if_bk_not_impl s && negb (Nat.eqb missing 0))%bool
      then
        check_if_backends_exists (JList (map backend_entry entries)) s
        = (Raise (VerHelError ExitCodes.BACKEND_DOESNT_EXISTS),
           log_many msgs s)
      else
        check_if_backends_exists (JList (map backend_entry entries)) s
        = (Ok tt,
           log_many
             (msgs ++
              [if Nat.eqb missing (List.length entries)
               then (SUCCESS, "all backends used by project are implemented")
               else (WARNING,
                     "not all backends used by project are implemented")])
             s).
Proof.
  intros bs entries s Hb missing.
  unfold check_if_backends_exists. cbn [py_iter py_len]. run_step.
  rewrite backend_names_entries. unfold Log_info. repeat run_step.
  match goal with
  | |- context [bind (check_backends_loop _ 0) _ ?s1] =>
      destruct (check_backends_loop_run bs entries 0 s1) as (msgs & Hrun)
  end.
  { now rewrite backends_log_many. }
  rewrite flag_log_many in Hrun. fold missing in Hrun. cbn [Nat.add] in Hrun.
  destruct (fatal_if_bk_not_impl s && negb (Nat.eqb missing 0))%bool.
  - erewrite bind_run_raise by exact Hrun.
    rewrite <- log_many_app. eexists. reflexivity.
  - erewrite bind_run by exact Hrun. run_step. rewrite length_map.
    unfold Log_success, Log_warn.
    destruct (Nat.eqb missing (List.length entries));
      rewrite log_run, <- !log_many_app;
      eexists ((_, _) :: msgs); rewrite <- app_comm_cons; reflexivity.
Qed.

(** X23: [cd_into_project_directory] gets past the test of the path only
    for a project whose [project.directory] is null: it then changes to
    the working directory itself.  For any other value of
    [project.directory] it raises [AttributeError], and the working
    directory is the same. *)
Theorem cd_into_project_directory_needs_null :
  forall (d : dict) (s : State),
    dir_exists (env s) (cwd s) (cwd s) = true ->
    chdir_error (env s) (cwd s) (cwd s) = None ->
    exists s',
      match dict_get d "project.directory" with
      | JNull => cd_into_project_directory (JObj d) s = (Ok tt, s')
      | _ =>
          exists message,
            cd_into_project_directory (JObj d) s
            = (Raise (AttributeError message), s')
      end
      /\ cwd s' = cwd s
      /\ written s' = written s.
Proof.
  intros d s Hex Hcd.
  unfold cd_into_project_directory, Log_info, Log_success. repeat run_step.
  cbn [py_get]. repeat run_step.
  rewrite env_log_many, cwd_log_many, Hex, Hcd. cbn [negb].
  destruct (dict_get d "project.directory"); cbn [is_none negb];
    repeat run_step; rewrite ?bind_raise;
    (eexists; split; [first [reflexivity | eexists; reflexivity]|]);
    rewrite ?cwd_log_many, ?written_log_many;
    cbn [cwd written set_cwd];
    rewrite ?cwd_log_many, ?written_log_many; auto.
Qed.

End BackendsAndDirectory.

Section CookedInfo.
Context {RT : PyRuntime}.

(** ** The cooked information *)

(** X24: [cook_info] on a descriptor, with the date and the time of the
    build and any VCS information: it returns, only the log changes, and
    the cooked information has the same twenty-three keys whatever the
    descriptor holds.  A null [project.name] becomes the name of the
    project in the store; a null author, copyright, description,
    directory, licence or frontend becomes the empty string;
    [project.company] and [license.spdx] have no fallback, and
    [project.path] is the working directory. *)
Theorem cook_info_keys_and_fallbacks :
  forall (project_name : string) (d build_info vcs_info : dict) (s : State),
    dict_mem build_info "date" = true ->
    dict_mem build_info "time" = true ->
    exists info msgs,
      cook_info project_name (JObj d) (JObj build_info) (JObj vcs_info) s
      = (Ok info, log_many msgs s)
      /\ dict_keys info = cooked_keys
      /\ dict_get info "project.name"
         = or_else (dict_get d "project.name") (JStr project_name)
      /\ (forall key,
            In key ["project.author"; "project.copyright";
                    "project.description"; "project.directory"] ->
            dict_get info key = or_else (dict_get d key) (JStr ""))
      /\ dict_get info "project.license"
         = or_else (dict_get d "license.spdx") (JStr "")
      /\ dict_get info "vcs.name" = or_else (dict_get d "frontend") (JStr "")
      /\ dict_get info "project.company" = dict_get d "project.company"
      /\ dict_get info "license.spdx" = dict_get d "license.spdx"
      /\ dict_get info "project.path" = JStr (cwd s).
Proof.
  intros project_name d bi vi s Hdate Htime.
  unfold cook_info, Log_info, Log_success, Log_debug.
  cbn [py_get py_index dget res_bind is_none].
  rewrite (dict_index_mem bi "date" Hdate), (dict_index_mem bi "time" Htime).
  rewrite !if_Ok. repeat run_step.
  assert (Hstr : exists text info0,
    (if negb (is_none (dict_get d "version.pre_release"))
     then
       text <- lift (str_format "{}.{}.{}-{}"
                       [dict_get d "version.major"; dict_get d "version.minor";
                        dict_get d "version.patch";
                        dict_get d "version.pre_release"]) ;;
       ret (dict_set
              (dict_set
                 (dict_set
                    (dict_set (dict_set [] "version.major"
                                 (dict_get d "version.major"))
                       "version.minor" (dict_get d "version.minor"))
                    "version.patch" (dict_get d "version.patch"))
                 "version.pre_release" (dict_get d "version.pre_release"))
              "version.string" (JStr text))
     else
       text <- lift (str_format "{}.{}.{}"
                       [dict_get d "version.major"; dict_get d "version.minor";
                        dict_get d "version.patch"]) ;;
       ret (dict_set
              (dict_set
                 (dict_set
                    (dict_set
                       (dict_set (dict_set [] "version.major"
                                    (dict_get d "version.major"))
                          "version.minor" (dict_get d "version.minor"))
                       "version.patch" (dict_get d "version.patch"))
                    "version.pre_release" (dict_get d "version.pre_release"))
                 "version.string" (JStr text))
              "version.pre_release" (JStr "")))
    = ret (dict_set
             (dict_set
                (dict_set
                   (dict_set (dict_set [] "version.major"
                                (dict_get d "version.major"))
                      "version.minor" (dict_get d "version.minor"))
                   "version.patch" (dict_get d "version.patch"))
                "version.pre_release" info0)
             "version.string" (JStr text))).
  { rewrite str_format_version_pre, str_format_version.
    destruct (is_none (dict_get d "version.pre_release")); cbn [negb];
      do 2 eexists; reflexivity. }
  destruct Hstr as (text & info0 & ->). repeat run_step.
  rewrite cwd_log_many. unfold ret.
  do 2 eexists. split; [rewrite <- !log_many_app; reflexivity|].
  unfold or_else.
  split; [reflexivity|]. split; [reflexivity|].
  split.
  { intros key Hin. cbn [In] in Hin.
    destruct Hin as [<-|[<-|[<-|[<-|[]]]]]; reflexivity. }
  split; [reflexivity|]. split; [reflexivity|].
  split; [|split; reflexivity].
  transitivity (if is_none (dict_get d "project.company")
                then JNull else dict_get d "project.company");
    [reflexivity | now destruct (dict_get d "project.company")].
Qed.

End CookedInfo.

Section LineBackends.
Context {RT : PyRuntime}.

(** ** Rendering with a backend of the built-in shape *)

Lemma dict_mem_keys (d : dict) (k : string) :
  In k (dict_keys d) -> dict_mem d k = true.
Proof.
  unfold dict_mem. induction d as [|[k' v] d IH]; cbn; [tauto|].
  intros [->|Hin].
  - now rewrite String.eqb_refl.
  - destruct (String.eqb k k'); [reflexivity | now apply IH].
Qed.

Lemma str_format_comment (c line : value) :
  str_format ("{} {}" ++ nl) [c; line] = Ok (py_str c ++ " " ++ py_str line ++ nl).
Proof.
  transitivity (Ok (((py_str c ++ " ") ++ py_str line) ++ nl)).
  - cbv -[py_str]. reflexivity.
  - rewrite !append_assoc. reflexivity.
Qed.

Lemma str_format_bare_comment (c : value) :
  str_format ("{}" ++ nl) [c] = Ok (py_str c ++ nl).
Proof. cbv -[py_str]. reflexivity. Qed.

Lemma str_format_spdx (c spdx : value) :
  str_format ("{} SPDX-License-Identifier: {}" ++ nl) [c; spdx]
  = Ok (py_str c ++ " SPDX-License-Identifier: " ++ py_str spdx ++ nl).
Proof.
  transitivity
    (Ok (((py_str c ++ " SPDX-License-Identifier: ") ++ py_str spdx) ++ nl)).
  - cbv -[py_str]. reflexivity.
  - rewrite !append_assoc. reflexivity.
Qed.

Lemma str_format_trailer (c : value) :
  str_format (nl ++ "{0} generated using verhel.py {0}" ++ nl) [c]
  = Ok (nl ++ py_str c ++ " generated using verhel.py " ++ py_str c ++ nl).
Proof.
  transitivity
    (Ok ((((nl ++ py_str c) ++ " generated using verhel.py ") ++ py_str c)
         ++ nl)).
  - cbv -[py_str]. reflexivity.
  - rewrite !append_assoc. reflexivity.
Qed.

Lemma plain_parts_inv (a b c : string) :
  plain_parts (a, b, c) = true ->
  no_braces a = true /\ no_braces b = true /\ no_braces c = true.
Proof.
  unfold plain_parts. intros H. apply andb_prop in H. destruct H as [H Hc].
  apply andb_prop in H. tauto.
Qed.

(** A round of the variable loop with the two line templates, on a key
    that is cooked. *)
Lemma emit_var_line_run (tn ts : string * string * string) (cooked : dict)
    (excluded : list value) (p : string * value) (ss : string) :
  plain_parts tn = true -> plain_parts ts = true ->
  dict_mem cooked (fst p) = true ->
  emits (emit_var (JStr (line_template tn "{1}"))
           (JStr (line_template ts "{1!u}")) (JObj cooked) (JList excluded)
           (var_entry p) ss)
    (Ok (ss ++ var_line tn ts cooked excluded p))
    (var_warnings cooked excluded p).
Proof.
  destruct tn as [[n1 n2] n3], ts as [[s1 s2] s3], p as [var_name emit_name].
  intros Hn Hs Hmem s.
  destruct (plain_parts_inv _ _ _ Hn) as (Hn1 & Hn2 & Hn3).
  destruct (plain_parts_inv _ _ _ Hs) as (Hs1 & Hs2 & Hs3).
  unfold var_line, var_warnings, var_entry, line_template, number_line,
    string_line.
  cbn [fst snd] in *.
  unfold emit_var. cbn [first_item py_items res_bind].
  run_step. cbn [py_contains]. run_step.
  destruct (list_mem (JStr var_name) excluded).
  { unfold ret. now rewrite append_nil_r. }
  cbn [py_index]. rewrite (dict_index_mem _ _ Hmem). run_step.
  cbn [fmtr_format_value].
  rewrite (fmtr_format_number_line n1 n2 n3 emit_name _ Hn1 Hn2 Hn3).
  rewrite (fmtr_format_string_line s1 s2 s3 emit_name _ Hs1 Hs2 Hs3).
  unfold Log_warn.
  destruct (dict_get cooked var_name); cbn [is_none negb type_of];
    repeat run_step; unfold ret; rewrite ?append_nil_r; reflexivity.
Qed.

Lemma emit_vars_line_run (tn ts : string * string * string) (cooked : dict)
    (excluded : list value) (vars : list (string * value)) (ss : string) :
  plain_parts tn = true -> plain_parts ts = true ->
  (forall p, In p vars -> dict_mem cooked (fst p) = true) ->
  emits (emit_vars (JStr (line_template tn "{1}"))
           (JStr (line_template ts "{1!u}")) (JObj cooked) (JList excluded)
           (map var_entry vars) ss)
    (Ok (ss ++ joined (map (var_line tn ts cooked excluded) vars)))
    (flat_map (var_warnings cooked excluded) vars).
Proof.
  intros Hn Hs. revert ss.
  induction vars as [|p vars IH]; intros ss Hmem;
    cbn [map emit_vars flat_map joined fold_right].
  - rewrite append_nil_r. apply emits_ret.
  - rewrite <- append_assoc.
    eapply emits_bind_ok.
    + apply emit_var_line_run; [exact Hn | exact Hs|]. apply Hmem. now left.
    + apply IH. intros q Hq. apply Hmem. now right.
Qed.

Lemma comment_lines_joined (c : value) (lines : list string) (acc : string) :
  comment_lines c lines acc
  = Ok (acc ++ joined (map (fun line => py_str c ++ " " ++ line ++ nl) lines)).
Proof.
  revert acc. induction lines as [|line lines IH]; intros acc;
    cbn [comment_lines map joined fold_right].
  - now rewrite append_nil_r.
  - rewrite str_format_comment. cbn [res_bind py_str]. rewrite IH.
    now rewrite !append_assoc.
Qed.

(** The run of [backend_generate] on a backend of the built-in shape. *)
Lemma backend_generate_line_run (b cooked : dict)
    (tn ts : string * string * string) (source_begin source_end : string)
    (source_comment : value) (vars : list (string * value))
    (license_text : option string) (excluded : list value) (s : State) :
  line_backend b tn ts source_begin source_end source_comment vars ->
  dict_mem cooked "license.spdx" = true ->
  (forall p, In p vars -> dict_mem cooked (fst p) = true) ->
  backend_generate (JObj b) (JObj cooked) license_text (JList excluded) s
  = (Ok (line_source tn ts source_begin source_end source_comment vars
           cooked license_text excluded),
     log_many (flat_map (var_warnings cooked excluded) vars) s).
Proof.
  intros (Hbegin & Hend & Hcomment & Hvars & Hnum & Hstr & Hn & Hs) Hspdx Hmem.
  assert (Hhead :
            forall B (k : string -> M B) s0,
              (ss <-
                 match license_text with
                 | Some text =>
                     license_commented <-
                       lift (comment_lines source_comment
                               (str_splitlines (str_rstrip text)) "") ;;
                     ret ("" ++ license_commented)
                 | None => ret ""
                 end ;;
               spdx <- lift (py_index (JObj cooked) "license.spdx") ;;
               ss <-
                 (if negb (is_none spdx) then
                    ss <-
                      match license_text with
                      | Some _ =>
                          text <- lift (str_format ("{}" ++ nl)
                                          [source_comment]) ;;
                          ret (ss ++ text)
                      | None => ret ss
                      end ;;
                    text <- lift (str_format
                                    ("{} SPDX-License-Identifier: {}" ++ nl)
                                    [source_comment; spdx]) ;;
                    ret (ss ++ text)
                  else ret ss) ;;
               k ss) s0
              = k (source_heading source_comment license_text
                     (dict_get cooked "license.spdx")) s0).
  { cbn [py_index]. rewrite (dict_index_mem _ _ Hspdx).
    unfold source_heading.
    destruct license_text as [text|].
    - rewrite comment_lines_joined.
      destruct (is_none (dict_get cooked "license.spdx")) eqn:E;
        intros B k s0; repeat run_step; rewrite E; cbn [negb];
        rewrite ?str_format_bare_comment, ?str_format_spdx;
        repeat run_step; cbn [append]; rewrite ?append_nil_r, ?append_assoc;
        reflexivity.
    - destruct (is_none (dict_get cooked "license.spdx")) eqn:E;
        intros B k s0; repeat run_step; rewrite E; cbn [negb];
        rewrite ?str_format_spdx; repeat run_step; reflexivity. }
  unfold backend_generate. cbn [py_get]. do 7 run_step.
  rewrite Hcomment.
  rewrite Hhead.
  rewrite Hbegin, Hend, Hvars, Hnum, Hstr. unfold py_iter, ss_write.
  repeat run_step.
  erewrite bind_run by (apply emit_vars_line_run; assumption).
  repeat run_step.
  rewrite str_format_trailer. repeat run_step. unfold ret, line_source.
  now rewrite !append_assoc.
Qed.

(** X25: rendering with a backend of the built-in shape cannot fail, and
    the text is fixed by the descriptor and the cooked values.  For
    cooked information that has [license.spdx] and every key of the
    [var_map], any licence text and any list of excluded keys,
    [backend_generate] returns the heading (the commented licence and
    the SPDX line), the opening text of the backend, one line for each
    entry of the [var_map] in turn (none for an excluded key or a null
    value, the number line for an integer or a float, the string line
    with the value in upper case for any other value), the closing text
    and the line that names the generator between two comment marks;
    the log takes a warning for each null value and each value that is
    neither a number nor a string, and nothing else changes. *)
Theorem backend_generate_returns :
  forall (b cooked : dict) (number_parts string_parts : string * string * string)
         (source_begin source_end : string)
         (source_comment : value) (vars : list (string * value))
         (license_text : option string) (excluded : list value) (s : State),
    line_backend b number_parts string_parts source_begin source_end
      source_comment vars ->
    dict_mem cooked "license.spdx" = true ->
    (forall p, In p vars -> dict_mem cooked (fst p) = true) ->
    backend_generate (JObj b) (JObj cooked) license_text (JList excluded) s
    = (Ok (source_heading source_comment license_text
             (dict_get cooked "license.spdx")
           ++ source_begin
           ++ joined (map (var_line number_parts string_parts cooked excluded)
                        vars)
           ++ source_end
           ++ nl ++ py_str source_comment ++ " generated using verhel.py "
           ++ py_str source_comment ++ nl),
       log_many (flat_map (var_warnings cooked excluded) vars) s).
Proof. exact backend_generate_line_run. Qed.

(** C6: an entry of [var_map] that reaches emission with a null cooked
    value is skipped with a warning.  The round of the loop on that entry
    returns the text as it was and logs
    [emiting value '<key>' is null]; [backend_generate] returns what it
    returns without the entry, so no text at all stands for the key, be
    it [None], [null] or anything else, and the warning is in the log
    whenever a text is returned; and for a backend of the built-in shape
    and cooked information that has [license.spdx] and every key of the
    [var_map], a text is returned and the warning is logged. *)
Theorem backend_generate_skips_null :
  forall (b : dict) (cooked_info : value) (license_text : option string)
         (excluded_vars : value) (pre post : list value)
         (var emit_name : value) (var_name : string) (s : State),
    dict_get b "var_map" = JList (pre ++ var :: post) ->
    first_item var = Ok (var_name, emit_name) ->
    py_contains excluded_vars (JStr var_name) = Ok false ->
    py_index cooked_info var_name = Ok JNull ->
    (forall (ss : string) (s0 : State),
       emit_var (dict_get b "format.number") (dict_get b "format.string")
         cooked_info excluded_vars var ss s0
       = (Ok ss,
          log_many [(WARNING, "emiting value '" ++ var_name ++ "' is null")]
            s0))
    /\ fst (backend_generate (JObj b) cooked_info license_text excluded_vars s)
       = fst (backend_generate
                (JObj (dict_set b "var_map" (JList (pre ++ post))))
                cooked_info license_text excluded_vars s)
    /\ (forall text s',
          backend_generate (JObj b) cooked_info license_text excluded_vars s
          = (Ok text, s') ->
          logged WARNING ("emiting value '" ++ var_name ++ "' is null") s')
    /\ (forall (cooked : dict) (excluded : list value)
               (number_parts string_parts : string * string * string)
               (source_begin source_end : string) (source_comment : value)
               (vars : list (string * value)),
          cooked_info = JObj cooked ->
          excluded_vars = JList excluded ->
          line_backend b number_parts string_parts source_begin source_end
            source_comment vars ->
          dict_mem cooked "license.spdx" = true ->
          (forall p, In p vars -> dict_mem cooked (fst p) = true) ->
          exists text s',
            backend_generate (JObj b) cooked_info license_text excluded_vars s
            = (Ok text, s')
            /\ logged WARNING ("emiting value '" ++ var_name ++ "' is null")
                 s').
Proof.
  intros b cooked lic excl pre post var emit_name var_name s Hmap Hf Hc Hi.
  assert (Hsim :
    same_result_logging (WARNING, "emiting value '" ++ var_name ++ "' is null")
      (backend_generate (JObj b) cooked lic excl)
      (backend_generate (JObj (dict_set b "var_map" (JList (pre ++ post))))
         cooked lic excl)).
  { unfold backend_generate. cbn [py_get].
    rewrite dict_get_set_same, Hmap.
    rewrite !dict_get_set_other by discriminate.
    do 7 (apply same_result_bind_pre; [pure_logging_step | intros ?]).
    apply same_result_bind_pre.
    { destruct lic; repeat pure_logging_step. }
    intros ?.
    apply same_result_bind_pre; [pure_logging_step | intros ?].
    apply same_result_bind_pre.
    { destruct (negb (is_none a7)); [|pure_logging_step].
      pure_logging_step.
      - destruct lic; repeat pure_logging_step.
      - repeat pure_logging_step. }
    intros ?.
    apply same_result_bind_pre; [pure_logging_step | intros ?].
    change (same_result_logging
      (WARNING, "emiting value '" ++ var_name ++ "' is null")
      (bind (emit_vars a0 a1 cooked excl (pre ++ var :: post) a9)
         (fun ss => ss0 <- lift (ss_write ss a5) ;;
            text <- lift (str_format (nl ++ "{0} generated using verhel.py {0}" ++ nl) [a4]) ;;
            ret (ss0 ++ text)))
      (bind (emit_vars a0 a1 cooked excl (pre ++ post) a9)
         (fun ss => ss0 <- lift (ss_write ss a5) ;;
            text <- lift (str_format (nl ++ "{0} generated using verhel.py {0}" ++ nl) [a4]) ;;
            ret (ss0 ++ text)))).
    apply same_result_bind_post.
    - eapply emit_vars_null; eauto.
    - intros ?. repeat pure_logging_step. }
  destruct Hsim as (r & l1 & l2 & H1 & H2 & Hw).
  split; [|split; [|split]].
  - intros ss s0. eapply emit_var_null; eauto.
  - now rewrite H1, H2.
  - intros text s' Hrun. rewrite H1 in Hrun. injection Hrun as -> <-.
    apply log_many_logged. now apply Hw.
  - intros cooked' excluded tn ts source_begin source_end source_comment vars
           -> -> Hline Hspdx Hmem.
    rewrite (backend_generate_line_run b cooked' tn ts source_begin source_end
               source_comment vars lic excluded s Hline Hspdx Hmem).
    do 2 eexists. split; [reflexivity|].
    apply log_many_logged.
    destruct Hline as (_ & _ & _ & Hvars & _).
    rewrite Hvars in Hmap. injection Hmap as Hmap.
    assert (Hin : In var (map var_entry vars))
      by (rewrite Hmap; apply in_or_app; right; now left).
    apply in_map_iff in Hin. destruct Hin as (p & <- & Hp).
    destruct p as [n e]. cbn in Hf. injection Hf as -> ->.
    apply in_flat_map. exists (var_name, emit_name). split; [exact Hp|].
    unfold var_warnings. cbn [fst].
    cbn [py_contains] in Hc. injection Hc as ->.
    cbn [py_index] in Hi.
    pose proof (dict_index_mem _ _ (Hmem _ Hp)) as Hget. cbn [fst] in Hget.
    rewrite Hget in Hi. injection Hi as ->. now left.
Qed.

End LineBackends.

Section WrittenFiles.
Context {RT : PyRuntime}.

(** ** The files [generate] writes *)

Lemma logs_only_ret {A} (a : A) : logs_only (ret a).
Proof. intros s. now exists []. Qed.

Lemma logs_only_lift {A} (r : Res A) : logs_only (lift r).
Proof. intros s. now exists []. Qed.

Lemma logs_only_raise {A} (e : PyExn) : logs_only (@raise A e).
Proof. intros s. now exists []. Qed.

Lemma logs_only_log (t : LogType) (m : string) : logs_only (Log_log t m).
Proof. intros s. now exists [(t, m)]. Qed.

Lemma logs_only_get_state : logs_only get_state.
Proof. intros s. now exists []. Qed.

Lemma logs_only_bind {A B} (m : M A) (k : A -> M B) :
  logs_only m -> (forall a, logs_only (k a)) -> logs_only (bind m k).
Proof.
  intros Hm Hk s. unfold bind. destruct (Hm s) as (l1 & H1).
  destruct (m s) as [[a|e] s1]; cbn [snd] in *; subst s1.
  - destruct (Hk a (log_many l1 s)) as (l2 & H2).
    exists (l1 ++ l2)%list. now rewrite log_many_app.
  - now exists l1.
Qed.

Ltac logs_only_step :=
  first
    [ apply logs_only_ret
    | apply logs_only_lift
    | apply logs_only_raise
    | apply logs_only_log
    | apply logs_only_get_state
    | apply logs_only_bind; [| intros ? ] ].

Lemma logs_only_pure {A} (m : M A) : pure_logging m -> logs_only m.
Proof. intros (r & l & H) s. exists l. now rewrite H. Qed.

Lemma cook_info_logs_only (project_name : string)
    (desc build_info vcs_info : value) :
  logs_only (cook_info project_name desc build_info vcs_info).
Proof.
  unfold cook_info, Log_info, Log_success, Log_debug.
  do 5 (logs_only_step; [logs_only_step|]).
  logs_only_step.
  { destruct (negb (is_none a3)); repeat logs_only_step. }
  repeat logs_only_step.
Qed.

Lemma files_written_refl (s : State) : files_written s s [].
Proof. unfold files_written. now rewrite app_nil_r. Qed.

Lemma files_written_trans (s1 s2 s3 : State)
    (f1 f2 : list (string * string * FileData)) :
  files_written s1 s2 f1 -> files_written s2 s3 f2 ->
  files_written s1 s3 (f1 ++ f2).
Proof.
  intros (W1 & C1 & E1 & P1) (W2 & C2 & E2 & P2). unfold files_written.
  rewrite W2, W1, app_assoc. repeat split; congruence.
Qed.

Lemma files_written_after (s1 s2 s3 : State)
    (f : list (string * string * FileData)) :
  files_written s1 s2 [] -> files_written s2 s3 f -> files_written s1 s3 f.
Proof. intros H1 H2. apply (files_written_trans s1 s2 s3 [] f H1 H2). Qed.

Lemma files_written_before (s1 s2 s3 : State)
    (f : list (string * string * FileData)) :
  files_written s1 s2 f -> files_written s2 s3 [] -> files_written s1 s3 f.
Proof.
  intros H1 H2. rewrite <- (app_nil_r f).
  apply (files_written_trans s1 s2 s3 f [] H1 H2).
Qed.

Lemma files_written_log_many (l : list (LogType * string)) (s : State) :
  files_written s (log_many l s) [].
Proof.
  unfold files_written.
  rewrite written_log_many, cwd_log_many, env_log_many, printed_log_many,
    app_nil_r.
  auto.
Qed.

Lemma files_written_logs_only {A} (m : M A) (s : State) :
  logs_only m -> files_written s (snd (m s)) [].
Proof.
  intros H. destruct (H s) as (l & ->). apply files_written_log_many.
Qed.

Lemma files_written_add (f : string * string * FileData) (s : State) :
  files_written s (add_written f s) [f].
Proof. unfold files_written. repeat split; reflexivity. Qed.

Ltac files_step :=
  first
    [ assumption
    | apply files_written_refl
    | apply files_written_log_many
    | eapply files_written_after; [eassumption | apply files_written_add]
    | eapply files_written_before; [| apply files_written_log_many] ].

Lemma output_file_incl (dir : string) (l1 l2 : list (string * value))
    (files : list (string * string * FileData)) :
  incl l1 l2 ->
  Forall (output_file dir l1) files -> Forall (output_file dir l2) files.
Proof.
  intros Hincl. apply Forall_impl.
  intros f (name & p & text & Hin & ->). exists name, p, text. auto.
Qed.

(** One backend entry: at most one file, at the path of the entry, and
    the count goes up by one exactly when it is written. *)
Lemma generate_output_counts (cooked : value) (license_text : option string)
    (exclude : value) (bk_name : string) (bk_output : value) (n : nat)
    (s : State) :
  exists files,
    files_written s
      (snd (generate_output cooked license_text exclude bk_name bk_output n s))
      files
    /\ Forall (output_file (cwd s) [(bk_name, bk_output)]) files
    /\ forall n',
         fst (generate_output cooked license_text exclude bk_name bk_output
                n s) = Ok n' ->
         n' = (n + List.length files)%nat.
Proof.
  unfold generate_output, Log_info, Log_error, Log_success.
  run_step.
  destruct (py_get (backends s) bk_name) as [backend|e];
    [|exists []; rewrite bind_lift_raise; cbn [fst snd];
      split; [apply files_written_refl|]; split; [constructor|];
      discriminate].
  run_step.
  destruct (negb (is_none backend)).
  2:{ exists []. repeat run_step. unfold ret. cbn [fst snd].
      split; [apply files_written_log_many|]. split; [constructor|].
      intros n' [= <-]. cbn. lia. }
  run_step.
  destruct (backend_generate_pure_logging backend cooked license_text exclude)
    as ([buffer|e] & msgs & Hgen).
  2:{ exists []. erewrite bind_run_raise by apply Hgen. cbn [fst snd].
      split; [|split; [constructor | discriminate]].
      rewrite <- log_many_app. apply files_written_log_many. }
  erewrite bind_run by apply Hgen.
  rewrite <- log_many_app.
  match goal with
  | |- context [log_many ?l s] => set (s1 := log_many l s)
  end.
  assert (F1 : files_written s s1 []) by apply files_written_log_many.
  assert (C1 : cwd s1 = cwd s) by apply cwd_log_many.
  destruct bk_output as [| | | |p| |];
    try (exists []; rewrite ?bind_raise; cbn [fst snd];
         split; [exact F1 | split; [constructor | discriminate]]).
  run_step.
  destruct (mkdir_error (env s1) (cwd s1) (path_parent p));
    [exists []; cbn [fst snd];
     split; [exact F1 | split; [constructor | discriminate]]|].
  destruct (write_text (env s1) (cwd s1) (path_str p)).
  - exists []. repeat run_step. unfold ret. cbn [fst snd].
    split; [|split; [constructor|intros n' [= <-]; cbn; lia]].
    repeat files_step.
  - exists [(cwd s1, path_str p, TextData buffer)].
    repeat run_step. unfold ret. cbn [fst snd].
    split; [|split].
    + repeat files_step.
    + constructor; [|constructor]. rewrite C1.
      exists bk_name, p, buffer. split; [now left | reflexivity].
    + intros n' [= <-]. cbn. lia.
Qed.

Lemma generate_items_counts (cooked : value) (license_text : option string)
    (exclude : value) (items : dict) (n : nat) (s : State) :
  exists files,
    files_written s
      (snd (generate_items cooked license_text exclude items n s)) files
    /\ Forall (output_file (cwd s) items) files
    /\ forall n',
         fst (generate_items cooked license_text exclude items n s) = Ok n' ->
         n' = (n + List.length files)%nat.
Proof.
  revert n s. induction items as [|[bk_name bk_output] items IH]; intros n s.
  - exists []. cbn. split; [apply files_written_refl|].
    split; [constructor|]. intros n' [= <-]. lia.
  - cbn [generate_items].
    destruct (generate_output_counts cooked license_text exclude bk_name
                bk_output n s) as (f1 & W1 & T1 & N1).
    apply (output_file_incl _ _ ((bk_name, bk_output) :: items)) in T1;
      [|intros x [<-|[]]; now left].
    unfold bind.
    destruct (generate_output cooked license_text exclude bk_name bk_output
                n s) as [[n1|e] s1]; cbn [fst snd] in *.
    + destruct (IH n1 s1) as (f2 & W2 & T2 & N2).
      exists (f1 ++ f2)%list. split; [|split].
      * eapply files_written_trans; eauto.
      * apply Forall_app. split; [exact T1|].
        destruct W1 as (_ & C & _). rewrite <- C.
        eapply output_file_incl; [|exact T2]. intros x Hx. now right.
      * intros n' Hn'. rewrite (N2 n' Hn'), (N1 n1 eq_refl), length_app. lia.
    + exists f1. split; [exact W1|]. split; [exact T1 | discriminate].
Qed.

Lemma generate_entries_counts (cooked : value) (license_text : option string)
    (exclude : value) (entries : list value) (n : nat) (s : State) :
  exists files,
    files_written s
      (snd (generate_entries cooked license_text exclude entries n s)) files
    /\ Forall (output_file (cwd s) (entry_items entries)) files
    /\ forall n',
         fst (generate_entries cooked license_text exclude entries n s)
         = Ok n' ->
         n' = (n + List.length files)%nat.
Proof.
  revert n s. induction entries as [|entry entries IH]; intros n s.
  - exists []. cbn. split; [apply files_written_refl|].
    split; [constructor|]. intros n' [= <-]. lia.
  - cbn [generate_entries].
    destruct (py_items entry) as [items|e] eqn:Hitems.
    2:{ exists []. rewrite bind_lift_raise. cbn [fst snd].
        split; [apply files_written_refl|].
        split; [constructor | discriminate]. }
    assert (Hentry : entry = JObj items)
      by (destruct entry; try discriminate Hitems; now injection Hitems as ->).
    subst entry. cbn [entry_items flat_map].
    rewrite bind_lift_ok.
    destruct (generate_items_counts cooked license_text exclude items n s)
      as (f1 & W1 & T1 & N1).
    apply (output_file_incl _ _ (items ++ entry_items entries)) in T1;
      [|intros x Hx; apply in_or_app; now left].
    unfold bind.
    destruct (generate_items cooked license_text exclude items n s)
      as [[n1|e] s1]; cbn [fst snd] in *.
    + destruct (IH n1 s1) as (f2 & W2 & T2 & N2).
      exists (f1 ++ f2)%list. split; [|split].
      * eapply files_written_trans; eauto.
      * apply Forall_app. split; [exact T1|].
        destruct W1 as (_ & C & _). rewrite <- C.
        eapply output_file_incl; [|exact T2].
        intros x Hx. apply in_or_app. now right.
      * intros n' Hn'. rewrite (N2 n' Hn'), (N1 n1 eq_refl), length_app. lia.
    + exists f1. split; [exact W1|]. split; [exact T1 | discriminate].
Qed.

Lemma entry_items_keys (keys : list string) :
  entry_items (map JStr keys) = [].
Proof. induction keys as [|k keys IH]; [reflexivity | exact IH]. Qed.

Lemma entry_items_chars (text : string) : entry_items (chars text) = [].
Proof. induction text as [|c text IH]; [reflexivity | exact IH]. Qed.

(** The outputs of the entries a loop over the [backends] of a
    descriptor visits. *)
Lemma backend_outputs_entries (desc backends_list : value)
    (entries : list value) :
  py_get desc "backends" = Ok backends_list ->
  py_iter backends_list = Ok entries ->
  entry_items entries = backend_outputs desc.
Proof.
  destruct desc as [| | | | | |d]; try discriminate. cbn [py_get].
  intros [= <-]. unfold backend_outputs, py_iter.
  destruct (dict_get d "backends"); try discriminate; intros [= <-].
  - apply entry_items_chars.
  - reflexivity.
  - apply entry_items_keys.
Qed.

(** X26: the number [verhel_generate_sources] returns is the number of
    files it has written.  Whatever the descriptor and the loaded
    backends, and whether it returns or raises, every file written is a
    text written at the path that an entry of the [backends] list of the
    descriptor gives as its output, as it is given (a relative path is
    taken from the working directory); the files are added after those
    written before and the working directory is the same. *)
Theorem verhel_generate_sources_counts_files :
  forall (project_name : string) (desc vcs_info : value) (s : State),
    exists files,
      written (snd (verhel_generate_sources project_name desc vcs_info s))
      = (written s ++ files)%list
      /\ cwd (snd (verhel_generate_sources project_name desc vcs_info s))
         = cwd s
      /\ Forall (output_file (cwd s) (backend_outputs desc)) files
      /\ forall n,
           fst (verhel_generate_sources project_name desc vcs_info s) = Ok n ->
           n = List.length files.
Proof.
  intros project_name desc vcs_info s.
  assert (Hrun : exists files,
      files_written s
        (snd (verhel_generate_sources project_name desc vcs_info s)) files
      /\ Forall (output_file (cwd s) (backend_outputs desc)) files
      /\ forall n,
           fst (verhel_generate_sources project_name desc vcs_info s) = Ok n ->
           n = List.length files).
  { unfold verhel_generate_sources, get_build_info. repeat run_step.
    set (s1 := tick (tick s)).
    assert (F1 : files_written s s1 []).
    { unfold files_written. subst s1. cbn [written cwd env printed tick].
      now rewrite app_nil_r. }
    assert (C1 : cwd s1 = cwd s) by reflexivity.
    clearbody s1.
    assert (Hskip : forall (rest : option string -> M nat) s2,
              files_written s s2 [] ->
              (forall lt s3, files_written s s3 [] ->
                 exists files,
                   files_written s (snd (rest lt s3)) files
                   /\ Forall (output_file (cwd s) (backend_outputs desc)) files
                   /\ forall n, fst (rest lt s3) = Ok n ->
                        n = List.length files) ->
              forall m : M (option string),
                (forall s', exists msgs r, m s' = (r, log_many msgs s')) ->
                exists files,
                  files_written s (snd (bind m rest s2)) files
                  /\ Forall (output_file (cwd s) (backend_outputs desc)) files
                  /\ forall n, fst (bind m rest s2) = Ok n ->
                       n = List.length files).
    { intros rest s2 F2 Hrest m Hm. destruct (Hm s2) as (msgs & r & Hr).
      unfold bind. rewrite Hr.
      assert (F3 : files_written s (log_many msgs s2) []).
      { eapply files_written_after;
          [exact F2 | apply files_written_log_many]. }
      destruct r as [lt|e]; [now apply Hrest|].
      exists []. cbn [fst snd]. split; [exact F3|].
      split; [constructor | discriminate]. }
    destruct (py_index desc "license.file") as [license_file|e].
    2:{ exists []. rewrite bind_lift_raise. cbn [fst snd].
        split; [exact F1 | split; [constructor | discriminate]]. }
    run_step.
    apply Hskip; [exact F1 | |].
    2:{ intros s'. unfold Log_error.
        destruct license_file as [| | | |path| |];
          try (eexists [], _; reflexivity).
        run_step.
        destruct (read_text (env s') (cwd s') path).
        - eexists [(_, _)], _. repeat run_step. reflexivity.
        - eexists [], _. reflexivity.
        - eexists [], _. reflexivity. }
    intros lt s3 F3.
    match goal with
    | |- context [bind (cook_info ?a ?b ?c ?d) ?k s3] =>
        pose proof (files_written_logs_only (cook_info a b c d) s3
                      (cook_info_logs_only a b c d)) as F4;
        destruct (cook_info a b c d s3) as [[cooked|e] s4] eqn:Hcook;
        cbn [fst snd] in F4
    end.
    2:{ exists []. erewrite bind_run_raise by exact Hcook. cbn [fst snd].
        split; [|split; [constructor|discriminate]].
        eapply files_written_after; eauto. }
    erewrite bind_run by exact Hcook.
    assert (F5 : files_written s s4 []).
    { eapply files_written_after; eauto. }
    destruct (py_get desc "exclude") as [exclude|e].
    2:{ exists []. rewrite bind_lift_raise. cbn [fst snd].
        split; [exact F5 | split; [constructor | discriminate]]. }
    unfold Log_info. repeat run_step.
    destruct (py_get desc "backends") as [backends_list|e] eqn:Hbk.
    2:{ exists []. rewrite bind_lift_raise. cbn [fst snd].
        split; [|split; [constructor|discriminate]].
        eapply files_written_after;
          [exact F5 | apply files_written_log_many]. }
    run_step.
    destruct (py_iter backends_list) as [entries|e] eqn:Hiter.
    2:{ exists []. rewrite bind_lift_raise. cbn [fst snd].
        split; [|split; [constructor|discriminate]].
        eapply files_written_after;
          [exact F5 | apply files_written_log_many]. }
    run_step.
    match goal with
    | |- context [generate_entries ?c ?l ?x entries 0 ?s5] =>
        destruct (generate_entries_counts c l x entries 0 s5)
          as (files & W & T & N);
        assert (F6 : files_written s s5 [])
          by (eapply files_written_after;
                [exact F5 | apply files_written_log_many])
    end.
    exists files. split; [|split].
    - eapply files_written_after; [exact F6 | exact W].
    - destruct F6 as (_ & C & _). rewrite <- C.
      now rewrite <- (backend_outputs_entries desc backends_list entries). 
    - intros n Hn. now rewrite (N n Hn). }
  destruct Hrun as (files & (W & C & _) & T & N).
  exists files. auto.
Qed.

End WrittenFiles.

Section GlobalTwice.
Context {RT : PyRuntime}.

(** ** Global fallback, twice *)

Lemma fill_from_twice (g d : dict) : fill_from g (fill_from g d) = fill_from g d.
Proof.
  unfold fill_from. rewrite map_map. apply map_ext. intros [k v].
  cbn [fst snd]. destruct (is_none v) eqn:Hv; cbn [fst snd].
  - now destruct (is_none (dict_get g k)).
  - now rewrite Hv.
Qed.

(** X27: global fallback is idempotent.  For a project and a global
    descriptor of the store, not the same one, running
    [use_global_desc_values] a second time leaves the store as the first
    run left it. *)
Theorem use_global_desc_values_idempotent :
  forall (ps : dict) (project_name glob_name : string) (d g : dict)
         (s : State),
    projects s = JObj ps ->
    dict_find ps project_name = Some (JObj d) ->
    dict_find ps glob_name = Some (JObj g) ->
    glob_name <> project_name ->
    dict_wf d ->
    exists s1 s2,
      use_global_desc_values project_name (Some glob_name) s = (Ok tt, s1)
      /\ use_global_desc_values project_name (Some glob_name) s1 = (Ok tt, s2)
      /\ projects s2 = projects s1.
Proof.
  intros ps pname gname d g s Hp Hd Hg Hne Hwf.
  destruct (use_global_desc_values_run ps pname gname d g s Hp Hd Hg Hwf)
    as (s1 & R1 & P1 & _).
  destruct (use_global_desc_values_run
              (dict_set ps pname (JObj (fill_from g d))) pname gname
              (fill_from g d) g s1 P1) as (s2 & R2 & P2 & _).
  - apply dict_find_set_same.
  - rewrite dict_find_set_other by exact Hne. exact Hg.
  - unfold dict_wf. rewrite fill_from_keys. exact Hwf.
  - exists s1, s2. split; [exact R1|]. split; [exact R2|].
    rewrite P2, P1, fill_from_twice, dict_set_set. reflexivity.
Qed.

End GlobalTwice.

Section RequestExamples.
#[local] Existing Instance AsciiRuntime.runtime.

(** ** The further results on the sample store *)

Ltac distinct_names :=
  unfold dict_wf; cbn [dict_keys map fst];
  repeat (constructor;
          [ cbn [In]; intros H;
            repeat (destruct H as [H|H]; [discriminate H|]); exact H | ]);
  constructor.

Ltac declared_query :=
  do 3 eexists; split; [reflexivity | split; reflexivity].

Ltac accepted_query :=
  do 3 eexists;
  split; [eexists; split; [reflexivity | split; reflexivity]|];
  split; [reflexivity|];
  split; [intros; reflexivity | reflexivity].

(** [set demo project.author Ada]. *)
Lemma set_stores_value_witness :
  exists s',
    set (property_args "demo" "project.author" "Ada") sample_state
    = (Ok ExitCodes.SUCCESS, s')
    /\ projects s'
       = JObj (dict_set sample_projects "demo"
                 (JObj (dict_set demo_project "project.author" (JStr "Ada"))))
    /\ written s'
       = [("/work", "verhel.json",
           JsonData
             (JObj (dict_set sample_projects "demo"
                      (JObj (dict_set demo_project "project.author"
                               (JStr "Ada"))))))]
    /\ printed s' = [].
Proof.
  exact (set_stores_value (property_args "demo" "project.author" "Ada")
           sample_projects demo_project (JStr "Ada") sample_state
           eq_refl eq_refl eq_refl eq_refl).
Defined.

(** [delete nobody]. *)
Lemma unknown_project_stops_command_witness :
  exists s',
    delete (sample_args "nobody") sample_state
    = (Ok ExitCodes.PROJECT_DOESNT_EXISTS, s')
    /\ logged FATAL "project 'nobody' doesn't exists" s'
    /\ projects s' = JObj sample_projects
    /\ frontends s' = frontends sample_state
    /\ nothing_produced sample_state s'.
Proof.
  exact (unknown_project_stops_command (sample_args "nobody") sample_projects
           sample_state delete eq_refl eq_refl
           (or_introl (or_introl eq_refl))).
Defined.

(** [validate demo --projects-file missing.json]. *)
Lemma unreadable_projects_file_stops_command_witness :
  exists s',
    validate (file_args "demo" "missing.json") sample_state
    = (Ok ExitCodes.FAILED_TO_LOAD_PROJECTS, s')
    /\ only_logged sample_state s'.
Proof.
  exact (unreadable_projects_file_stops_command
           (file_args "demo" "missing.json") sample_state validate
           (or_introl (ex_intro _ "No such file or directory" eq_refl))
           (or_introl (or_intror (or_introl eq_refl)))).
Defined.

(** [get demo colour]. *)
Lemma invalid_property_name_stops_command_witness :
  exists s',
    get (property_args "demo" "colour" "") sample_state
    = (Ok ExitCodes.INVALID_KEY, s')
    /\ only_logged sample_state s'.
Proof.
  exact (invalid_property_name_stops_command
           (property_args "demo" "colour" "") sample_state get
           eq_refl (or_introl eq_refl)).
Defined.

(** [set demo exclude build.date] leaves a project that validation
    refuses. *)
Lemma set_then_validate_witness :
  exists s' d',
    set (property_args "demo" "exclude" "build.date") sample_state
    = (Ok ExitCodes.SUCCESS, s')
    /\ projects s' = JObj (dict_set sample_projects "demo" (JObj d'))
    /\ validate_checks (JObj d') <> Ok tt.
Proof.
  destruct (set_then_validate (property_args "demo" "exclude" "build.date")
              sample_projects demo_project (JStr "build.date") sample_state
              eq_refl eq_refl eq_refl eq_refl eq_refl)
    as (s' & d' & R & P & V).
  exists s', d'. split; [exact R|]. split; [exact P|].
  intros H. apply V in H. destruct H as [_ H]. now apply H.
Defined.

(** [set demo backends.cpp out/v.hpp]. *)
Lemma set_backend_raises_key_error_witness :
  exists s',
    set (property_args "demo" "backends.cpp" "out/v.hpp") sample_state
    = (Raise (KeyError "cpp"), s')
    /\ projects s' = JObj sample_projects
    /\ outside_projects sample_state s'.
Proof.
  refine (set_backend_raises_key_error
            (property_args "demo" "backends.cpp" "out/v.hpp")
            sample_projects demo_project "cpp" sample_state
            eq_refl _ eq_refl eq_refl eq_refl eq_refl).
  discriminate.
Defined.

(** [delete quiet]. *)
Lemma delete_removes_project_witness :
  exists s' ps',
    delete (sample_args "quiet") sample_state = (Ok ExitCodes.SUCCESS, s')
    /\ projects s' = JObj ps'
    /\ written s' = [("/work", "verhel.json", JsonData (JObj ps'))]
    /\ printed s' = []
    /\ dict_find ps' "quiet" = None
    /\ forall name, name <> "quiet" ->
         dict_find ps' name = dict_find sample_projects name.
Proof.
  refine (delete_removes_project (sample_args "quiet") sample_projects
            quiet_project sample_state _ eq_refl eq_refl).
  distinct_names.
Defined.

(** [init fresh --projects-file verhel.json]. *)
Lemma init_adds_empty_project_witness :
  exists s',
    init (file_args "fresh" "verhel.json") sample_state
    = (Ok ExitCodes.SUCCESS, s')
    /\ projects s'
       = JObj (sample_projects ++ [("fresh", JObj empty_project)])
    /\ written s'
       = [("/work", "verhel.json",
           JsonData
             (JObj (sample_projects ++ [("fresh", JObj empty_project)])))]
    /\ printed s' = [].
Proof.
  refine (init_adds_empty_project (file_args "fresh" "verhel.json")
            "verhel.json" sample_projects sample_state eq_refl eq_refl _).
  cbn [dict_keys map fst sample_projects In]. intros H.
  repeat (destruct H as [H|H]; [discriminate H|]). exact H.
Defined.

(** [init demo --projects-file verhel.json]. *)
Lemma init_existing_project_witness :
  exists s',
    init (file_args "demo" "verhel.json") sample_state
    = (Ok ExitCodes.PROJECT_ALREADY_EXISTS, s')
    /\ projects s' = JObj sample_projects
    /\ outside_projects sample_state s'.
Proof.
  exact (init_existing_project (file_args "demo" "verhel.json") "verhel.json"
           sample_projects sample_state eq_refl eq_refl eq_refl
           (or_introl eq_refl)).
Defined.

(** [init fresh]. *)
Lemma init_requires_projects_file_witness :
  exists message s',
    init (sample_args "fresh") sample_state = (Raise (TypeError message), s')
    /\ only_logged sample_state s'.
Proof.
  exact (init_requires_projects_file (sample_args "fresh") sample_state
           eq_refl).
Defined.

(** [validate demo], and [validate clashing]. *)
Lemma validate_reports_witness :
  (exists s',
     (validate (sample_args "demo") sample_state = (Ok ExitCodes.SUCCESS, s')
      /\ printed s' = ["OK"])
     /\ projects s' = JObj sample_projects
     /\ written s' = [])
  /\ exists s',
       (validate (sample_args "clashing") sample_state
        = (Ok ExitCodes.PROJECT_VALIDATION_FAILED, s')
        /\ logged FATAL "failed to validate project 'clashing'" s')
       /\ projects s' = JObj sample_projects
       /\ written s' = [].
Proof.
  split.
  - exact (validate_reports (sample_args "demo") sample_projects demo_project
             sample_state eq_refl eq_refl).
  - exact (validate_reports (sample_args "clashing") sample_projects
             clashing_project sample_state eq_refl eq_refl).
Defined.

(** [get demo license.spdx]. *)
Lemma get_prints_value_witness :
  exists s',
    (get (property_args "demo" "license.spdx" "") sample_state
     = (Ok ExitCodes.SUCCESS, s')
     /\ printed s' = ["MIT"])
    /\ projects s' = JObj sample_projects
    /\ written s' = [].
Proof.
  exact (get_prints_value (property_args "demo" "license.spdx" "")
           sample_projects demo_project sample_state eq_refl eq_refl eq_refl).
Defined.

(** [get demo backends.cpp], and [get demo backends.rust]. *)
Lemma get_backend_output_witness :
  (exists s',
     (get (property_args "demo" "backends.cpp" "") sample_state
      = (Ok ExitCodes.SUCCESS, s')
      /\ printed s' = ["out/version.hpp"])
     /\ projects s' = JObj sample_projects
     /\ written s' = [])
  /\ exists s',
       (get (property_args "demo" "backends.rust" "") sample_state
        = (Ok ExitCodes.BACKEND_DOESNT_EXISTS, s')
        /\ logged FATAL "backend 'rust' doesn't exists" s')
       /\ projects s' = JObj sample_projects
       /\ written s' = [].
Proof.
  split.
  - refine (get_backend_output (property_args "demo" "backends.cpp" "")
              sample_projects demo_project "cpp" [("cpp", "out/version.hpp")]
              sample_state eq_refl _ eq_refl eq_refl eq_refl).
    discriminate.
  - refine (get_backend_output (property_args "demo" "backends.rust" "")
              sample_projects demo_project "rust" [("cpp", "out/version.hpp")]
              sample_state eq_refl _ eq_refl eq_refl eq_refl).
    discriminate.
Defined.

(** [generate plain]: a project with no version. *)
Lemma generate_stops_before_output_witness :
  exists s',
    generate (sample_args "plain") sample_state
    = (Ok ExitCodes.VERSION_IS_NULL, s')
    /\ logged FATAL "version.major is null" s'
    /\ nothing_produced sample_state s'.
Proof.
  exact (proj2 (proj2 (generate_stops_before_output (sample_args "plain")
                         sample_projects [] sample_state eq_refl eq_refl))
           eq_refl eq_refl (or_introl eq_refl)).
Defined.

(** The repository without a tag, when only 0 is accepted. *)
Lemma get_vcs_info_refused_tag_witness :
  query_refused sample_state strict_frontend "get.tag"
  /\ exists info s',
       get_vcs_info (JObj strict_frontend) (JStr "git") sample_state
       = (Ok info, s')
       /\ dict_get info "tag" = JNull
       /\ dict_get info "commit_hash" = JStr "0a1b2c3d4e5f"
       /\ dict_get info "branch" = JStr "main".
Proof.
  assert (Hhash : query_exits sample_state strict_frontend "get.commit_hash" 0
                    ("0a1b2c3d4e5f" ++ nl)) by accepted_query.
  assert (Htag : query_refused sample_state strict_frontend "get.tag").
  { do 3 eexists.
    split; [eexists; split; [reflexivity | split; reflexivity]|].
    split; [reflexivity|]. intros n. reflexivity. }
  assert (Hbranch : query_exits sample_state strict_frontend "get.branch" 0
                      ("main" ++ nl)) by accepted_query.
  assert (Hshort : query_declared strict_frontend "get.short_hash")
    by declared_query.
  assert (Hcount : query_declared strict_frontend "get.commit_count")
    by declared_query.
  assert (Hnum : count_is_numeric sample_state strict_frontend).
  { intros line args codes n rc out (o & Ho & Hc & Hr) Hsplit Hexec Hacc.
    vm_compute in Ho. injection Ho as <-.
    vm_compute in Hc. injection Hc as <-.
    vm_compute in Hsplit. injection Hsplit as <-.
    vm_compute in Hexec. injection Hexec as <- <-.
    vm_compute. discriminate. }
  split; [exact Htag|].
  exact (get_vcs_info_refused_tag strict_frontend (JStr "git") sample_state
           0 0 ("0a1b2c3d4e5f" ++ nl) ("main" ++ nl)
           Hhash Hshort Htag Hbranch Hcount Hnum).
Defined.

(** A commit count that is a hash. *)
Lemma get_vcs_info_count_not_numeric_witness :
  int_of_str (str_strip ("0a1b2c3d4e5f" ++ nl)) = None
  /\ exists message s',
       get_vcs_info (JObj hash_count_frontend) (JStr "git") sample_state
       = (Raise (ValueError message), s').
Proof.
  assert (H1 : query_declared hash_count_frontend "get.commit_hash")
    by declared_query.
  assert (H2 : query_declared hash_count_frontend "get.short_hash")
    by declared_query.
  assert (H3 : query_declared hash_count_frontend "get.tag")
    by declared_query.
  assert (H4 : query_declared hash_count_frontend "get.branch")
    by declared_query.
  assert (Hc : query_exits sample_state hash_count_frontend
                 "get.commit_count" 0 ("0a1b2c3d4e5f" ++ nl))
    by accepted_query.
  split; [reflexivity|].
  exact (get_vcs_info_count_not_numeric hash_count_frontend (JStr "git")
           sample_state 0 ("0a1b2c3d4e5f" ++ nl) H1 H2 H3 H4 Hc eq_refl).
Defined.

(** The sample repository exists; with the tag query as the repository
    check, which exits with 128 where only 0 is accepted, it does not. *)
Lemma check_if_project_repo_exists_decides_witness :
  (exists s',
     check_if_project_repo_exists (JObj git_frontend) sample_state
     = (Ok tt, s')
     /\ same_place sample_state s'
     /\ written s' = [])
  /\ exists s',
       check_if_project_repo_exists (JObj no_repo_frontend) sample_state
       = (Raise (VerHelError ExitCodes.REPO_DOESNT_EXISTS), s')
       /\ same_place sample_state s'
       /\ written s' = []
       /\ logged FATAL "version control repository doesn't exists" s'.
Proof.
  split.
  - destruct (check_if_project_repo_exists_decides git_frontend
                "git rev-parse --git-dir" ["git"; "rev-parse"; "--git-dir"]
                [JInt 0] sample_state)
      as (s' & R & P & W & _); [eexists; split; [reflexivity | split; reflexivity] | reflexivity |].
    exists s'. auto.
  - destruct (check_if_project_repo_exists_decides no_repo_frontend
                "git describe --tags --abbrev=0 --exact-match"
                ["git"; "describe"; "--tags"; "--abbrev=0"; "--exact-match"]
                [JInt 0] sample_state)
      as (s' & R & P & W & G); [eexists; split; [reflexivity | split; reflexivity] | reflexivity |].
    exists s'. split; [exact R|]. split; [exact P|]. split; [exact W|].
    exact (G 128%Z "" eq_refl eq_refl).
Defined.

(** No backend is loaded, and the flag is off: the one backend of the
    project is missing, and one is the number of entries. *)
Lemma check_if_backends_exists_outcome_witness :
  exists msgs,
    check_if_backends_exists
      (JList [JObj [("cpp", JStr "out/version.hpp")]]) sample_state
    = (Ok tt,
       log_many
         (msgs ++ [(SUCCESS, "all backends used by project are implemented")])
         sample_state).
Proof.
  exact (check_if_backends_exists_outcome [] [("cpp", "out/version.hpp")]
           sample_state eq_refl).
Defined.

(** [demo] has no directory of its own. *)
Lemma cd_into_project_directory_needs_null_witness :
  exists s',
    cd_into_project_directory (JObj demo_project) sample_state = (Ok tt, s')
    /\ cwd s' = "/work"
    /\ written s' = [].
Proof.
  exact (cd_into_project_directory_needs_null demo_project sample_state
           eq_refl eq_refl).
Defined.

(** The cooked information of [demo]. *)
Lemma cook_info_keys_and_fallbacks_witness :
  exists info msgs,
    cook_info "demo" (JObj demo_project)
      (JObj [("date", JStr "2021-06-01"); ("time", JStr "12:00:00")])
      (JObj []) sample_state
    = (Ok info, log_many msgs sample_state)
    /\ dict_keys info = cooked_keys
    /\ dict_get info "project.name" = JStr "demo"
    /\ (forall key,
          In key ["project.author"; "project.copyright";
                  "project.description"; "project.directory"] ->
          dict_get info key = or_else (dict_get demo_project key) (JStr ""))
    /\ dict_get info "project.license" = JStr "MIT"
    /\ dict_get info "vcs.name" = JStr ""
    /\ dict_get info "project.company" = JNull
    /\ dict_get info "license.spdx" = JStr "MIT"
    /\ dict_get info "project.path" = JStr "/work".
Proof.
  exact (cook_info_keys_and_fallbacks "demo" demo_project
           [("date", JStr "2021-06-01"); ("time", JStr "12:00:00")] []
           sample_state eq_refl eq_refl).
Defined.

(** The built-in backend on the cooked information of [demo]: the line of
    the major version, and none for the tag, which is null. *)
Lemma backend_generate_returns_witness :
  backend_generate (JObj cpp_backend) (JObj demo_cooked) None
    (JList [JStr "build.time"]) sample_state
  = (Ok (source_heading (JStr "//") None (dict_get demo_cooked "license.spdx")
         ++ ("#pragma once" ++ nl ++ nl ++ "namespace verhel {" ++ nl ++ nl)
         ++ joined
              (map (var_line
                      ("    inline constexpr auto ", " = ", ";" ++ nl)
                      ("    inline constexpr auto ", " = " ++ dq,
                       dq ++ ";" ++ nl)
                      demo_cooked [JStr "build.time"]) cpp_vars)
         ++ (nl ++ "} // namespace verhel" ++ nl)
         ++ nl ++ "//" ++ " generated using verhel.py " ++ "//" ++ nl),
     log_many (flat_map (var_warnings demo_cooked [JStr "build.time"]) cpp_vars)
       sample_state)
  /\ source_heading (JStr "//") None (dict_get demo_cooked "license.spdx")
     = "// SPDX-License-Identifier: MIT" ++ nl
  /\ var_line ("    inline constexpr auto ", " = ", ";" ++ nl)
       ("    inline constexpr auto ", " = " ++ dq, dq ++ ";" ++ nl)
       demo_cooked [JStr "build.time"]
       ("version.major", JStr "VERSION_MAJOR      ")
     = "    inline constexpr auto VERSION_MAJOR       = 1;" ++ nl
  /\ var_line ("    inline constexpr auto ", " = ", ";" ++ nl)
       ("    inline constexpr auto ", " = " ++ dq, dq ++ ";" ++ nl)
       demo_cooked [JStr "build.time"] ("vcs.tag", JStr "VCS_TAG            ")
     = "".
Proof.
  split; [|repeat split; reflexivity].
  refine (backend_generate_returns cpp_backend demo_cooked
            ("    inline constexpr auto ", " = ", ";" ++ nl)
            ("    inline constexpr auto ", " = " ++ dq, dq ++ ";" ++ nl)
            ("#pragma once" ++ nl ++ nl ++ "namespace verhel {" ++ nl ++ nl)
            (nl ++ "} // namespace verhel" ++ nl) (JStr "//") cpp_vars
            None [JStr "build.time"] sample_state _ eq_refl _).
  - repeat split; reflexivity.
  - intros p Hin. unfold cpp_vars in Hin. cbn [In] in Hin.
    repeat (destruct Hin as [Hin|Hin]; [subst p; reflexivity|]).
    destruct Hin.
Defined.

(** [demo] has no VCS information: its [vcs.tag] is null when the
    built-in backend comes to it.  The backend returns a text, the same
    as without the entry, and the warning is in the log. *)
Lemma backend_generate_skips_null_witness :
  py_index (JObj demo_cooked) "vcs.tag" = Ok JNull
  /\ (forall ss s0,
        emit_var (dict_get cpp_backend "format.number")
          (dict_get cpp_backend "format.string") (JObj demo_cooked)
          (JList [JStr "build.time"]) (nth 17 cpp_var_map JNull) ss s0
        = (Ok ss,
           log_many [(WARNING, "emiting value 'vcs.tag' is null")] s0))
  /\ exists text s',
       backend_generate (JObj cpp_backend) (JObj demo_cooked) None
         (JList [JStr "build.time"]) sample_state = (Ok text, s')
       /\ logged WARNING "emiting value 'vcs.tag' is null" s'
       /\ fst (backend_generate
                 (JObj (dict_set cpp_backend "var_map"
                          (JList (firstn 17 cpp_var_map
                                  ++ skipn 18 cpp_var_map))))
                 (JObj demo_cooked) None (JList [JStr "build.time"])
                 sample_state)
          = Ok text.
Proof.
  split; [reflexivity|].
  destruct (backend_generate_skips_null cpp_backend (JObj demo_cooked) None
              (JList [JStr "build.time"])
              (firstn 17 cpp_var_map) (skipn 18 cpp_var_map)
              (nth 17 cpp_var_map JNull) (JStr "VCS_TAG            ") "vcs.tag"
              sample_state eq_refl eq_refl eq_refl eq_refl)
    as (Hround & Hsame & _ & Hreturns).
  split; [exact Hround|].
  destruct (Hreturns demo_cooked [JStr "build.time"]
              ("    inline constexpr auto ", " = ", ";" ++ nl)
              ("    inline constexpr auto ", " = " ++ dq, dq ++ ";" ++ nl)
              ("#pragma once" ++ nl ++ nl ++ "namespace verhel {" ++ nl ++ nl)
              (nl ++ "} // namespace verhel" ++ nl) (JStr "//") cpp_vars
              eq_refl eq_refl)
    as (text & s' & R & L).
  - repeat split; reflexivity.
  - reflexivity.
  - intros p Hin. unfold cpp_vars in Hin. cbn [In] in Hin.
    repeat (destruct Hin as [Hin|Hin]; [subst p; reflexivity|]).
    destruct Hin.
  - exists text, s'. split; [exact R|]. split; [exact L|].
    rewrite <- Hsame, R. reflexivity.
Defined.

(** [demo] takes its missing values from [_Global] once. *)
Lemma use_global_desc_values_idempotent_witness :
  exists s1 s2,
    use_global_desc_values "demo" (Some "_Global") loaded_state = (Ok tt, s1)
    /\ use_global_desc_values "demo" (Some "_Global") s1 = (Ok tt, s2)
    /\ projects s2 = projects s1.
Proof.
  refine (use_global_desc_values_idempotent sample_projects "demo" "_Global"
            demo_project global_project loaded_state
            eq_refl eq_refl eq_refl _ _).
  - discriminate.
  - distinct_names.
Defined.


End RequestExamples.
